(** * ADNI2BIDS: naming classification and rename planning

    A shallow embedding of the decision logic of the ADNI to BIDS
    converter, together with proofs of its documented properties:

    - [map_modality_to_bids] of [adni2bids_converter.py], the classifier
      from an acquisition directory name to a (category, suffix) pair;
    - [plan_renames] and [execute_renames] of [fix_bids_naming.py], the
      planner and executor that turn letter suffixes into numeric ones.

    Python [str] values are modelled as [string] (ASCII text; where a
    property depends on it, [PyStr.is_ascii] is a hypothesis), [dict]
    literals as association lists in insertion order, exceptions as the
    [Raise] constructor of [outcome], and [logger.warning] calls as the
    log carried by [Return].  The state of the file system is what
    [os.path.exists] answers for each path string; what the operating
    system does when asked to move a file, to look at a path or to run
    a program is a parameter of the code that asks. *)

From Stdlib Require Import Ascii String DecimalString DecimalNat Sorted.
From stdpp Require Import gmap strings list fin_maps.

#[local] Open Scope string_scope.

(** ** Python string primitives *)

Module PyStr.

(** [c.upper()] on one ASCII character. *)
Definition upper_ascii (c : ascii) : ascii :=
  let n := nat_of_ascii c in
  if (97 <=? n)%nat && (n <=? 122)%nat then ascii_of_nat (n - 32) else c.

(** [s.upper()] *)
Fixpoint upper (s : string) : string :=
  match s with
  | EmptyString => EmptyString
  | String c s' => String (upper_ascii c) (upper s')
  end.

(** [s.isascii()] *)
Fixpoint is_ascii (s : string) : bool :=
  match s with
  | EmptyString => true
  | String c s' => (nat_of_ascii c <? 128)%nat && is_ascii s'
  end.

(** [needle in hay]: [needle] occurs somewhere in [hay]. *)
Fixpoint contains (needle hay : string) : bool :=
  String.prefix needle hay ||
  match hay with
  | EmptyString => false
  | String _ hay' => contains needle hay'
  end.

(** [s.replace(old, new)] for a non-empty [old]: scan left to right,
    [skip] counts the characters of a match still to be dropped. *)
Fixpoint replace_from (old new : string) (skip : nat) (s : string) : string :=
  match s with
  | EmptyString => EmptyString
  | String c s' =>
      match skip with
      | S k => replace_from old new k s'
      | O =>
          if String.prefix old s
          then new ++ replace_from old new (String.length old - 1) s'
          else String c (replace_from old new 0 s')
      end
  end.

(** [s.replace("", new)] puts [new] before every character and at the end. *)
Fixpoint intersperse (new s : string) : string :=
  match s with
  | EmptyString => new
  | String c s' => new ++ String c (intersperse new s')
  end.

Definition replace (old new s : string) : string :=
  match old with
  | EmptyString => intersperse new s
  | String _ _ => replace_from old new 0 s
  end.

(** [s.split(sep)[0]] for a non-empty [sep]: the text before the first
    occurrence of [sep], the whole of [s] when there is none. *)
Fixpoint split_head (sep s : string) : string :=
  match s with
  | EmptyString => EmptyString
  | String c s' =>
      if String.prefix sep s then EmptyString else String c (split_head sep s')
  end.

(** [str(n)] for a natural number. *)
Definition str_of_nat (n : nat) : string :=
  NilZero.string_of_uint (Nat.to_uint n).

(** [f"{n:02d}"]: decimal, padded with zeros on the left to width 2. *)
Definition fmt02 (n : nat) : string :=
  let s := str_of_nat n in
  if (String.length s <? 2)%nat then "0" ++ s else s.

(** Reading a decimal numeral back, used to state round trips. *)
Definition nat_of_str (s : string) : option nat :=
  Nat.of_uint <$> NilZero.uint_of_string s.

End PyStr.

(** ** Outcomes: a returned value with its warning log, or an exception *)

Inductive outcome (A : Type) : Type :=
| Return (a : A) (log : list string)
| Raise (exn : string).
Arguments Return {A} a log.
Arguments Raise {A} exn.

#[global] Instance outcome_ret : MRet outcome := λ A a, Return a [].

#[global] Instance outcome_bind : MBind outcome := λ A B f m,
  match m with
  | Raise e => Raise e
  | Return a l =>
      match f a with
      | Raise e => Raise e
      | Return b l' => Return b (l ++ l')%list
      end
  end.

(** [logger.warning(msg)] *)
Definition warning (msg : string) : outcome unit := Return tt [msg].

(** ** Dictionaries in insertion order *)

Module Dict.
Section dict.
Context {V : Type}.

(** [d.get(k)] *)
Fixpoint get (k : string) (d : list (string * V)) : option V :=
  match d with
  | [] => None
  | (k', v) :: d' => if String.eqb k k' then Some v else get k d'
  end.

(** [k in d] *)
Definition mem (k : string) (d : list (string * V)) : bool :=
  match get k d with Some _ => true | None => false end.

(** [d[k]], which raises [KeyError] on a missing key. *)
Definition subscript (d : list (string * V)) (k : string) : outcome V :=
  match get k d with
  | Some v => mret v
  | None => Raise "KeyError"
  end.
End dict.
End Dict.

(** ** The category classifier ([adni2bids_converter.py]) *)

Module Converter.

(** The pair returned by the classifier; [None] is Python's [None]. *)
Definition bids_pair : Type := option string * option string.

(** [self.modality_mapping] *)
Definition modality_mapping : list (string * string) :=
  [ ("MPRAGE", "anat");
    ("MP-RAGE", "anat");
    ("Accelerated_Sagittal_MPRAGE", "anat");
    ("Accelerated_Sagittal_MPRAGE__MSV21_", "anat");
    ("Accelerated_Sagittal_MPRAGE__MSV22_", "anat");
    ("Accelerated_Sagittal_MPRAGE_ND", "anat");
    ("Sagittal_3D_Accelerated_MPRAGE", "anat");
    ("MPRAGE_GRAPPA2", "anat");
    ("MPRAGE_SENSE2", "anat");
    ("Accelerated_Sag_IR-FSPGR", "anat");
    ("Accelerated_Sagittal_IR-FSPGR", "anat");
    ("Sag_IR-FSPGR", "anat");
    ("Sag_IR-SPGR", "anat");
    ("Accelerated_Sag_IR-SPGR", "anat");
    ("MP-RAGE_REPEAT", "anat");
    ("IR-FSPGR-Repeat", "anat");
    ("REPEAT_SAG_3D_MP_RAGE", "anat");
    ("REPEAT_SAG_3D_MP_RAGE_NO_ANGLE", "anat");
    ("MP_RAGE_SAGITTAL_REPEAT", "anat");
    ("MP_RAGE_SAGITTAL", "anat");
    ("SAG_MPRAGE_NO_ANGLE", "anat");
    ("SAG_MPRAGE_GRAPPA2_NO_ANGLE", "anat");
    ("SAG_3D_MPRAGE", "anat");
    ("SAG_3D_MPRAGE_NO_ANGLE", "anat");
    ("IR-SPGR", "anat");
    ("IR-SPGR_w_acceleration", "anat");
    ("IR-FSPGR", "anat");
    ("IR-FSPGR__replaces_MP-Rage_", "anat");
    ("MP-RAGE-Repeat", "anat");
    ("MPRAGE_Repeat", "anat");
    ("MP-RAGE-REPEAT", "anat");
    ("MPRAGE_repeat", "anat");
    ("CS_Sagittal_MPRAGE__MSV22_", "anat");
    ("Accelerated_Sagittal_MPRAGE_REPEAT", "anat");
    ("Accelerated_Sagittal_MPRAGE_repeat", "anat");
    ("Accelerated_Sagittal_MPRAGE_MSV21", "anat");
    ("Sagittal_3D_Accelerated_MPRAGE__MSV21_", "anat");
    ("Sagittal_3D_Accelerated_MPRAGE_REPEAT", "anat");
    ("Accelerated_Sagittal_MPRAGE_MPR_Cor", "anat");
    ("Accelerated_Sagittal_MPRAGE_MPR_Tra", "anat");
    ("REPEAT_SAG_3D_MPRAGE", "anat");
    ("Accelerated_SAG_IR-SPGR", "anat");
    ("Sag_IR-SPGR-REPEAT", "anat");
    ("HS_Sagittal_MPRAGE__MSV22_", "anat");
    ("MPRAGE_S2_DIS2D", "anat");
    ("3D_T1_SAG", "anat");
    ("3D_MPRAGE", "anat");
    ("VWIP_Coronal_3D_Accelerated_MPRAGE", "anat");
    ("Sagittal_3D_FLAIR", "anat");
    ("Sagittal_3D_FLAIR__MSV22_", "anat");
    ("Sagittal_3D_FLAIR__MSV23_", "anat");
    ("Axial_FLAIR", "anat");
    ("Sagittal_3D_T2_SPACE__MSV21_", "anat");
    ("Sagittal_3D_T2_Vista__MSV21_", "anat");
    ("CS_Sagittal_3D_T2_Vista__MSV24_", "anat");
    ("Sagittal_3D_T2_SPACE_MSV21", "anat");
    ("AXIAL_FLAIR", "anat");
    ("FLAIR", "anat");
    ("t2_flair_SAG", "anat");
    ("Sagittal_3D_FLAIR_MSV33", "anat");
    ("Sagittal_3D_FLAIR_MPR_Cor", "anat");
    ("Sagittal_3D_FLAIR_MPR_Tra", "anat");
    ("CS_Sagittal_3D_FLAIR__MSV24_", "anat");
    ("Sagittal_3D_FLAIR__MSV23__RPT", "anat");
    ("Sagittal_3D_FLAIR_Repeat", "anat");
    ("Axial_3D_FLAIR", "anat");
    ("Axial_rsfMRI__Eyes_Open_", "func");
    ("Axial_rsfMRI__EYES_OPEN_", "func");
    ("Axial_fcMRI__EYES_OPEN_", "func");
    ("Axial_fcMRI__Eyes_Open_", "func");
    ("Axial_MB_rsfMRI__Eyes_Open_", "func");
    ("Axial_HB_rsfMRI__Eyes_Open___MSV22_", "func");
    ("Axial_HB_rsfMRI__Eyes_Open_", "func");
    ("Resting_State_fMRI", "func");
    ("Extended_Resting_State_fMRI", "func");
    ("Axial_fcMRI", "func");
    ("Axial_MB_rsfMRI__EYES_OPEN___MSV22_", "func");
    ("Axial_rsfMRI__Eyes_Open__MSV21_", "func");
    ("Axial_rsfMRI__Eyes_Open___MSV21", "func");
    ("Axial_rsfMRI__Eyes_Open___MSV21_", "func");
    ("Axial_fcMRI__EYES_OPEN__REPEAT", "func");
    ("AXIAL_RS_fMRI__EYES_OPEN_", "func");
    ("Axial_MB_rsfMRI_AP", "func");
    ("Extended_AXIAL_rsfMRI_EYES_OPEN", "func");
    ("Axial_RESTING_fcMRI__EYES_OPEN_", "func");
    ("Axial_-_Advanced_fMRI_64_Channel", "func");
    ("epi_2s_resting_state", "func");
    ("Axial_MB_DTI_PA__MSV21_", "dwi");
    ("Axial_MB_DTI_AP__MSV21_", "dwi");
    ("Axial_HB_dMRI__MS21_", "dwi");
    ("Axial_MB_dMRI_PA__MSV21_", "dwi");
    ("Axial_MB_dMRI_AP__MSV21_", "dwi");
    ("Axial_DTI", "dwi");
    ("Axial_DTI__MSV21_", "dwi");
    ("Axial_MB_dMRI_A__P__MSV21_", "dwi");
    ("Axial_MB_dMRI_P__A__MSV21_", "dwi");
    ("Axial_dMRI__MSV21_", "dwi");
    ("Axial_MB_DTI", "dwi");
    ("Axial_DTI__MSV20_", "dwi");
    ("Axial_DTI_MSV21", "dwi");
    ("Axial_Field_Mapping", "fmap");
    ("Field_Mapping", "fmap");
    ("WIP_Field_Mapping", "fmap");
    ("Field_Mapping_REPEAT", "fmap");
    ("Field_Mapping_repeat", "fmap");
    ("Perfusion_Weighted", "perf");
    ("ASL_Perfusion", "perf");
    ("Axial_2D_PASL", "perf");
    ("Axial_3D_PASL", "perf");
    ("SOURCE_-_Axial_2D_PASL", "perf");
    ("Axial_3D_PASL__Eyes_Open_", "perf");
    ("WIP_SOURCE_-_Axial_3D_pCASL__Eyes_Open_", "perf");
    ("AAHead_Scout", "exclude");
    ("AAHead_Scout_MPR_sag", "exclude");
    ("AAHead_Scout_MPR_cor", "exclude");
    ("AAHead_Scout_MPR_tra", "exclude");
    ("Calibration_Scan", "exclude");
    ("relCBF", "exclude");
    ("MoCoSeries", "exclude");
    ("Cal_8HRBRAIN", "exclude");
    ("B1-Calibration_PA", "exclude");
    ("B1-Calibration_Body", "exclude");
    ("B1-calibration_Body", "exclude");
    ("B1-calibration_Head", "exclude");
    ("SAG_B1_CALIBRATION_BODY", "exclude");
    ("SAG_B1_CALIBRATION_HEAD", "exclude");
    ("SAG_B1_CALIBRATION_BODY_REPEAT", "exclude");
    ("repeat_SAG_B1_CALIBRATION_BODY", "exclude");
    ("Cal_Head_24", "exclude");
    ("ASSET_Cal", "exclude");
    ("Axial_MB_DTI_TENSOR_B0", "exclude");
    ("Axial_MB_DTI_FA", "exclude");
    ("Axial_MB_DTI_ADC", "exclude");
    ("Axial_MB_DTI_TRACEW", "exclude");
    ("Axial_T2_Star-Repeated_with_exact_copy_of_FLAIR", "exclude");
    ("CORONAL", "exclude");
    ("Cal_RM_8HRBRAIN", "exclude");
    ("AXIAL_RFORMAT_1", "exclude");
    ("AAHead_Scout_64ch-head-coil", "exclude");
    ("AAHead_Scout_64ch-head-coil_MPR_sag", "exclude");
    ("B1-Calibration", "exclude");
    ("Cal_Head+Neck_40", "exclude");
    ("act_te_=_6000_B1-Calibration_Body", "exclude");
    ("act_te_=_6000_B1-Calibration_PA", "exclude");
    ("Localizer", "exclude");
    ("Localizer_MPR_sag", "exclude") ].

(** [self.suffix_mapping] *)
Definition suffix_mapping : list (string * list (string * string)) :=
  [ ("anat",
      [ ("MPRAGE", "T1w");
        ("MP-RAGE", "T1w");
        ("Accelerated_Sagittal_MPRAGE", "T1w");
        ("Accelerated_Sagittal_MPRAGE__MSV21_", "T1w");
        ("Accelerated_Sagittal_MPRAGE__MSV22_", "T1w");
        ("Accelerated_Sagittal_MPRAGE_ND", "T1w");
        ("Sagittal_3D_Accelerated_MPRAGE", "T1w");
        ("MPRAGE_GRAPPA2", "T1w");
        ("MPRAGE_SENSE2", "T1w");
        ("Accelerated_Sag_IR-FSPGR", "T1w");
        ("Accelerated_Sagittal_IR-FSPGR", "T1w");
        ("Sag_IR-FSPGR", "T1w");
        ("Sag_IR-SPGR", "T1w");
        ("Accelerated_Sag_IR-SPGR", "T1w");
        ("MP-RAGE_REPEAT", "T1w");
        ("IR-FSPGR-Repeat", "T1w");
        ("IR-FSPGR", "T1w");
        ("IR-SPGR", "T1w");
        ("Sagittal_3D_FLAIR", "FLAIR");
        ("Sagittal_3D_FLAIR__MSV22_", "FLAIR");
        ("Sagittal_3D_FLAIR__MSV23_", "FLAIR");
        ("Axial_FLAIR", "FLAIR");
        ("AXIAL_FLAIR", "FLAIR");
        ("FLAIR", "FLAIR");
        ("t2_flair_SAG", "FLAIR");
        ("Axial_3D_FLAIR", "FLAIR");
        ("Sagittal_3D_T2_SPACE__MSV21_", "T2w");
        ("Sagittal_3D_T2_Vista__MSV21_", "T2w");
        ("CS_Sagittal_3D_T2_Vista__MSV24_", "T2w");
        ("Sagittal_3D_T2_SPACE_MSV21", "T2w");
        ("default", "T1w") ]);
    ("func",
      [ ("default", "task-rest_bold") ]);
    ("dwi",
      [ ("Axial_MB_DTI_PA__MSV21_", "dir-PA_dwi");
        ("Axial_MB_DTI_AP__MSV21_", "dir-AP_dwi");
        ("Axial_MB_dMRI_PA__MSV21_", "dir-PA_dwi");
        ("Axial_MB_dMRI_AP__MSV21_", "dir-AP_dwi");
        ("Axial_MB_dMRI_A__P__MSV21_", "dir-AP_dwi");
        ("Axial_MB_dMRI_P__A__MSV21_", "dir-PA_dwi");
        ("default", "dwi") ]);
    ("fmap",
      [ ("default", "fieldmap") ]);
    ("perf",
      [ ("default", "asl") ]) ].

(** The test of the fallback loop: the key is contained in the directory
    name or the directory name in the key, both in upper case. *)
Definition key_matches (adni_name modality_upper : string) : bool :=
  PyStr.contains (PyStr.upper adni_name) modality_upper
  || PyStr.contains modality_upper (PyStr.upper adni_name).

(** The fallback loop over [modality_mapping.items()]: entries mapped to
    ['exclude'] are passed over, the first matching entry ends the loop.
    The value is that of [bids_modality] after the loop. *)
Fixpoint partial_match (items : list (string * string)) (modality_upper : string)
  : option string :=
  match items with
  | [] => None
  | (adni_name, bids_name) :: rest =>
      if String.eqb bids_name "exclude" then partial_match rest modality_upper
      else if key_matches adni_name modality_upper then Some bids_name
      else partial_match rest modality_upper
  end.

Definition unknown_modality_warning (modality_dir : string) : string :=
  "Unknown modality directory: " ++ modality_dir ++ ", defaulting to 'other'".

Definition no_suffix_warning (modality_dir bids_modality : string) : string :=
  "No suffix mapping for " ++ modality_dir ++ " in " ++ bids_modality.

(** The part of the classifier below the comment "Determine BIDS suffix". *)
Definition determine_suffix (sm : list (string * list (string * string)))
    (modality_dir bids_modality : string) : outcome bids_pair :=
  let unknown_suffix :=
    warning (no_suffix_warning modality_dir bids_modality) ;;
    mret (Some bids_modality, Some "unknown") in
  if Dict.mem bids_modality sm then
    suffix_map ← Dict.subscript sm bids_modality ;
    if Dict.mem modality_dir suffix_map then
      suffix ← Dict.subscript suffix_map modality_dir ;
      mret (Some bids_modality, Some suffix)
    else if Dict.mem "default" suffix_map then
      suffix ← Dict.subscript suffix_map "default" ;
      mret (Some bids_modality, Some suffix)
    else unknown_suffix
  else unknown_suffix.

(** [map_modality_to_bids], with the two tables of [self] as arguments. *)
Definition map_modality_to_bids (mm : list (string * string))
    (sm : list (string * list (string * string))) (modality_dir : string)
  : outcome bids_pair :=
  if Dict.mem modality_dir mm then
    bids_modality ← Dict.subscript mm modality_dir ;
    if String.eqb bids_modality "exclude" then mret (None, None)
    else determine_suffix sm modality_dir bids_modality
  else
    let modality_upper := PyStr.upper modality_dir in
    match partial_match mm modality_upper with
    | Some (String _ _ as bids_modality) =>
        determine_suffix sm modality_dir bids_modality
    | _ (* [not bids_modality]: [None] or the empty string *) =>
        warning (unknown_modality_warning modality_dir) ;;
        mret (Some "other", Some "unknown")
    end.

(** The classifier of a converter instance. *)
Definition classify : string → outcome bids_pair :=
  map_modality_to_bids modality_mapping suffix_mapping.

End Converter.

(** ** Paths as [pathlib.PurePosixPath] and [os.path] see them *)

Module PyPath.

(** [s.split('/')] *)
Fixpoint components (s : string) : list string :=
  match s with
  | EmptyString => [EmptyString]
  | String c s' =>
      let r := components s' in
      if Ascii.eqb c "/" then EmptyString :: r
      else match r with
           | h :: t => String c h :: t
           | [] => [String c EmptyString]
           end
  end.

(** ['/'.join(l)] *)
Fixpoint join (l : list string) : string :=
  match l with
  | [] => EmptyString
  | [x] => x
  | x :: l' => x ++ "/" ++ join l'
  end.

(** A parsed path: the root (empty, one slash, or two slashes) and the
    components, without empty and ['.'] components. *)
Record t : Type := { root : string; parts : list string }.

Definition is_part (x : string) : bool :=
  negb (String.eqb x "") && negb (String.eqb x ".").

(** [Path(s)] *)
Definition parse (s : string) : t :=
  {| root := if String.prefix "//" s && negb (String.prefix "///" s) then "//"
             else if String.prefix "/" s then "/" else "";
     parts := List.filter is_part (components s) |}.

(** [str(p)] *)
Definition to_str (p : t) : string :=
  match root p, parts p with
  | EmptyString, [] => "."
  | r, l => r ++ join l
  end.

(** [p.name] *)
Definition name (p : t) : string := List.last (parts p) EmptyString.

(** [p.parent] *)
Definition parent (p : t) : t :=
  {| root := root p; parts := List.removelast (parts p) |}.

(** [p / s]: an absolute [s] replaces [p]. *)
Definition div (p : t) (s : string) : t :=
  if String.prefix "/" s then parse s
  else {| root := root p; parts := (parts p ++ parts (parse s))%list |}.

(** [os.path.basename(s)] *)
Definition basename (s : string) : string := List.last (components s) EmptyString.

(** [s.rstrip('/')] *)
Fixpoint rstrip_slash (s : string) : string :=
  match s with
  | EmptyString => EmptyString
  | String c s' =>
      let r := rstrip_slash s' in
      if Ascii.eqb c "/" && String.eqb r "" then EmptyString else String c r
  end.

(** [s[:s.rfind('/') + 1]] *)
Fixpoint upto_last_slash (s : string) : string :=
  match s with
  | EmptyString => EmptyString
  | String c s' =>
      if Ascii.eqb c "/" || PyStr.contains "/" s' then String c (upto_last_slash s')
      else EmptyString
  end.

(** [os.path.dirname(s)]: the text up to the last slash, without the
    slashes at its end unless it consists of slashes. *)
Definition dirname (s : string) : string :=
  let head := upto_last_slash s in
  if String.eqb (rstrip_slash head) "" then head else rstrip_slash head.

End PyPath.

(** ** The file system *)

Module FS.

(** The path strings that exist, among those that the scripts ask
    about: files and directories alike, each with what it holds (the
    empty text for a directory).  A file that can be reached under two
    spellings has both as keys. *)
Abbreviation t := (gmap string string).

(** [os.path.exists(p)], which never raises. *)
Definition exists_ (fs : t) (p : string) : bool :=
  match fs !! p with Some _ => true | None => false end.

End FS.

(** ** The rename planner and executor ([fix_bids_naming.py]) *)

(** One file descriptor of the issues report. *)
Module FileInfo.
Record t : Type :=
  { full_path : string; filename : string; suffix : string; base_name : string }.
End FileInfo.

(** One element of the rename plan. *)
Module Item.
Record t : Type :=
  { old_path : string; new_path : string;
    old_filename : string; new_filename : string;
    subject : string; session : string; modality : string;
    base_name : string; old_suffix : string; new_suffix : string }.
End Item.

Module Fix.

(** *** Grouping and sorting *)

(** [by_base_name[k].append(v)] on a [defaultdict(list)]. *)
Fixpoint dd_append (k : string) (v : FileInfo.t)
    (d : list (string * list FileInfo.t)) : list (string * list FileInfo.t) :=
  match d with
  | [] => [(k, [v])]
  | (k', l) :: d' =>
      if String.eqb k k' then (k', (l ++ [v])%list) :: d'
      else (k', l) :: dd_append k v d'
  end.

(** The grouping loop: [by_base_name] after all files were appended. *)
Definition group_by_base_name (files : list FileInfo.t)
  : list (string * list FileInfo.t) :=
  fold_left (λ d file_info, dd_append (FileInfo.base_name file_info) file_info d)
            files [].

(** [sorted(file_list, key=lambda x: x['suffix'])], a stable sort: an
    element goes in front of the first one whose key is not smaller. *)
Fixpoint insert_by_suffix (x : FileInfo.t) (l : list FileInfo.t) : list FileInfo.t :=
  match l with
  | [] => [x]
  | y :: l' =>
      if String.ltb (FileInfo.suffix y) (FileInfo.suffix x)
      then y :: insert_by_suffix x l'
      else x :: l
  end.

Definition sorted_by_suffix (file_list : list FileInfo.t) : list FileInfo.t :=
  foldr insert_by_suffix [] file_list.

(** [l[0]], which raises [IndexError] on an empty list. *)
Definition first {A} (l : list A) : outcome A :=
  match l with
  | x :: _ => mret x
  | [] => Raise "IndexError"
  end.

(** [s.replace('.nii.gz', '.json')] *)
Definition json_of (s : string) : string := PyStr.replace ".nii.gz" ".json" s.

Section planner.
Variable fs : FS.t.
(** [stat_error p] is the text of the [OSError] that [Path(p).exists()]
    lets through, if any: pathlib answers [False] for a path that is not
    there and raises again what else [stat] reports, such as a file name
    that is too long. *)
Variable stat_error : string → option string.
Variables subject_id session_id modality : string.

(** [p.exists()] *)
Definition path_exists (p : PyPath.t) : outcome bool :=
  match stat_error (PyPath.to_str p) with
  | Some e => Raise e
  | None => mret (FS.exists_ fs (PyPath.to_str p))
  end.

(** *** The unsuffixed base file of a group *)

Definition subject_session (base_name : string) (sample_path : PyPath.t) : string :=
  if PyStr.contains "T1w" (PyPath.name sample_path)
  then PyStr.split_head "_T1w" (PyPath.name sample_path)
  else PyStr.split_head ("_" ++ base_name) (PyPath.name sample_path).

Definition base_filename (base_name : string) (sample_path : PyPath.t) : string :=
  subject_session base_name sample_path ++ "_" ++ base_name ++ ".nii.gz".

Definition base_new_filename (base_name : string) (sample_path : PyPath.t) : string :=
  subject_session base_name sample_path ++ "_" ++ base_name ++ "_01.nii.gz".

Definition base_file_path (base_name : string) (sample_path : PyPath.t) : PyPath.t :=
  PyPath.div (PyPath.parent sample_path) (base_filename base_name sample_path).

Definition base_new_path (base_name : string) (sample_path : PyPath.t) : string :=
  PyPath.to_str
    (PyPath.div (PyPath.parent sample_path) (base_new_filename base_name sample_path)).

Definition base_file_exists (base_name : string) (sample_path : PyPath.t)
  : outcome bool :=
  path_exists (base_file_path base_name sample_path).

(** The plan element of the base file. *)
Definition base_item (base_name : string) (sample_path : PyPath.t) : Item.t :=
  {| Item.old_path := PyPath.to_str (base_file_path base_name sample_path);
     Item.new_path := base_new_path base_name sample_path;
     Item.old_filename := base_filename base_name sample_path;
     Item.new_filename := base_new_filename base_name sample_path;
     Item.subject := subject_id; Item.session := session_id;
     Item.modality := modality; Item.base_name := base_name;
     Item.old_suffix := ""; Item.new_suffix := "01" |}.

(** The plan element of the JSON file next to the base file. *)
Definition base_json_item (base_name : string) (sample_path : PyPath.t) : Item.t :=
  {| Item.old_path := json_of (PyPath.to_str (base_file_path base_name sample_path));
     Item.new_path := json_of (base_new_path base_name sample_path);
     Item.old_filename := json_of (base_filename base_name sample_path);
     Item.new_filename := json_of (base_new_filename base_name sample_path);
     Item.subject := subject_id; Item.session := session_id;
     Item.modality := modality; Item.base_name := base_name;
     Item.old_suffix := ""; Item.new_suffix := "01" |}.

(** What the branch [if base_file_exists:] appends. *)
Definition base_items (base_file_exists : bool) (base_name : string)
    (sample_path : PyPath.t) : list Item.t :=
  if base_file_exists then
    base_item base_name sample_path ::
    (if FS.exists_ fs (json_of (PyPath.to_str (base_file_path base_name sample_path)))
     then [base_json_item base_name sample_path] else [])
  else [].

(** *** The suffixed files of a group *)

Definition member_new_filename (base_name : string) (i : nat) (file_info : FileInfo.t)
  : string :=
  let base_part :=
    PyStr.replace (base_name ++ FileInfo.suffix file_info) base_name
                  (FileInfo.filename file_info) in
  PyStr.replace ("_" ++ base_name ++ ".nii.gz")
                ("_" ++ base_name ++ "_" ++ PyStr.fmt02 i ++ ".nii.gz") base_part.

Definition member_new_path (base_name : string) (i : nat) (file_info : FileInfo.t)
  : string :=
  PyPath.to_str (PyPath.div (PyPath.parent (PyPath.parse (FileInfo.full_path file_info)))
                            (member_new_filename base_name i file_info)).

(** The plan element of the [i]-th file. *)
Definition member_item (base_name : string) (i : nat) (file_info : FileInfo.t) : Item.t :=
  {| Item.old_path := FileInfo.full_path file_info;
     Item.new_path := member_new_path base_name i file_info;
     Item.old_filename := FileInfo.filename file_info;
     Item.new_filename := member_new_filename base_name i file_info;
     Item.subject := subject_id; Item.session := session_id;
     Item.modality := modality; Item.base_name := base_name;
     Item.old_suffix := FileInfo.suffix file_info;
     Item.new_suffix := PyStr.fmt02 i |}.

(** The plan element of its JSON file. *)
Definition member_json_item (base_name : string) (i : nat) (file_info : FileInfo.t)
  : Item.t :=
  {| Item.old_path := json_of (FileInfo.full_path file_info);
     Item.new_path := json_of (member_new_path base_name i file_info);
     Item.old_filename := PyPath.basename (json_of (FileInfo.full_path file_info));
     Item.new_filename :=
       PyPath.basename (json_of (member_new_path base_name i file_info));
     Item.subject := subject_id; Item.session := session_id;
     Item.modality := modality; Item.base_name := base_name;
     Item.old_suffix := FileInfo.suffix file_info;
     Item.new_suffix := PyStr.fmt02 i |}.

(** The body of [for i, file_info in enumerate(sorted_files, start_num)]. *)
Definition member_items (base_name : string) (i : nat) (file_info : FileInfo.t)
  : list Item.t :=
  member_item base_name i file_info ::
  (if FS.exists_ fs (json_of (FileInfo.full_path file_info))
   then [member_json_item base_name i file_info] else []).

Fixpoint enumerate_members (base_name : string) (i : nat) (files : list FileInfo.t)
  : list Item.t :=
  match files with
  | [] => []
  | file_info :: rest =>
      (member_items base_name i file_info ++ enumerate_members base_name (S i) rest)%list
  end.

(** *** One base-name group: the body of [for base_name, file_list in ...] *)

Definition start_num (base_file_exists : bool) : nat :=
  if base_file_exists then 2 else 1.

Definition plan_group (base_name : string) (file_list : list FileInfo.t)
  : outcome (list Item.t) :=
  let sorted_files := sorted_by_suffix file_list in
  sample ← first sorted_files ;
  let sample_path := PyPath.parse (FileInfo.full_path sample) in
  base_exists ← base_file_exists base_name sample_path ;
  mret (base_items base_exists base_name sample_path ++
        enumerate_members base_name (start_num base_exists) sorted_files)%list.

Fixpoint plan_groups (groups : list (string * list FileInfo.t)) : outcome (list Item.t) :=
  match groups with
  | [] => mret []
  | (base_name, file_list) :: rest =>
      here ← plan_group base_name file_list ;
      there ← plan_groups rest ;
      mret (here ++ there)%list
  end.

(** The body of [for modality, files in session_data.items()]. *)
Definition plan_files (files : list FileInfo.t) : outcome (list Item.t) :=
  plan_groups (group_by_base_name files).

End planner.

(** A loop over [d.items()] whose body extends the plan. *)
Fixpoint for_items {V} (body : string → V → outcome (list Item.t))
    (d : list (string * V)) : outcome (list Item.t) :=
  match d with
  | [] => mret []
  | (k, v) :: rest =>
      here ← body k v ;
      there ← for_items body rest ;
      mret (here ++ there)%list
  end.

(** The issues report: subject, session, modality, files. *)
Definition issues_t : Type :=
  list (string * list (string * list (string * list FileInfo.t))).

Definition plan_renames (fs : FS.t) (stat_error : string → option string)
    (issues : issues_t) : outcome (list Item.t) :=
  for_items (λ subject_id subject_data,
    for_items (λ session_id session_data,
      for_items (λ modality files,
        plan_files fs stat_error subject_id session_id modality files)
      session_data)
    subject_data)
  issues.

(** *** The executor *)

Record state : Type :=
  { files : FS.t; success_count : nat; error_count : nat; errors : list string }.

Definition record_error (st : state) (error_msg : string) : state :=
  {| files := files st; success_count := success_count st;
     error_count := S (error_count st);
     errors := (errors st ++ [error_msg])%list |}.

Definition record_success (st : state) (fs : FS.t) : state :=
  {| files := fs; success_count := S (success_count st);
     error_count := error_count st; errors := errors st |}.

(** The files as a call of the operating system left them. *)
Definition record_files (st : state) (fs : FS.t) : state :=
  {| files := fs; success_count := success_count st;
     error_count := error_count st; errors := errors st |}.

Definition source_missing (item : Item.t) : string :=
  "Source file does not exist: " ++ Item.old_path item.

Definition target_exists (item : Item.t) : string :=
  "Target file already exists: " ++ Item.new_path item.

Definition rename_failed (item : Item.t) (e : string) : string :=
  "Error renaming " ++ Item.old_path item ++ " -> " ++ Item.new_path item ++ ": " ++ e.

Section executor.
(** [os_move fs old new] is what the operating system makes of
    [os.makedirs(os.path.dirname(new), exist_ok=True)] followed by
    [shutil.move(old, new)] on the file system [fs]: the file system they
    leave (with the directories made, and with whatever a move that
    failed half way left behind), and the text of the exception if one of
    the two calls raised. *)
Variable os_move : FS.t → string → string → FS.t * option string.

(** The [try] block with its [except] clause. *)
Definition try_move (st : state) (item : Item.t) : state :=
  match os_move (files st) (Item.old_path item) (Item.new_path item) with
  | (fs', None) => record_success st fs'
  | (fs', Some e) =>
      record_error (record_files st fs') (rename_failed item e)
  end.

(** The body of [for item in rename_plan]. *)
Definition rename_step (dry_run : bool) (st : state) (item : Item.t) : state :=
  if negb (FS.exists_ (files st) (Item.old_path item)) then
    record_error st (source_missing item)
  else if FS.exists_ (files st) (Item.new_path item) then
    record_error st (target_exists item)
  else if negb dry_run then try_move st item
  else record_success st (files st).

Definition run (dry_run : bool) (rename_plan : list Item.t) (st : state) : state :=
  fold_left (rename_step dry_run) rename_plan st.

Definition start (fs : FS.t) : state :=
  {| files := fs; success_count := 0; error_count := 0; errors := [] |}.

(** [execute_renames(rename_plan, dry_run)] on the file system [fs]:
    the final state holds the three returned values and the files. *)
Definition execute_renames (rename_plan : list Item.t) (dry_run : bool) (fs : FS.t)
  : state :=
  run dry_run rename_plan (start fs).

End executor.

End Fix.

(** ** Vocabulary of the specification *)

Module Spec.

(** [a] occurs in [b] as a contiguous run of characters. *)
Definition occurs_in (a b : string) : Prop := ∃ pre post, b = pre ++ a ++ post.

(** The capital of a small letter of the alphabet, as the two rows give
    it; any other character is left as it is. *)
Fixpoint capital_in (small capitals : string) (c : ascii) : ascii :=
  match small, capitals with
  | String l small', String u capitals' =>
      if Ascii.eqb c l then u else capital_in small' capitals' c
  | _, _ => c
  end.

Definition capital : ascii → ascii :=
  capital_in "abcdefghijklmnopqrstuvwxyz" "ABCDEFGHIJKLMNOPQRSTUVWXYZ".

(** A text with its small letters turned into capitals. *)
Fixpoint capitals (s : string) : string :=
  match s with
  | EmptyString => EmptyString
  | String c s' => String (capital c) (capitals s')
  end.

(** Case-insensitive containment, either way, of a table key and a
    directory name: one occurs in the other once the small letters of
    both are capitals. *)
Definition ci_match (adni_name modality_dir : string) : Prop :=
  occurs_in (capitals adni_name) (capitals modality_dir)
  ∨ occurs_in (capitals modality_dir) (capitals adni_name).

(** A table entry that the fallback passes over for [modality_dir]: its
    category is ['exclude'], or its key does not match. *)
Definition skipped (modality_dir : string) (entry : string * string) : bool :=
  String.eqb entry.2 "exclude"
  || negb (Converter.key_matches entry.1 (PyStr.upper modality_dir)).

(** The directory name resolves to the category [c]: by its own entry, or,
    when it has none, by the fallback loop. *)
Definition resolves_to (mm : list (string * string)) (modality_dir c : string) : Prop :=
  (Dict.get modality_dir mm = Some c ∧ c ≠ "exclude")
  ∨ (Dict.get modality_dir mm = None ∧ c ≠ ""
     ∧ Converter.partial_match mm (PyStr.upper modality_dir) = Some c).

(** The suffix and the warnings by the documented priority: the exact
    entry of the category's sub-table, else its ['default'] entry, else
    ['unknown'] with a warning. *)
Definition suffix_by_priority (sm : list (string * list (string * string)))
    (modality_dir c : string) : string * list string :=
  match Dict.get c sm with
  | Some suffix_map =>
      match Dict.get modality_dir suffix_map with
      | Some suffix => (suffix, [])
      | None =>
          match Dict.get "default" suffix_map with
          | Some suffix => (suffix, [])
          | None => ("unknown", [Converter.no_suffix_warning modality_dir c])
          end
      end
  | None => ("unknown", [Converter.no_suffix_warning modality_dir c])
  end.

(** The categories a caller can receive. *)
Definition categories : list string := ["anat"; "func"; "dwi"; "fmap"; "perf"].

End Spec.
(** ** Vocabulary of the rename plan *)

Module PlanSpec.

(** [j] is the plan element of the JSON file of the volume element [v]:
    the two paths with ['.nii.gz'] replaced by ['.json'], the same suffix
    substitution and the same context. *)
Definition sidecar_of (v j : Item.t) : Prop :=
  Item.old_path j = Fix.json_of (Item.old_path v)
  ∧ Item.new_path j = Fix.json_of (Item.new_path v)
  ∧ Item.old_suffix j = Item.old_suffix v
  ∧ Item.new_suffix j = Item.new_suffix v
  ∧ Item.subject j = Item.subject v
  ∧ Item.session j = Item.session v
  ∧ Item.modality j = Item.modality v
  ∧ Item.base_name j = Item.base_name v.

(** [paired fs volumes plan]: the plan lists the volume elements in order,
    each one followed by exactly one element for its JSON file when that
    file exists, and by none when it does not. *)
Inductive paired (fs : FS.t) : list Item.t → list Item.t → Prop :=
| paired_nil : paired fs [] []
| paired_alone v volumes plan :
    FS.exists_ fs (Fix.json_of (Item.old_path v)) = false →
    paired fs volumes plan →
    paired fs (v :: volumes) (v :: plan)
| paired_json v j volumes plan :
    FS.exists_ fs (Fix.json_of (Item.old_path v)) = true →
    sidecar_of v j →
    paired fs volumes plan →
    paired fs (v :: volumes) (v :: j :: plan).

(** The path, the old suffix and the new suffix of a plan element. *)
Definition assignment (v : Item.t) : string * string * string :=
  (Item.old_path v, Item.old_suffix v, Item.new_suffix v).

(** Ascending order of the letter suffixes. *)
Definition suffix_le (a b : FileInfo.t) : Prop :=
  String.leb (FileInfo.suffix a) (FileInfo.suffix b) = true.

Section volumes.
Variable fs : FS.t.

(** The volume elements of one base-name group: the base file when it
    exists, then the sorted members numbered from [start_num]. *)
Definition group_volumes (subject_id session_id modality base_name : string)
    (file_list : list FileInfo.t) : list Item.t :=
  match Fix.sorted_by_suffix file_list with
  | [] => []
  | (sample :: _) as sorted_files =>
      let sample_path := PyPath.parse (FileInfo.full_path sample) in
      let base_exists :=
        FS.exists_ fs (PyPath.to_str (Fix.base_file_path base_name sample_path)) in
      ((if base_exists
        then [Fix.base_item subject_id session_id modality base_name sample_path]
        else []) ++
       imap (λ k file_info,
               Fix.member_item subject_id session_id modality base_name
                 (Fix.start_num base_exists + k) file_info)
            sorted_files)%list
  end.

(** The volume elements of a whole issues report, in plan order. *)
Definition issues_volumes (issues : Fix.issues_t) : list Item.t :=
  flat_map (λ '(subject_id, subject_data),
    flat_map (λ '(session_id, session_data),
      flat_map (λ '(modality, files),
        flat_map (λ '(base_name, file_list),
                    group_volumes subject_id session_id modality base_name file_list)
                 (Fix.group_by_base_name files))
      (session_data : list (string * list FileInfo.t)))
    (subject_data : list (string * list (string * list FileInfo.t))))
  issues.

End volumes.

End PlanSpec.
(** ** Sample data *)

Module Samples.

(** An operating system on which the [try] block is a plain rename: the
    directory of the destination exists, the source is a file, and the
    file is found under the new path string instead of the old one. *)
Definition plain_rename (fs : FS.t) (old new : string) : FS.t * option string :=
  match fs !! old with
  | Some content => (<[new := content]> (delete old fs), None)
  | None => (fs, Some "FileNotFoundError")
  end.

(** One on which [os.makedirs] leaves the directory of the destination
    behind as a path that exists, before the file is renamed (the
    directories above it are taken to be there). *)
Definition rename_with_makedirs (fs : FS.t) (old new : string)
  : FS.t * option string :=
  plain_rename (<[PyPath.dirname new := ""]> fs) old new.

(** No error of [stat] other than a missing path. *)
Definition no_stat_error : string → option string := λ _, None.

(** One lettered volume of one session. *)
Definition anat_dir : string := "/bids/sub-027S6512/ses-20220331/anat/".

Definition volume_a : FileInfo.t :=
  {| FileInfo.full_path := anat_dir ++ "sub-027S6512_ses-20220331_T1wa.nii.gz";
     FileInfo.filename := "sub-027S6512_ses-20220331_T1wa.nii.gz";
     FileInfo.suffix := "a"; FileInfo.base_name := "T1w" |}.

Definition volume_b : FileInfo.t :=
  {| FileInfo.full_path := anat_dir ++ "sub-027S6512_ses-20220331_T1wb.nii.gz";
     FileInfo.filename := "sub-027S6512_ses-20220331_T1wb.nii.gz";
     FileInfo.suffix := "b"; FileInfo.base_name := "T1w" |}.

Definition volume_c : FileInfo.t :=
  {| FileInfo.full_path := anat_dir ++ "sub-027S6512_ses-20220331_T1wc.nii.gz";
     FileInfo.filename := "sub-027S6512_ses-20220331_T1wc.nii.gz";
     FileInfo.suffix := "c"; FileInfo.base_name := "T1w" |}.

(** A tree with the single volume [volume_a]. *)
Definition one_volume_fs : FS.t :=
  {[ FileInfo.full_path volume_a := "volume a" ]}.

Definition one_volume_plan : list Item.t :=
  [ {| Item.old_path := anat_dir ++ "sub-027S6512_ses-20220331_T1wa.nii.gz";
       Item.new_path := anat_dir ++ "sub-027S6512_ses-20220331_T1w_01.nii.gz";
       Item.old_filename := "sub-027S6512_ses-20220331_T1wa.nii.gz";
       Item.new_filename := "sub-027S6512_ses-20220331_T1w_01.nii.gz";
       Item.subject := "sub-027S6512"; Item.session := "ses-20220331";
       Item.modality := "anat"; Item.base_name := "T1w";
       Item.old_suffix := "a"; Item.new_suffix := "01" |} ].

(** A plan element that only names its two paths. *)
Definition move_item (old new : string) : Item.t :=
  {| Item.old_path := old; Item.new_path := new;
     Item.old_filename := PyPath.basename old; Item.new_filename := PyPath.basename new;
     Item.subject := ""; Item.session := ""; Item.modality := "";
     Item.base_name := ""; Item.old_suffix := ""; Item.new_suffix := "" |}.

(** A plan in which destinations are sources of later elements. *)
Definition chained_plan : list Item.t :=
  [ move_item "/d/A" "/d/B"; move_item "/d/B" "/d/C"; move_item "/d/D" "/d/A" ].

Definition chained_fs : FS.t := {[ "/d/A" := "a"; "/d/D" := "d" ]}.

(** A plan whose second element moves a file into a directory named as
    the source of the first. *)
Definition nested_plan : list Item.t :=
  [ move_item "/d/A" "/e/x"; move_item "/d/B" "/d/A/y" ].

Definition nested_fs : FS.t := {[ "/d" := ""; "/d/A" := "a"; "/d/B" := "b" ]}.

(** A chain in which every destination is the source of the next element. *)
Definition forward_plan : list Item.t :=
  [ move_item "/d/A" "/d/B"; move_item "/d/B" "/d/C" ].

(** A plan whose second element finds its target taken. *)
Definition blocked_plan : list Item.t :=
  [ move_item "/d/A" "/d/X"; move_item "/d/B" "/d/X"; move_item "/d/C" "/d/Z" ].

Definition blocked_fs : FS.t := {[ "/d/A" := "a"; "/d/B" := "b"; "/d/C" := "c" ]}.

(** Three lettered volumes, listed out of order, with the JSON file of the
    second; no unsuffixed base file. *)
Definition abc_files : list FileInfo.t := [volume_c; volume_a; volume_b].

Definition abc_fs : FS.t :=
  {[ FileInfo.full_path volume_a := "volume a";
     FileInfo.full_path volume_b := "volume b";
     FileInfo.full_path volume_c := "volume c";
     anat_dir ++ "sub-027S6512_ses-20220331_T1wb.json" := "metadata b" ]}.

(** Two lettered volumes next to an unsuffixed base file. *)
Definition ab_files : list FileInfo.t := [volume_b; volume_a].

Definition base_path : string := anat_dir ++ "sub-027S6512_ses-20220331_T1w.nii.gz".

Definition base_ab_fs : FS.t :=
  {[ base_path := "volume";
     FileInfo.full_path volume_a := "volume a";
     FileInfo.full_path volume_b := "volume b";
     anat_dir ++ "sub-027S6512_ses-20220331_T1w.json" := "metadata" ]}.

(** A lettered T2w volume of a subject whose label holds the text [T1w],
    next to the unsuffixed T2w volume. *)
Definition t2w_dir : string := "/bids/sub-T1wX/ses-1/anat/".

Definition t2w_member : FileInfo.t :=
  {| FileInfo.full_path := t2w_dir ++ "sub-T1wX_ses-1_T2wa.nii.gz";
     FileInfo.filename := "sub-T1wX_ses-1_T2wa.nii.gz";
     FileInfo.suffix := "a"; FileInfo.base_name := "T2w" |}.

Definition t2w_fs : FS.t :=
  {[ t2w_dir ++ "sub-T1wX_ses-1_T2w.nii.gz" := "volume";
     t2w_dir ++ "sub-T1wX_ses-1_T2wa.nii.gz" := "volume a" ]}.

Definition t2w_issues : Fix.issues_t :=
  [("sub-T1wX", [("ses-1", [("anat", [t2w_member])])])].

(** Two lettered volumes that are not compressed, with the JSON file of
    the first. *)
Definition nii_dir : string := "/bids/sub-01/ses-1/anat/".

Definition nii_a : FileInfo.t :=
  {| FileInfo.full_path := nii_dir ++ "sub-01_ses-1_T1wa.nii";
     FileInfo.filename := "sub-01_ses-1_T1wa.nii";
     FileInfo.suffix := "a"; FileInfo.base_name := "T1w" |}.

Definition nii_b : FileInfo.t :=
  {| FileInfo.full_path := nii_dir ++ "sub-01_ses-1_T1wb.nii";
     FileInfo.filename := "sub-01_ses-1_T1wb.nii";
     FileInfo.suffix := "b"; FileInfo.base_name := "T1w" |}.

Definition nii_fs : FS.t :=
  {[ nii_dir ++ "sub-01_ses-1_T1wa.nii" := "volume a";
     nii_dir ++ "sub-01_ses-1_T1wa.json" := "metadata a";
     nii_dir ++ "sub-01_ses-1_T1wb.nii" := "volume b" ]}.

Definition nii_issues : Fix.issues_t :=
  [("sub-01", [("ses-1", [("anat", [nii_a; nii_b])])])].

(** A compressed volume with its JSON file in a directory whose name
    holds the text [.nii.gz]. *)
Definition dotted_member : FileInfo.t :=
  {| FileInfo.full_path := "/data.nii.gz/sub-01_ses-1_T1wa.nii.gz";
     FileInfo.filename := "sub-01_ses-1_T1wa.nii.gz";
     FileInfo.suffix := "a"; FileInfo.base_name := "T1w" |}.

Definition dotted_fs : FS.t :=
  {[ "/data.nii.gz/sub-01_ses-1_T1wa.nii.gz" := "volume a";
     "/data.nii.gz/sub-01_ses-1_T1wa.json" := "metadata a" ]}.

Definition dotted_issues : Fix.issues_t :=
  [("sub-01", [("ses-1", [("anat", [dotted_member])])])].

Definition abc_issues : Fix.issues_t :=
  [("sub-027S6512", [("ses-20220331", [("anat", abc_files)])])].

Definition one_volume_issues : Fix.issues_t :=
  [("sub-027S6512", [("ses-20220331", [("anat", [volume_a])])])].

End Samples.
(** ** Vocabulary of the executor's results *)

Module ExecSpec.

(** The error the two existence checks give for an element on the file
    system [fs], if any: the source check comes first. *)
Definition precondition_error (fs : FS.t) (item : Item.t) : option string :=
  if negb (FS.exists_ fs (Item.old_path item)) then Some (Fix.source_missing item)
  else if FS.exists_ fs (Item.new_path item) then Some (Fix.target_exists item)
  else None.

(** An element that the executor can do nothing with on [fs]: its source
    is gone or its destination is there. *)
Definition blocked (fs : FS.t) (item : Item.t) : Prop :=
  FS.exists_ fs (Item.old_path item) = false
  ∨ FS.exists_ fs (Item.new_path item) = true.

#[global] Instance blocked_dec (fs : FS.t) (item : Item.t) : Decision (blocked fs item).
Proof. unfold blocked. apply _. Defined.

(** The message for a blocked element: the source is looked at first. *)
Definition blocked_message (fs : FS.t) (item : Item.t) : string :=
  if FS.exists_ fs (Item.old_path item) then Fix.target_exists item
  else Fix.source_missing item.

End ExecSpec.
(** ** Vocabulary for occurrences in strings *)

Module StrSpec.

(** [old] starts at some position of [pre] in the text [pre ++ rest]. *)
Fixpoint starts_inside (old pre rest : string) : bool :=
  match pre with
  | EmptyString => false
  | String _ pre' =>
      String.prefix old (pre ++ rest) || starts_inside old pre' rest
  end.

(** The string without the occurrences of the character [c]. *)
Fixpoint remove_char (c : ascii) (s : string) : string :=
  match s with
  | EmptyString => EmptyString
  | String x s' => if Ascii.eqb x c then remove_char c s' else String x (remove_char c s')
  end.

End StrSpec.
(** ** Discovery of subjects and sessions ([adni2bids_converter.py]) *)

(** The two regular expressions of the converter are sequences of
    one-character atoms, matched at the start of the name by [re.match]. *)
Module Re.

Inductive atom : Type :=
| Digit                (* [\d], on ASCII text *)
| Lit (c : ascii).     (* the character itself *)

Definition is_digit (c : ascii) : bool :=
  let n := nat_of_ascii c in (48 <=? n)%nat && (n <=? 57)%nat.

Definition atom_matches (a : atom) (c : ascii) : bool :=
  match a with
  | Digit => is_digit c
  | Lit x => Ascii.eqb c x
  end.

(** [re.match(pattern, s)] finds a match: [s] starts with the pattern. *)
Fixpoint match_ (pattern : list atom) (s : string) : bool :=
  match pattern with
  | [] => true
  | a :: pattern' =>
      match s with
      | EmptyString => false
      | String c s' => atom_matches a c && match_ pattern' s'
      end
  end.

(** [r'\d{3}_S_\d{4}'] *)
Definition subject_pattern : list atom :=
  [Digit; Digit; Digit; Lit "_"; Lit "S"; Lit "_"; Digit; Digit; Digit; Digit].

(** [r'\d{4}-\d{2}-\d{2}_\d{2}_\d{2}_\d{2}\.\d+']: after the dot one digit
    is needed, and further digits change nothing for [re.match]. *)
Definition timestamp_pattern : list atom :=
  [Digit; Digit; Digit; Digit; Lit "-"; Digit; Digit; Lit "-"; Digit; Digit; Lit "_";
   Digit; Digit; Lit "_"; Digit; Digit; Lit "_"; Digit; Digit; Lit "."; Digit].

End Re.

(** A directory tree, as [exists], [is_dir] and [iterdir] see it; the
    entries of a directory come in the order in which [iterdir] yields
    them. *)
Module Tree.

#[warnings="-register-all"] Inductive node : Type :=
| File
| Dir (entries : list (string * node)).

Definition is_dir (n : node) : bool :=
  match n with
  | Dir _ => true
  | File => false
  end.

(** [p.iterdir()], which raises on a path that is not a directory. *)
Definition iterdir (n : node) : outcome (list (string * node)) :=
  match n with
  | Dir entries => mret entries
  | File => Raise "NotADirectoryError"
  end.

End Tree.

(** [collections.defaultdict(list)] in insertion order. *)
Module DefaultDict.

(** [d[k].append(v)] *)
Fixpoint append {V} (k : string) (v : V) (d : list (string * list V))
  : list (string * list V) :=
  match d with
  | [] => [(k, [v])]
  | (k', l) :: d' =>
      if String.eqb k k' then (k', (l ++ [v])%list) :: d'
      else (k', l) :: append k v d'
  end.

(** What a loop of [d[k].append(v)] keeps true of [d], where [seen] lists
    the keys and values appended so far: the keys are distinct, every key
    seen is present, and the list of a key holds the values appended under
    it, in that order. *)
Definition grouped {V} (d : list (string * list V)) (seen : list (string * V)) : Prop :=
  NoDup d.*1
  ∧ (∀ k l, (k, l) ∈ d →
            l ≠ [] ∧ l = (filter (λ kv : string * V, kv.1 = k) seen).*2)
  ∧ (∀ kv, kv ∈ seen → kv.1 ∈ d.*1).

End DefaultDict.

Module Discovery.

(** [logger.error(msg)]; messages of level INFO and DEBUG are left out of
    the log. *)
Definition error (msg : string) : outcome unit := Return tt [msg].

(** [sorted(l)] on a list of strings. *)
Fixpoint insert_str (x : string) (l : list string) : list string :=
  match l with
  | [] => [x]
  | y :: l' => if String.ltb y x then y :: insert_str x l' else x :: l
  end.

Definition sorted_str (l : list string) : list string := foldr insert_str [] l.

(** The test of the loop of [discover_subjects]. *)
Definition is_subject (entry : string * Tree.node) : bool :=
  Tree.is_dir entry.2 && Re.match_ Re.subject_pattern entry.1.

(** [discover_subjects]; [dicom_root] is [None] when the path does not
    exist, and [shown] is how the path prints. *)
Definition discover_subjects (shown : string) (dicom_root : option Tree.node)
  : outcome (list string) :=
  match dicom_root with
  | None =>
      error ("DICOM root directory does not exist: " ++ shown) ;;
      mret []
  | Some root =>
      entries ← Tree.iterdir root ;
      mret (sorted_str (List.filter is_subject entries).*1)
  end.

(** [subject_id.replace('_', '')] *)
Definition bids_subject (subject_id : string) : string :=
  PyStr.replace "_" "" subject_id.

(** [session_dir.name.split('_')[0].replace('-', '')] *)
Definition session_date (name : string) : string :=
  PyStr.replace "-" "" (PyStr.split_head "_" name).

(** The inner loop of [extract_sessions_for_subject], over the entries of
    one modality directory. *)
Definition scan_modality (modality_name : string) (entries : list (string * Tree.node))
    (sessions : list (string * list (string * string)))
  : list (string * list (string * string)) :=
  fold_left
    (λ sessions session_dir,
       if Tree.is_dir session_dir.2 && Re.match_ Re.timestamp_pattern session_dir.1
       then DefaultDict.append (session_date session_dir.1)
                               (modality_name, session_dir.1) sessions
       else sessions)
    entries sessions.

(** The outer loop, over the entries of the subject directory. *)
Definition scan_subject (entries : list (string * Tree.node))
  : list (string * list (string * string)) :=
  fold_left
    (λ sessions modality_dir,
       match modality_dir.2 with
       | Tree.Dir session_dirs => scan_modality modality_dir.1 session_dirs sessions
       | Tree.File => sessions
       end)
    entries [].

(** [extract_sessions_for_subject]; [subject_path] is what the file
    system has at [dicom_root / subject_id], [None] when nothing is
    there, and [shown] is how that path prints. *)
Definition extract_sessions_for_subject (shown : string)
    (subject_path : option Tree.node)
  : outcome (list (string * list (string * string))) :=
  match subject_path with
  | None =>
      warning ("Subject path does not exist: " ++ shown) ;;
      mret []
  | Some subject_path =>
      entries ← Tree.iterdir subject_path ;
      mret (scan_subject entries)
  end.

(** The timestamp directories of a subject, with the name of their
    modality directory, in the order of the two loops. *)
Definition timestamp_dirs (entries : list (string * Tree.node)) : list (string * string) :=
  flat_map
    (λ modality_dir : string * Tree.node,
       match modality_dir.2 with
       | Tree.Dir session_dirs =>
           (λ session_dir : string * Tree.node, (modality_dir.1, session_dir.1)) <$>
           List.filter (λ session_dir : string * Tree.node,
                          Tree.is_dir session_dir.2
                          && Re.match_ Re.timestamp_pattern session_dir.1)
                       session_dirs
       | Tree.File => []
       end)
    entries.

(** Ascending order of strings. *)
Definition str_le (a b : string) : Prop := String.leb a b = true.

End Discovery.

(** ** Vocabulary of names *)

Module NameSpec.

(** One of the ten digits. *)
Definition decimal (c : ascii) : Prop :=
  c ∈ list_ascii_of_string "0123456789".

(** [starts_like picture name]: the name starts as the picture shows,
    with a digit where the picture has the letter d and with the
    character of the picture everywhere else. *)
Inductive starts_like : string → string → Prop :=
| starts_like_end name : starts_like "" name
| starts_like_digit c picture name :
    decimal c → starts_like picture name →
    starts_like (String "d" picture) (String c name)
| starts_like_char x picture name :
    x ≠ "d"%char → starts_like picture name →
    starts_like (String x picture) (String x name).

(** A subject directory of ADNI, as 027_S_6512. *)
Definition subject_like : string → Prop := starts_like "ddd_S_dddd".

(** A timestamp directory, as 2022-03-31_13_38_14.0. *)
Definition timestamp_like : string → Prop := starts_like "dddd-dd-dd_dd_dd_dd.d".

(** The atoms of a picture. *)
Fixpoint atoms (picture : string) : list Re.atom :=
  match picture with
  | EmptyString => []
  | String x picture' =>
      (if Ascii.eqb x "d" then Re.Digit else Re.Lit x) :: atoms picture'
  end.

End NameSpec.
(** ** The rename plan report ([save_rename_plan]) *)

Module Report.

(** The newline character. *)
Definition nl : string := String (ascii_of_nat 10) EmptyString.

(** [c * n] for a one-character string [c]. *)
Fixpoint times (c : ascii) (n : nat) : string :=
  match n with
  | O => EmptyString
  | S n' => String c (times c n')
  end.

(** What one call of [f.write] writes. *)
Inductive line : Type :=
| Title
| Rule
| Total (n : nat)
| Subject (current_subject : string)
| Session (current_session : string)
| Rename (modality old_filename new_filename : string).

(** The text of each write. *)
Definition render (l : line) : string :=
  match l with
  | Title => "BIDS Naming Fix Rename Plan" ++ nl
  | Rule => times "=" 50 ++ nl ++ nl
  | Total n => "Total files to rename: " ++ PyStr.str_of_nat n ++ nl ++ nl
  | Subject current_subject => nl ++ current_subject ++ ":" ++ nl
  | Session current_session => "  " ++ current_session ++ ":" ++ nl
  | Rename modality old_filename new_filename =>
      "    " ++ modality ++ ": " ++ old_filename ++ " -> " ++ new_filename ++ nl
  end.

(** The variables of the loop: [current_subject], [current_session]
    ([None] at the start) and the writes so far. *)
Record cursor : Type :=
  { current_subject : option string; current_session : option string;
    written : list line }.

(** The body of [for item in rename_plan]. *)
Definition write_item (st : cursor) (item : Item.t) : cursor :=
  let new_subject := negb (bool_decide (Some (Item.subject item) = current_subject st)) in
  let new_session := negb (bool_decide (Some (Item.session item) = current_session st)) in
  {| current_subject := if new_subject then Some (Item.subject item) else current_subject st;
     current_session := if new_session then Some (Item.session item) else current_session st;
     written :=
       (written st
        ++ (if new_subject then [Subject (Item.subject item)] else [])
        ++ (if new_session then [Session (Item.session item)] else [])
        ++ [Rename (Item.modality item) (Item.old_filename item) (Item.new_filename item)])%list |}.

(** The writes of [save_rename_plan], in order. *)
Definition lines (rename_plan : list Item.t) : list line :=
  written (fold_left write_item rename_plan
             {| current_subject := None; current_session := None;
                written := [Title; Rule; Total (length rename_plan)] |}).

(** The content of the report file. *)
Definition save_rename_plan (rename_plan : list Item.t) : string :=
  foldr (λ l text, render l ++ text) EmptyString (lines rename_plan).

(** The renames, the subject headers and the session headers of a list
    of writes. *)
Definition rename_of (l : line) : option (string * string * string) :=
  match l with
  | Rename modality old_filename new_filename => Some (modality, old_filename, new_filename)
  | _ => None
  end.

Definition subject_of (l : line) : option string :=
  match l with
  | Subject s => Some s
  | _ => None
  end.

Definition session_of (l : line) : option string :=
  match l with
  | Session s => Some s
  | _ => None
  end.

(** A list without the elements equal to their predecessor; [prev] is the
    element before the list, if any. *)
Fixpoint changes (prev : option string) (l : list string) : list string :=
  match l with
  | [] => []
  | x :: l' =>
      if bool_decide (Some x = prev) then changes (Some x) l'
      else x :: changes (Some x) l'
  end.

End Report.
(** ** Converting one session ([convert_session_with_dcm2niix]) *)

Module Orchestrator.

(** What happened to one acquisition of the session: each pass through the
    loop ends in exactly one of these ways, and logs it. *)
Inductive event : Type :=
| Skipped (modality_dir : string)              (* excluded modality *)
| SourceMissing (dicom_source : string)        (* the source does not exist *)
| NoDicoms (dicom_source : string)             (* no DICOM file below the source *)
| Converted (cmd : list string)                (* the converter returned 0 *)
| ConverterFailed (cmd : list string) (returncode : Z)
| Errored (modality_dir session_timestamp_dir exn : string).  (* an exception *)

Section world.
(** The state of the world outside the program. *)
Variable W : Type.

(** The calls that reach the outside. *)
Record os : Type :=
  { (* [p.mkdir(parents=True, exist_ok=True)]: the world after the call, and
       the text of the exception if it raises *)
    mkdir : W → string → W * option string;
    (* [p.exists()]: the text of the exception that pathlib lets through,
       or the answer *)
    path_exists : W → string → W * (string + bool);
    (* [len(list(p.glob("**/*.dcm")) + list(p.glob("**/*.DCM")))]: the text
       of the exception, or the number of files *)
    count_dicoms : W → string → W * (string + nat);
    (* [subprocess.run(cmd, capture_output=True, text=True)]: the world after
       the call, and the text of the exception or the return code *)
    run : W → list string → W * (string + Z) }.

Variable sys : os.

(** The tables and the two roots of the converter instance. *)
Variable mm : list (string * string).
Variable sm : list (string * list (string * string)).
Variables dicom_root bids_output : PyPath.t.

(** The variables of the loop. *)
Record progress : Type :=
  { world : W; success : bool; conversion_count : nat; events : list event }.

Definition note (st : progress) (w : W) (e : event) : progress :=
  {| world := w; success := success st; conversion_count := conversion_count st;
     events := (events st ++ [e])%list |}.

Definition note_failure (st : progress) (w : W) (e : event) : progress :=
  {| world := w; success := false; conversion_count := conversion_count st;
     events := (events st ++ [e])%list |}.

Definition note_conversion (st : progress) (w : W) (e : event) : progress :=
  {| world := w; success := success st; conversion_count := S (conversion_count st);
     events := (events st ++ [e])%list |}.

(** [f"{x}"] for a value that is a string or [None]. *)
Definition show (x : option string) : string := default "None" x.

Definition session_id (session_date : string) : string := "ses-" ++ session_date.

Definition bids_session_dir (subject_id session_date : string) : PyPath.t :=
  PyPath.div (PyPath.div bids_output ("sub-" ++ Discovery.bids_subject subject_id))
             (session_id session_date).

Definition dicom_source (subject_id modality_dir session_timestamp_dir : string) : PyPath.t :=
  PyPath.div (PyPath.div (PyPath.div dicom_root subject_id) modality_dir)
             session_timestamp_dir.

Definition output_filename (subject_id session_date : string) (bids_suffix : option string)
  : string :=
  "sub-" ++ Discovery.bids_subject subject_id ++ "_" ++ session_id session_date
  ++ "_" ++ show bids_suffix.

Definition dcm2niix_cmd (output_filename bids_modality_dir dicom_source : string)
  : list string :=
  ["dcm2niix"; "-z"; "y"; "-b"; "y"; "-ba"; "n";
   "-f"; output_filename; "-o"; bids_modality_dir; dicom_source].

(** The body of [for modality_dir, session_timestamp_dir in session_data],
    with its [try] and [except]. *)
Definition convert_acquisition (subject_id session_date : string) (st : progress)
    (acquisition : string * string) : progress :=
  let '(modality_dir, session_timestamp_dir) := acquisition in
  match Converter.map_modality_to_bids mm sm modality_dir with
  | Raise exn =>
      note_failure st (world st) (Errored modality_dir session_timestamp_dir exn)
  | Return (None, _) _ => note st (world st) (Skipped modality_dir)
  | Return (Some bids_modality, bids_suffix) _ =>
      let bids_modality_dir :=
        PyPath.to_str (PyPath.div (bids_session_dir subject_id session_date) bids_modality) in
      match mkdir sys (world st) bids_modality_dir with
      | (w1, Some exn) =>
          note_failure st w1 (Errored modality_dir session_timestamp_dir exn)
      | (w1, None) =>
          let source :=
            PyPath.to_str (dicom_source subject_id modality_dir session_timestamp_dir) in
          match path_exists sys w1 source with
          | (w2, inl exn) =>
              note_failure st w2 (Errored modality_dir session_timestamp_dir exn)
          | (w2, inr false) => note st w2 (SourceMissing source)
          | (w2, inr true) =>
              match count_dicoms sys w2 source with
              | (w3, inl exn) =>
                  note_failure st w3 (Errored modality_dir session_timestamp_dir exn)
              | (w3, inr O) => note st w3 (NoDicoms source)
              | (w3, inr (S _)) =>
                  let cmd :=
                    dcm2niix_cmd (output_filename subject_id session_date bids_suffix)
                                 bids_modality_dir source in
                  match run sys w3 cmd with
                  | (w4, inl exn) =>
                      note_failure st w4
                        (Errored modality_dir session_timestamp_dir exn)
                  | (w4, inr returncode) =>
                      if Z.eqb returncode 0 then note_conversion st w4 (Converted cmd)
                      else note_failure st w4 (ConverterFailed cmd returncode)
                  end
              end
          end
      end
  end.

(** The command built for an acquisition classified as
    [(bids_modality, bids_suffix)]. *)
Definition command_for (subject_id session_date : string) (acquisition : string * string)
    (bids_modality : string) (bids_suffix : option string) : list string :=
  dcm2niix_cmd
    (output_filename subject_id session_date bids_suffix)
    (PyPath.to_str (PyPath.div (bids_session_dir subject_id session_date) bids_modality))
    (PyPath.to_str (dicom_source subject_id acquisition.1 acquisition.2)).

(** The command that the session hands to the converter for an
    acquisition once its source is found to hold DICOM files: none for
    an excluded modality. *)
Definition planned_command (subject_id session_date : string)
    (acquisition : string * string) : option (list string) :=
  match Converter.map_modality_to_bids mm sm acquisition.1 with
  | Return (Some bids_modality, bids_suffix) _ =>
      Some (command_for subject_id session_date acquisition bids_modality bids_suffix)
  | _ => None
  end.

(** The classifier returns for the acquisition. *)
Definition classified (acquisition : string * string) : bool :=
  match Converter.map_modality_to_bids mm sm acquisition.1 with
  | Return _ _ => true
  | Raise _ => false
  end.

Definition begin (w : W) : progress :=
  {| world := w; success := true; conversion_count := 0; events := [] |}.

(** [convert_session_with_dcm2niix]: the final state holds the returned
    [success]. *)
Definition convert_session_with_dcm2niix (subject_id session_date : string)
    (session_data : list (string * string)) (w : W) : progress :=
  fold_left (convert_acquisition subject_id session_date) session_data (begin w).

End world.

(** *** The calls that a session makes *)

(** A call that reached the outside, with its answer. *)
Inductive call : Type :=
| Mkdir (p : string) (answer : option string)
| Exists (p : string) (answer : string + bool)
| CountDicoms (p : string) (answer : string + nat)
| Run (cmd : list string) (answer : string + Z).

(** The system [sys] with a journal next to its world: every call is
    passed on to [sys] and written down with its answer. *)
Definition journaled {W : Type} (sys : os W) : os (W * list call) :=
  {| mkdir := λ wj p,
       let '(w, answer) := mkdir W sys wj.1 p in
       ((w, (wj.2 ++ [Mkdir p answer])%list), answer);
     path_exists := λ wj p,
       let '(w, answer) := path_exists W sys wj.1 p in
       ((w, (wj.2 ++ [Exists p answer])%list), answer);
     count_dicoms := λ wj p,
       let '(w, answer) := count_dicoms W sys wj.1 p in
       ((w, (wj.2 ++ [CountDicoms p answer])%list), answer);
     run := λ wj cmd,
       let '(w, answer) := run W sys wj.1 cmd in
       ((w, (wj.2 ++ [Run cmd answer])%list), answer) |}.

(** The journal of a state, and the state without it. *)
Definition journal {W : Type} (st : progress (W * list call)) : list call :=
  (world _ st).2.

Definition unjournaled {W : Type} (st : progress (W * list call)) : progress W :=
  {| world := (world _ st).1; success := success _ st;
     conversion_count := conversion_count _ st; events := events _ st |}.

(** A call that leaves [success] as it is: it did not raise, and a run
    of the converter returned 0. *)
Definition call_ok (c : call) : bool :=
  match c with
  | Mkdir _ None | Exists _ (inr _) | CountDicoms _ (inr _) => true
  | Run _ (inr returncode) => Z.eqb returncode 0
  | _ => false
  end.

(** The command and the return code of a run that returned. *)
Definition returned (c : call) : option (list string * Z) :=
  match c with
  | Run cmd (inr returncode) => Some (cmd, returncode)
  | _ => None
  end.

(** A run of the converter that returned 0. *)
Definition run_ok (c : call) : bool :=
  match c with
  | Run _ (inr returncode) => Z.eqb returncode 0
  | _ => false
  end.

(** The command handed to [subprocess.run]. *)
Definition command_run (c : call) : option (list string) :=
  match c with
  | Run cmd _ => Some cmd
  | _ => None
  end.

(** An event that makes the session fail. *)
Definition is_failure (e : event) : bool :=
  match e with
  | ConverterFailed _ _ | Errored _ _ _ => true
  | _ => false
  end.

Definition is_conversion (e : event) : bool :=
  match e with
  | Converted _ => true
  | _ => false
  end.

(** The command of an event, if the converter was run. *)
Definition command_of (e : event) : option (list string) :=
  match e with
  | Converted cmd | ConverterFailed cmd _ => Some cmd
  | _ => None
  end.

(** The run that an event reports, with its return code. *)
Definition reported (e : event) : option (list string * Z) :=
  match e with
  | Converted cmd => Some (cmd, 0%Z)
  | ConverterFailed cmd returncode => Some (cmd, returncode)
  | _ => None
  end.

End Orchestrator.
(** ** More sample data *)

Module Samples2.

(** The tree of the module docstring, with a file and a directory that is
    no timestamp among the entries. *)
Definition subject_tree : Tree.node :=
  Tree.Dir
    [ ("T1", Tree.Dir [ ("2022-03-31_13_38_14.0", Tree.Dir []);
                        ("2023-05-15_09_22_01.0", Tree.Dir []) ]);
      ("notes.txt", Tree.File);
      ("fMRI", Tree.Dir [ ("2022-03-31_14_15_30.0", Tree.Dir []);
                          ("scratch", Tree.Dir []);
                          ("2023-05-15_10_45_12.0", Tree.File) ]) ].

Definition dicom_tree : Tree.node := Tree.Dir [ ("027_S_6512", subject_tree) ].

(** A world that records the directories made and the commands run; every
    source exists and holds DICOM files, and the converter returns 0. *)
Definition recording : Orchestrator.os (list (list string)) :=
  {| Orchestrator.mkdir := λ w p, (["mkdir"; p] :: w, None);
     Orchestrator.path_exists := λ w _, (w, inr true);
     Orchestrator.count_dicoms := λ w _, (w, inr 176%nat);
     Orchestrator.run := λ w cmd, (cmd :: w, inr 0%Z) |}.

(** One on which the converter fails: it returns 1 for the source of
    the second acquisition and 0 otherwise. *)
Definition failing_once : Orchestrator.os unit :=
  {| Orchestrator.mkdir := λ w _, (w, None);
     Orchestrator.path_exists := λ w _, (w, inr true);
     Orchestrator.count_dicoms := λ w _, (w, inr 176%nat);
     Orchestrator.run := λ w cmd,
       (w, inr (if bool_decide ("dicom/027_S_6512/Axial_rsfMRI__Eyes_Open_/2022-03-31_14_15_30.0"
                                ∈ cmd)
                then 1%Z else 0%Z)) |}.

Definition mprage_then_fmri : list (string * string) :=
  [ ("MPRAGE", "2022-03-31_13_38_14.0");
    ("AAHead_Scout", "2022-03-31_13_30_00.0");
    ("Axial_rsfMRI__Eyes_Open_", "2022-03-31_14_15_30.0") ].

Definition scouts : list (string * string) :=
  [ ("AAHead_Scout", "2022-03-31_13_30_00.0"); ("Localizer", "2022-03-31_13_31_00.0") ].

Definition one_mprage : list (string * string) := [ ("MPRAGE", "2022-03-31_13_38_14.0") ].

Definition mprage_cmd : list string :=
  [ "dcm2niix"; "-z"; "y"; "-b"; "y"; "-ba"; "n";
    "-f"; "sub-027S6512_ses-20220331_T1w";
    "-o"; "BIDS_output/sub-027S6512/ses-20220331/anat";
    "dicom/027_S_6512/MPRAGE/2022-03-31_13_38_14.0" ].

End Samples2.
(** ** Vocabulary of paths *)

Module PathSpec.

(** A path component: not empty, not ['.'], without a slash. *)
Definition component (x : string) : Prop :=
  PyPath.is_part x = true ∧ PyStr.contains "/" x = false.

(** A parsed path in normal form: one of the three roots, and components. *)
Definition normal (p : PyPath.t) : Prop :=
  (PyPath.root p = "" ∨ PyPath.root p = "/" ∨ PyPath.root p = "//")
  ∧ Forall component (PyPath.parts p).

End PathSpec.
(** ** The documented plan of a group *)

Module PlanNames.

(** The plan element that renames the file [old_name] of the directory
    [dir] to [new_name]. *)
Definition rename_in (subject_id session_id modality base_name dir : string)
    (old_name new_name old_suffix new_suffix : string) : Item.t :=
  {| Item.old_path := dir ++ "/" ++ old_name;
     Item.new_path := dir ++ "/" ++ new_name;
     Item.old_filename := old_name; Item.new_filename := new_name;
     Item.subject := subject_id; Item.session := session_id;
     Item.modality := modality; Item.base_name := base_name;
     Item.old_suffix := old_suffix; Item.new_suffix := new_suffix |}.

Section documented.
Variable fs : FS.t.
Variables subject_id session_id modality base_name : string.
(** The directory of the group, and the part of its file names before
    the base name: the files are [dir/stem_BASE<letter>.nii.gz]. *)
Variables dir stem : string.

(** The volume [old.nii.gz], to be named [new.nii.gz], followed by its
    JSON file [old.json], to be named [new.json], if that is on disk. *)
Definition volume_with_sidecar (old new old_suffix new_suffix : string) : list Item.t :=
  rename_in subject_id session_id modality base_name dir
            (old ++ ".nii.gz") (new ++ ".nii.gz") old_suffix new_suffix ::
  (if FS.exists_ fs (dir ++ "/" ++ old ++ ".json")
   then [rename_in subject_id session_id modality base_name dir
                   (old ++ ".json") (new ++ ".json") old_suffix new_suffix]
   else []).

(** The name with the letter [suffix], and the name with the number [k]. *)
Definition lettered (suffix : string) : string := stem ++ "_" ++ base_name ++ suffix.

Definition numbered (k : nat) : string :=
  stem ++ "_" ++ base_name ++ "_" ++ PyStr.fmt02 k.

(** The members with the suffixes [suffixes], numbered from [start]. *)
Definition members_numbered (start : nat) (suffixes : list string) : list Item.t :=
  concat (imap (λ k suffix,
                  volume_with_sidecar (lettered suffix) (numbered (start + k))
                                      suffix (PyStr.fmt02 (start + k)))
               suffixes).

(** The plan that the specification gives for the group whose letters,
    in ascending order, are [suffixes]: an unsuffixed base file, if
    there is one, becomes number 01 and the letters follow from 02;
    without one the letters are numbered from 01. *)
Definition documented_plan (suffixes : list string) : list Item.t :=
  if FS.exists_ fs (dir ++ "/" ++ lettered "" ++ ".nii.gz")
  then (volume_with_sidecar (lettered "") (numbered 1) "" "01"
        ++ members_numbered 2 suffixes)%list
  else members_numbered 1 suffixes.

(** A file of the group that is named by the convention, in a way that
    the planner's replacements of texts cannot mistake. *)
Definition conventional (file_info : FileInfo.t) : Prop :=
  let suffix := FileInfo.suffix file_info in
  FileInfo.filename file_info = stem ++ "_" ++ base_name ++ suffix ++ ".nii.gz"
  ∧ FileInfo.full_path file_info = dir ++ "/" ++ FileInfo.filename file_info
  ∧ PyStr.contains "/" suffix = false
  ∧ StrSpec.starts_inside (base_name ++ suffix) (stem ++ "_")
      ((base_name ++ suffix) ++ ".nii.gz") = false
  ∧ PyStr.contains (base_name ++ suffix) ".nii.gz" = false
  ∧ StrSpec.starts_inside ("_" ++ base_name ++ ".nii.gz") stem
      ("_" ++ base_name ++ ".nii.gz") = false
  ∧ StrSpec.starts_inside ("_" ++ base_name) stem
      (("_" ++ base_name) ++ suffix ++ ".nii.gz") = false
  ∧ (base_name = "T1w" ∨ PyStr.contains "T1w" (FileInfo.filename file_info) = false)
  ∧ PyStr.contains ".nii.gz" (dir ++ "/" ++ lettered suffix) = false.

End documented.

End PlanNames.
(** * Properties *)

(** ** Strings *)

Module PyStrFacts.
Import PyStr Spec.

Lemma app_cons (c : ascii) (a b : string) : String c a ++ b = String c (a ++ b).
Proof. reflexivity. Qed.

Lemma app_empty (b : string) : "" ++ b = b.
Proof. reflexivity. Qed.

Lemma prefix_cons (a b : ascii) (s1 s2 : string) :
  String.prefix (String a s1) (String b s2)
  = if ascii_dec a b then String.prefix s1 s2 else false.
Proof. reflexivity. Qed.

Lemma prefix_app (a b : string) :
  String.prefix a b = true ↔ ∃ post, b = a ++ post.
Proof.
  revert b. induction a as [|c a IH]; intros b; simpl.
  - destruct b; split; eauto.
  - destruct b as [|c' b]; simpl.
    + split; [discriminate | intros [post H]; discriminate].
    + destruct (ascii_dec c c') as [->|Hne].
      * rewrite IH. split; intros [post H]; exists post;
          rewrite ?app_cons in *; congruence.
      * split; [discriminate | intros [post H]; rewrite app_cons in H; congruence].
Qed.

(** [upper] turns the small letters of the alphabet into their capitals
    and changes no other character. *)
Lemma upper_ascii_capital (c : ascii) : upper_ascii c = capital c.
Proof. destruct c as [[] [] [] [] [] [] [] []]; reflexivity. Qed.

Lemma upper_capitals (s : string) : upper s = capitals s.
Proof.
  induction s as [|c s IH]; [reflexivity|]. simpl. by rewrite upper_ascii_capital, IH.
Qed.

Lemma contains_occurs (a b : string) : contains a b = true ↔ occurs_in a b.
Proof.
  induction b as [|c b IH].
  - cbn [contains]. rewrite orb_false_r, prefix_app. split.
    + intros [post H]. exists "", post. exact H.
    + intros (pre & post & H). destruct pre; [rewrite app_empty in H; eauto|].
      rewrite app_cons in H. discriminate.
  - cbn [contains]. rewrite orb_true_iff, prefix_app, IH. split.
    + intros [[post H] | (pre & post & H)].
      * exists "", post. exact H.
      * exists (String c pre), post. rewrite app_cons. congruence.
    + intros (pre & post & H). destruct pre as [|c' pre].
      * left. rewrite app_empty in H. eauto.
      * right. rewrite app_cons in H. exists pre, post. congruence.
Qed.

Lemma upper_ascii_idemp (c : ascii) : upper_ascii (upper_ascii c) = upper_ascii c.
Proof.
  destruct c as [[] [] [] [] [] [] [] []]; vm_compute; reflexivity.
Qed.

Lemma upper_idemp (s : string) : upper (upper s) = upper s.
Proof.
  induction s as [|c s IH]; simpl; [reflexivity|].
  rewrite upper_ascii_idemp, IH. reflexivity.
Qed.

(** *** Two-digit numerals *)

Lemma to_uint_nonnil (n : nat) : Nat.to_uint n ≠ Decimal.Nil.
Proof.
  intros H. pose proof (Unsigned.to_of (Nat.to_uint n)) as E.
  rewrite Unsigned.of_to, H in E. simpl in E. discriminate E.
Qed.

Lemma nat_of_str_of_nat (n : nat) : nat_of_str (str_of_nat n) = Some n.
Proof.
  unfold nat_of_str, str_of_nat.
  rewrite NilZero.usu by apply to_uint_nonnil. simpl.
  by rewrite Unsigned.of_to.
Qed.

(** A leading zero does not change the number read. *)
Lemma nat_of_str_zero (s : string) (n : nat) :
  nat_of_str s = Some n → nat_of_str (String "0" s) = Some n.
Proof.
  unfold nat_of_str, NilZero.uint_of_string.
  destruct s as [|c s]; [discriminate|].
  cbn [NilEmpty.uint_of_string].
  destruct (uint_of_char c (NilEmpty.uint_of_string s)) as [d|]; [|discriminate].
  simpl. intros [= <-]. reflexivity.
Qed.

(** The numeral reads back as the number: padding loses nothing. *)
Lemma fmt02_read (n : nat) : nat_of_str (fmt02 n) = Some n.
Proof.
  unfold fmt02. destruct (String.length (str_of_nat n) <? 2)%nat.
  - rewrite app_cons, app_empty. apply nat_of_str_zero, nat_of_str_of_nat.
  - apply nat_of_str_of_nat.
Qed.

Lemma fmt02_inj (i j : nat) : fmt02 i = fmt02 j → i = j.
Proof.
  intros H. pose proof (fmt02_read i) as Hi. rewrite H, fmt02_read in Hi. congruence.
Qed.

(** Up to 99 the numeral has exactly two characters. *)
Lemma fmt02_width (n : nat) : (n < 100)%nat → String.length (fmt02 n) = 2%nat.
Proof.
  intros Hn.
  assert (Hall : Forall (λ k, String.length (fmt02 k) = 2%nat) (seq 0 100)).
  { apply (bool_decide_unpack _). vm_compute. exact I. }
  rewrite Forall_forall in Hall. apply Hall, elem_of_seq. lia.
Qed.

(** *** Replacing the volume extension *)

Lemma replace_from_no_match (old new s t : string) :
  (∀ pre post, s = pre ++ post → post ≠ "" → String.prefix old (post ++ t) = false) →
  replace_from old new 0 (s ++ t) = s ++ replace_from old new 0 t.
Proof.
  induction s as [|c s IH]; intros Hno; [reflexivity|].
  rewrite !app_cons. cbn [replace_from].
  rewrite <- app_cons, (Hno "" (String c s)) by done.
  rewrite IH; [reflexivity|].
  intros pre post -> Hpost. apply (Hno (String c pre) post); done.
Qed.

(** The extension does not overlap itself: if it starts inside [s] and
    runs into a following copy of itself, it lies within [s]. *)
Lemma nii_gz_no_overlap (s : string) :
  s ≠ "" → String.prefix ".nii.gz" (s ++ ".nii.gz") = true →
  String.prefix ".nii.gz" s = true.
Proof.
  intros Hs. destruct s as [|c s]; [done|]. clear Hs.
  rewrite app_cons, !prefix_cons.
  destruct (ascii_dec "." c) as [<-|]; [|discriminate].
  do 6 (destruct s as [|c s]; [rewrite app_empty; vm_compute; discriminate|];
        rewrite app_cons, !prefix_cons;
        match goal with
        | |- context [ascii_dec ?x c] =>
            destruct (ascii_dec x c) as [<-|]; [|discriminate]
        end).
  intros _. destruct s; reflexivity.
Qed.

(** For a path that ends in ['.nii.gz'] and has no other occurrence of it,
    the replacement swaps the extension: the JSON path is the same stem
    with the extension ['.json']. *)
Lemma replace_extension (stem : string) :
  ¬ occurs_in ".nii.gz" stem →
  replace ".nii.gz" ".json" (stem ++ ".nii.gz") = stem ++ ".json".
Proof.
  intros Hno. unfold replace. rewrite replace_from_no_match; [reflexivity|].
  intros pre post -> Hpost.
  destruct (String.prefix ".nii.gz" (post ++ ".nii.gz")) eqn:Hp; [|reflexivity].
  exfalso. apply Hno.
  apply nii_gz_no_overlap, prefix_app in Hp as [rest ->]; [|done].
  exists pre, rest. reflexivity.
Qed.

End PyStrFacts.
(** ** The category classifier *)

Module ConverterFacts.
Import Converter Spec.

Ltac unfold_outcome :=
  unfold mbind, outcome_bind, mret, outcome_ret, warning in *.

Lemma mem_get {V} (k : string) (d : list (string * V)) :
  Dict.mem k d = true ↔ is_Some (Dict.get k d).
Proof.
  unfold Dict.mem. destruct (Dict.get k d); split; eauto.
  - discriminate.
  - intros [x Hx]. discriminate.
Qed.

Lemma get_elem_of {V} (k : string) (v : V) (d : list (string * V)) :
  Dict.get k d = Some v → (k, v) ∈ d.
Proof.
  induction d as [|[k' v'] d IH]; simpl; [discriminate|].
  destruct (String.eqb_spec k k') as [->|Hne].
  - intros [= ->]. left.
  - intros H. right. auto.
Qed.

(** The guarded subscripts of the suffix step never raise, and the step
    computes the suffix by priority. *)
Lemma determine_suffix_spec sm (modality_dir c : string) :
  determine_suffix sm modality_dir c =
  Return (Some c, Some (suffix_by_priority sm modality_dir c).1)
         (suffix_by_priority sm modality_dir c).2.
Proof.
  unfold determine_suffix, suffix_by_priority, Dict.mem, Dict.subscript.
  destruct (Dict.get c sm) as [suffix_map|]; [|reflexivity].
  unfold_outcome.
  destruct (Dict.get modality_dir suffix_map); [reflexivity|].
  destruct (Dict.get "default" suffix_map); reflexivity.
Qed.

Lemma skipped_false (modality_dir : string) (entry : string * string) :
  skipped modality_dir entry = false ↔
  entry.2 ≠ "exclude" ∧ ci_match entry.1 modality_dir.
Proof.
  unfold skipped, key_matches, ci_match.
  rewrite orb_false_iff, negb_false_iff, orb_true_iff.
  rewrite !PyStrFacts.contains_occurs, !PyStrFacts.upper_capitals.
  destruct (String.eqb_spec entry.2 "exclude"); split; intros []; try done.
Qed.

(** The loop stops at the first entry that is not passed over. *)
Lemma partial_match_first mm (modality_dir : string) pre adni_name bids_name post :
  mm = (pre ++ (adni_name, bids_name) :: post)%list →
  forallb (skipped modality_dir) pre = true →
  skipped modality_dir (adni_name, bids_name) = false →
  partial_match mm (PyStr.upper modality_dir) = Some bids_name.
Proof.
  intros -> Hpre Hhit. induction pre as [|[k v] pre IH]; simpl in *.
  - unfold skipped in Hhit. simpl in Hhit.
    apply orb_false_iff in Hhit as [-> Hm]. apply negb_false_iff in Hm.
    rewrite Hm. reflexivity.
  - apply andb_true_iff in Hpre as [Hkv Hpre]. unfold skipped in Hkv. simpl in Hkv.
    destruct (String.eqb v "exclude"); [auto|].
    simpl in Hkv. apply negb_true_iff in Hkv. rewrite Hkv. auto.
Qed.

Lemma partial_match_none mm (modality_dir : string) :
  forallb (skipped modality_dir) mm = true →
  partial_match mm (PyStr.upper modality_dir) = None.
Proof.
  induction mm as [|[k v] mm IH]; simpl; [reflexivity|].
  intros [Hkv Hmm]%andb_true_iff. unfold skipped in Hkv. simpl in Hkv.
  destruct (String.eqb v "exclude"); [auto|].
  simpl in Hkv. apply negb_true_iff in Hkv. rewrite Hkv. auto.
Qed.

(** Whatever the loop finds is the value of a table entry that is not
    ['exclude']. *)
Lemma partial_match_some mm (u c : string) :
  partial_match mm u = Some c → c ≠ "exclude" ∧ ∃ k, (k, c) ∈ mm.
Proof.
  induction mm as [|[k v] mm IH]; simpl; [discriminate|].
  destruct (String.eqb_spec v "exclude") as [->|Hne].
  - intros H. destruct (IH H) as [? [k' ?]]. split; [done|]. exists k'. by right.
  - destruct (key_matches k u).
    + intros [= ->]. split; [done|]. exists k. left.
    + intros H. destruct (IH H) as [? [k' ?]]. split; [done|]. exists k'. by right.
Qed.

(** Every value of the table is one of the five categories or ['exclude']. *)
Lemma table_values (k c : string) :
  (k, c) ∈ modality_mapping → c = "exclude" ∨ c ∈ categories.
Proof.
  intros Hin.
  assert (Hall : Forall (λ kv : string * string,
                   kv.2 = "exclude" ∨ kv.2 ∈ categories) modality_mapping).
  { apply (bool_decide_unpack _). vm_compute. exact I. }
  rewrite Forall_forall in Hall. exact (Hall _ Hin).
Qed.

(** Every category has a suffix sub-table with a ['default'] entry. *)
Lemma suffix_tables_default (c : string) :
  c ∈ categories →
  ∃ suffix_map dflt,
    Dict.get c suffix_mapping = Some suffix_map
    ∧ Dict.get "default" suffix_map = Some dflt.
Proof.
  unfold categories. rewrite !elem_of_cons, elem_of_nil.
  intros [->|[->|[->|[->|[->|[]]]]]]; eexists _, _; split; reflexivity.
Qed.

Lemma determine_suffix_known (modality_dir c : string) :
  c ∈ categories →
  ∃ suffix, determine_suffix suffix_mapping modality_dir c
            = Return (Some c, Some suffix) [].
Proof.
  intros (suffix_map & dflt & Hsub & Hdflt)%suffix_tables_default.
  rewrite determine_suffix_spec. unfold suffix_by_priority. rewrite Hsub.
  destruct (Dict.get modality_dir suffix_map); [eauto|]. rewrite Hdflt. eauto.
Qed.

Lemma category_nonempty (c : string) : c ∈ categories → ∃ a s, c = String a s.
Proof.
  unfold categories. rewrite !elem_of_cons, elem_of_nil.
  intros [->|[->|[->|[->|[->|[]]]]]]; eauto.
Qed.

(** *** Exact matches *)

(** C5: a directory name that is a key of the mapping table is classified
    by its own entry and without warning: an ['exclude'] entry gives
    [(None, None)], any other entry gives its category with the suffix of
    the category's sub-table (the entry of the name, else the default).
    In particular ['Axial_MB_DTI_PA__MSV21_'] gives [('dwi', 'dir-PA_dwi')]
    and ['AAHead_Scout'] gives [(None, None)]; neither raises. *)
Theorem exact_match_classification :
  (∀ modality_dir c : string,
     Dict.get modality_dir modality_mapping = Some c →
     (c = "exclude" ∧ classify modality_dir = Return (None, None) [])
     ∨ (c ≠ "exclude"
        ∧ ∃ suffix_map dflt,
            Dict.get c suffix_mapping = Some suffix_map
            ∧ Dict.get "default" suffix_map = Some dflt
            ∧ classify modality_dir
              = Return (Some c, Some (default dflt (Dict.get modality_dir suffix_map))) []))
  ∧ classify "Axial_MB_DTI_PA__MSV21_" = Return (Some "dwi", Some "dir-PA_dwi") []
  ∧ classify "AAHead_Scout" = Return (None, None) [].
Proof.
  split; [|split; vm_compute; reflexivity].
  intros modality_dir c Hget.
  unfold classify, map_modality_to_bids, Dict.mem, Dict.subscript. rewrite Hget.
  unfold_outcome.
  destruct (String.eqb_spec c "exclude") as [->|Hne]; [left; done|right].
  split; [done|].
  destruct (table_values _ _ (get_elem_of _ _ _ Hget)) as [?|Hcat]; [done|].
  destruct (suffix_tables_default _ Hcat) as (suffix_map & dflt & Hsub & Hdflt).
  exists suffix_map, dflt. split; [done|]. split; [done|].
  rewrite determine_suffix_spec. unfold suffix_by_priority. rewrite Hsub.
  destruct (Dict.get modality_dir suffix_map); simpl; [reflexivity|].
  rewrite Hdflt. reflexivity.
Qed.

Lemma exact_match_classification_witness :
  classify "MPRAGE_repeat" = Return (Some "anat", Some "T1w") []
  ∧ classify "Localizer" = Return (None, None) [].
Proof.
  split.
  - destruct (proj1 exact_match_classification "MPRAGE_repeat" "anat" eq_refl)
      as [[Hc _]|[_ (suffix_map & dflt & Hsub & Hdflt & Hcl)]]; [discriminate Hc|].
    vm_compute in Hsub, Hdflt. injection Hsub as <-. injection Hdflt as <-.
    exact Hcl.
  - destruct (proj1 exact_match_classification "Localizer" "exclude" eq_refl)
      as [[_ Hcl]|[Hc _]]; [exact Hcl|]. exfalso. apply Hc. reflexivity.
Defined.

(** *** The substring fallback *)

(** C4: for a directory name in ASCII with no entry of its own, the
    classifier scans the table in its order and takes the category of the
    first entry that is not passed over; when every entry is passed over
    it returns [('other', 'unknown')] with one warning.  An entry is
    passed over exactly when its category is ['exclude'] or neither of
    its key and the directory name occurs in the other once the small
    letters of both are turned into capitals. *)
Theorem fallback_first_match (modality_dir : string) :
  PyStr.is_ascii modality_dir = true →
  Dict.get modality_dir modality_mapping = None →
  (∀ pre adni_name bids_name post,
     modality_mapping = (pre ++ (adni_name, bids_name) :: post)%list →
     forallb (skipped modality_dir) pre = true →
     skipped modality_dir (adni_name, bids_name) = false →
     ∃ suffix, classify modality_dir = Return (Some bids_name, Some suffix) [])
  ∧ (forallb (skipped modality_dir) modality_mapping = true →
     classify modality_dir
     = Return (Some "other", Some "unknown") [unknown_modality_warning modality_dir])
  ∧ (∀ entry, skipped modality_dir entry = false ↔
              entry.2 ≠ "exclude" ∧ ci_match entry.1 modality_dir).
Proof.
  intros _ Hget. split; [|split].
  - intros pre adni_name bids_name post Hmm Hpre Hhit.
    pose proof (partial_match_first _ _ _ _ _ _ Hmm Hpre Hhit) as Hpm.
    assert (Hin : (adni_name, bids_name) ∈ modality_mapping).
    { rewrite Hmm. apply elem_of_app. right. left. }
    apply skipped_false in Hhit as [Hne _]. simpl in Hne.
    destruct (table_values _ _ Hin) as [?|Hcat]; [done|].
    unfold classify, map_modality_to_bids, Dict.mem. rewrite Hget, Hpm.
    destruct (category_nonempty _ Hcat) as (a & s & ->).
    apply determine_suffix_known, Hcat.
  - intros Hall. unfold classify, map_modality_to_bids, Dict.mem.
    rewrite Hget, (partial_match_none _ _ Hall). reflexivity.
  - apply skipped_false.
Qed.

(** A name in small letters is matched by a key in capitals and small
    letters, and a key in capitals by a name that has it in small
    letters; the entries before the hit are passed over, one of them
    because its category is ['exclude'] although its key matches. *)
Lemma fallback_first_match_witness :
  (∃ suffix, classify "axial_mb_dti_tensor_b0_v2" = Return (Some "dwi", Some suffix) [])
  ∧ (∃ suffix, classify "t1_mprage_sag" = Return (Some "anat", Some suffix) [])
  ∧ classify "aahead_scout_v2"
    = Return (Some "other", Some "unknown")
             [unknown_modality_warning "aahead_scout_v2"]
  ∧ skipped "aahead_scout_v2" ("AAHead_Scout", "exclude") = true
  ∧ ci_match "AAHead_Scout" "aahead_scout_v2"
  ∧ ¬ occurs_in "AAHead_Scout" "aahead_scout_v2".
Proof.
  split; [|split; [|split; [|split; [|split]]]].
  - apply (proj1 (fallback_first_match "axial_mb_dti_tensor_b0_v2" eq_refl eq_refl)
             (take 97 modality_mapping) "Axial_MB_DTI" "dwi" (drop 98 modality_mapping));
      vm_compute; reflexivity.
  - apply (proj1 (fallback_first_match "t1_mprage_sag" eq_refl eq_refl)
             (take 0 modality_mapping) "MPRAGE" "anat" (drop 1 modality_mapping));
      vm_compute; reflexivity.
  - apply (proj1 (proj2 (fallback_first_match "aahead_scout_v2" eq_refl eq_refl))).
    vm_compute. reflexivity.
  - vm_compute. reflexivity.
  - left. exists "", "_V2". vm_compute. reflexivity.
  - rewrite <- PyStrFacts.contains_occurs. vm_compute. discriminate.
Defined.

(** The first entry that matches is taken, not the longest key: the key
    ['MPRAGE'] comes before ['Field_Mapping'] in the table. *)
Example first_hit_not_longest :
  classify "Field_Mapping_MPRAGE" = Return (Some "anat", Some "T1w") [].
Proof. vm_compute. reflexivity. Qed.

(** The case of the letters does not matter to the fallback. *)
Example fallback_ignores_case :
  classify "field_mapping_new" = classify "FIELD_MAPPING_NEW"
  ∧ classify "field_mapping_new" = Return (Some "fmap", Some "fieldmap") []
  ∧ PyStr.upper "Axial_fcMRI (eyes open) 2" = "AXIAL_FCMRI (EYES OPEN) 2".
Proof. repeat split; vm_compute; reflexivity. Qed.

(** *** The suffix *)

(** C6: when the directory name resolves to a category, the suffix is the
    name's own entry in the category's sub-table; failing that the
    sub-table's ['default'] entry; failing that (or with no sub-table)
    ['unknown'], with a warning.  Stated for arbitrary tables. *)
Theorem suffix_priority (mm : list (string * string))
    (sm : list (string * list (string * string))) (modality_dir c : string) :
  resolves_to mm modality_dir c →
  map_modality_to_bids mm sm modality_dir =
  match Dict.get c sm with
  | Some suffix_map =>
      match Dict.get modality_dir suffix_map with
      | Some suffix => Return (Some c, Some suffix) []
      | None =>
          match Dict.get "default" suffix_map with
          | Some suffix => Return (Some c, Some suffix) []
          | None => Return (Some c, Some "unknown") [no_suffix_warning modality_dir c]
          end
      end
  | None => Return (Some c, Some "unknown") [no_suffix_warning modality_dir c]
  end.
Proof.
  intros Hres.
  assert (Hds : map_modality_to_bids mm sm modality_dir
                = determine_suffix sm modality_dir c).
  { unfold map_modality_to_bids, Dict.mem, Dict.subscript.
    destruct Hres as [[Hget Hne]|(Hget & Hne & Hpm)]; rewrite Hget.
    - unfold_outcome. destruct (String.eqb_spec c "exclude"); [done|].
      destruct (determine_suffix sm modality_dir c); [|reflexivity].
      reflexivity.
    - rewrite Hpm. destruct c; [done|reflexivity]. }
  rewrite Hds, determine_suffix_spec. unfold suffix_by_priority.
  destruct (Dict.get c sm) as [suffix_map|]; [|reflexivity].
  destruct (Dict.get modality_dir suffix_map); [reflexivity|].
  destruct (Dict.get "default" suffix_map); reflexivity.
Qed.

Lemma suffix_priority_witness :
  map_modality_to_bids modality_mapping suffix_mapping "Axial_MB_dMRI_P__A__MSV21_"
  = Return (Some "dwi", Some "dir-PA_dwi") []
  ∧ map_modality_to_bids modality_mapping suffix_mapping "PASL"
    = Return (Some "perf", Some "asl") []
  ∧ map_modality_to_bids modality_mapping [("dwi", [("Axial_DTI", "dwi")])] "PASL"
    = Return (Some "perf", Some "unknown") [no_suffix_warning "PASL" "perf"]
  ∧ map_modality_to_bids modality_mapping [("perf", [("Axial_2D_PASL", "asl")])] "PASL"
    = Return (Some "perf", Some "unknown") [no_suffix_warning "PASL" "perf"].
Proof.
  split; [|split; [|split]].
  - apply (suffix_priority modality_mapping suffix_mapping
             "Axial_MB_dMRI_P__A__MSV21_" "dwi").
    left. split; [vm_compute; reflexivity | discriminate].
  - apply (suffix_priority modality_mapping suffix_mapping "PASL" "perf").
    right. split; [|split]; [vm_compute; reflexivity | discriminate
                            | vm_compute; reflexivity].
  - apply (suffix_priority modality_mapping [("dwi", [("Axial_DTI", "dwi")])]
             "PASL" "perf").
    right. split; [|split]; [vm_compute; reflexivity | discriminate
                            | vm_compute; reflexivity].
  - apply (suffix_priority modality_mapping [("perf", [("Axial_2D_PASL", "asl")])]
             "PASL" "perf").
    right. split; [|split]; [vm_compute; reflexivity | discriminate
                            | vm_compute; reflexivity].
Defined.

(** *** Totality and the range of results *)

(** C9: whatever the tables and the input string, the classifier returns
    and does not raise.  The result is [(None, None)] or a pair of
    strings; a warning is logged only with a result whose suffix is
    ['unknown'] (and whose category is ['other'] when the name itself is
    unknown). *)
Theorem classifier_total (mm : list (string * string))
    (sm : list (string * list (string * string))) (modality_dir : string) :
  ∃ result log,
    map_modality_to_bids mm sm modality_dir = Return result log
    ∧ ((result = (None, None) ∧ log = [])
       ∨ ∃ c suffix,
           result = (Some c, Some suffix)
           ∧ (log = []
              ∨ (suffix = "unknown" ∧ c = "other"
                 ∧ log = [unknown_modality_warning modality_dir])
              ∨ (suffix = "unknown" ∧ log = [no_suffix_warning modality_dir c]))).
Proof.
  assert (Hds : ∀ c, ∃ suffix log,
    determine_suffix sm modality_dir c = Return (Some c, Some suffix) log
    ∧ (log = [] ∨ (suffix = "unknown" ∧ log = [no_suffix_warning modality_dir c]))).
  { intros c. rewrite determine_suffix_spec. unfold suffix_by_priority.
    destruct (Dict.get c sm) as [suffix_map|]; [|eauto 6].
    destruct (Dict.get modality_dir suffix_map); [eauto 6|].
    destruct (Dict.get "default" suffix_map); eauto 6. }
  unfold map_modality_to_bids, Dict.mem, Dict.subscript.
  destruct (Dict.get modality_dir mm) as [c|].
  - unfold_outcome. destruct (String.eqb c "exclude"); [eauto 6|].
    destruct (Hds c) as (suffix & log & -> & Hlog).
    exists (Some c, Some suffix), log. split; [reflexivity|right].
    exists c, suffix. split; [reflexivity|]. tauto.
  - destruct (partial_match mm (PyStr.upper modality_dir)) as [[|a c]|].
    + do 2 eexists. split; [reflexivity|]. right. do 2 eexists. split; [reflexivity|].
      right. left. done.
    + destruct (Hds (String a c)) as (suffix & log & -> & Hlog).
      do 2 eexists. split; [reflexivity|]. right. do 2 eexists.
      split; [reflexivity|]. tauto.
    + do 2 eexists. split; [reflexivity|]. right. do 2 eexists. split; [reflexivity|].
      right. left. done.
Qed.

(** C10: the classifier never hands the category ['exclude'] to its
    caller: for every input it returns [(None, None)] or a pair whose
    category is one of anat, func, dwi, fmap, perf and other. *)
Theorem never_returns_exclude (modality_dir : string) :
  ∃ result log,
    classify modality_dir = Return result log
    ∧ (result = (None, None)
       ∨ ∃ c suffix, result = (Some c, Some suffix)
                     ∧ c ∈ ["anat"; "func"; "dwi"; "fmap"; "perf"; "other"]
                     ∧ c ≠ "exclude").
Proof.
  assert (Hcat : ∀ c, c ∈ categories →
            c ∈ ["anat"; "func"; "dwi"; "fmap"; "perf"; "other"] ∧ c ≠ "exclude").
  { unfold categories. intros c. rewrite !elem_of_cons, elem_of_nil.
    intros [->|[->|[->|[->|[->|[]]]]]]; (split; [|discriminate]); auto 10. }
  unfold classify, map_modality_to_bids, Dict.mem, Dict.subscript.
  destruct (Dict.get modality_dir modality_mapping) as [c|] eqn:Hget.
  - unfold_outcome. destruct (String.eqb_spec c "exclude") as [->|Hne]; [eauto|].
    destruct (table_values _ _ (get_elem_of _ _ _ Hget)) as [?|Hc]; [done|].
    destruct (determine_suffix_known modality_dir c Hc) as [suffix ->].
    do 2 eexists. split; [reflexivity|]. right. exists c, suffix.
    split; [reflexivity|]. apply Hcat, Hc.
  - destruct (partial_match modality_mapping (PyStr.upper modality_dir))
      as [c|] eqn:Hpm.
    + destruct (partial_match_some _ _ _ Hpm) as [Hne [k Hin]].
      destruct (table_values _ _ Hin) as [?|Hc]; [done|].
      destruct (category_nonempty _ Hc) as (a & s & ->).
      destruct (determine_suffix_known modality_dir _ Hc) as [suffix ->].
      do 2 eexists. split; [reflexivity|]. right. do 2 eexists.
      split; [reflexivity|]. apply Hcat, Hc.
    + do 2 eexists. split; [reflexivity|]. right. do 2 eexists.
      split; [reflexivity|]. split; [|discriminate].
      rewrite !elem_of_cons. tauto.
Qed.

End ConverterFacts.
(** ** The rename executor *)

Module ExecutorFacts.
Import Fix.

Section executor_facts.
Variable os_move : FS.t → string → string → FS.t * option string.

Lemma run_app (dry_run : bool) (p q : list Item.t) (st : state) :
  run os_move dry_run (p ++ q) st = run os_move dry_run q (run os_move dry_run p st).
Proof. unfold run. apply fold_left_app. Qed.

Lemma run_cons (dry_run : bool) (item : Item.t) (q : list Item.t) (st : state) :
  run os_move dry_run (item :: q) st
  = run os_move dry_run q (rename_step os_move dry_run st item).
Proof. reflexivity. Qed.

(** A failed precondition records one error and leaves the rest alone. *)
Lemma step_source_missing (dry_run : bool) (st : state) (item : Item.t) :
  FS.exists_ (files st) (Item.old_path item) = false →
  rename_step os_move dry_run st item = record_error st (source_missing item).
Proof. intros H. unfold rename_step. rewrite H. reflexivity. Qed.

Lemma step_target_exists (dry_run : bool) (st : state) (item : Item.t) :
  FS.exists_ (files st) (Item.old_path item) = true →
  FS.exists_ (files st) (Item.new_path item) = true →
  rename_step os_move dry_run st item = record_error st (target_exists item).
Proof. intros H1 H2. unfold rename_step. rewrite H1, H2. reflexivity. Qed.

(** Every step counts its element once, as a success or as an error. *)
Lemma step_counts (dry_run : bool) (st : state) (item : Item.t) :
  let st' := rename_step os_move dry_run st item in
  (success_count st' = S (success_count st) ∧ error_count st' = error_count st)
  ∨ (success_count st' = success_count st ∧ error_count st' = S (error_count st)).
Proof.
  unfold rename_step.
  destruct (FS.exists_ (files st) (Item.old_path item)); simpl; [|auto].
  destruct (FS.exists_ (files st) (Item.new_path item)); simpl; [auto|].
  destruct dry_run; simpl; [auto|].
  unfold try_move.
  destruct (os_move (files st) (Item.old_path item) (Item.new_path item)) as [fs' [e|]];
    simpl; auto.
Qed.

Lemma run_counts (dry_run : bool) (plan : list Item.t) (st : state) :
  success_count (run os_move dry_run plan st) + error_count (run os_move dry_run plan st)
  = success_count st + error_count st + length plan.
Proof.
  revert st. induction plan as [|item plan IH]; intros st; [simpl; lia|].
  rewrite run_cons, IH. cbn [length].
  destruct (step_counts dry_run st item) as [[-> ->]|[-> ->]]; lia.
Qed.

Lemma run_error_count_mono (dry_run : bool) (plan : list Item.t) (st : state) :
  (error_count st ≤ error_count (run os_move dry_run plan st))%nat.
Proof.
  revert st. induction plan as [|item plan IH]; intros st; [simpl; lia|].
  rewrite run_cons. etrans; [|apply IH].
  destruct (step_counts dry_run st item) as [[_ ->]|[_ ->]]; lia.
Qed.

Lemma run_success_count_mono (dry_run : bool) (plan : list Item.t) (st : state) :
  (success_count st ≤ success_count (run os_move dry_run plan st))%nat.
Proof.
  revert st. induction plan as [|item plan IH]; intros st; [simpl; lia|].
  rewrite run_cons. etrans; [|apply IH].
  destruct (step_counts dry_run st item) as [[-> _]|[-> _]]; lia.
Qed.

(** The list of messages only grows. *)
Lemma step_errors (dry_run : bool) (st : state) (item : Item.t) :
  ∃ more, errors (rename_step os_move dry_run st item) = (errors st ++ more)%list.
Proof.
  unfold rename_step, try_move.
  repeat (case_match; simpl); try (by eexists [_]); by (exists []; rewrite app_nil_r).
Qed.

Lemma run_errors (dry_run : bool) (plan : list Item.t) (st : state) :
  ∃ more, errors (run os_move dry_run plan st) = (errors st ++ more)%list.
Proof.
  revert st. induction plan as [|item plan IH]; intros st.
  - exists []. by rewrite app_nil_r.
  - rewrite run_cons.
    destruct (IH (rename_step os_move dry_run st item)) as [more ->].
    destruct (step_errors dry_run st item) as [more' ->].
    exists (more' ++ more)%list. by rewrite app_assoc.
Qed.

(** On a blocked element the step records its message and nothing else. *)
Lemma step_blocked (dry_run : bool) (st : state) (item : Item.t) :
  ExecSpec.blocked (files st) item →
  rename_step os_move dry_run st item
  = record_error st (ExecSpec.blocked_message (files st) item).
Proof.
  unfold ExecSpec.blocked, ExecSpec.blocked_message. intros Hblocked.
  destruct (FS.exists_ (files st) (Item.old_path item)) eqn:Hold.
  - destruct Hblocked as [?|Hnew]; [done|]. by apply step_target_exists.
  - by apply step_source_missing.
Qed.

(** With every element blocked, a run only records their messages. *)
Lemma run_all_blocked (dry_run : bool) (plan : list Item.t) (st : state) :
  (∀ item, item ∈ plan → ExecSpec.blocked (files st) item) →
  run os_move dry_run plan st
  = {| files := files st; success_count := success_count st;
       error_count := error_count st + length plan;
       errors := (errors st ++ (ExecSpec.blocked_message (files st) <$> plan))%list |}.
Proof.
  revert st. induction plan as [|item plan IH]; intros st Hblocked.
  - simpl. rewrite Nat.add_0_r, app_nil_r. by destruct st.
  - rewrite run_cons, step_blocked by (apply Hblocked; left).
    rewrite IH by (intros b Hb; apply Hblocked; by right).
    simpl. f_equal; [lia|]. by rewrite <- app_assoc.
Qed.

(** An element that is not blocked is acted upon: in apply mode the
    operating system is asked to move it, and the step counts a success
    or records the exception. *)
Lemma step_free (st : state) (item : Item.t) :
  ¬ ExecSpec.blocked (files st) item →
  success_count (rename_step os_move false st item) = S (success_count st)
  ∨ ∃ e, errors (rename_step os_move false st item)
         = (errors st ++ [rename_failed item e])%list.
Proof.
  unfold ExecSpec.blocked, rename_step, try_move. intros Hfree.
  destruct (FS.exists_ (files st) (Item.old_path item)); simpl; [|tauto].
  destruct (FS.exists_ (files st) (Item.new_path item)); simpl; [tauto|].
  destruct (os_move (files st) (Item.old_path item) (Item.new_path item)) as [fs' [e|]];
    simpl; eauto.
Qed.

(** C8: when the source of a plan element is missing, or its destination
    exists, at the moment the executor reaches it, the executor records
    one error for it (source missing, or else target exists), changes no
    file, counts no success, and runs the remaining elements from there.
    Every element of a plan is counted, as a success or as an error. *)
Theorem precondition_failure_continues (dry_run : bool)
    (before after : list Item.t) (item : Item.t) (st : state) :
  let reached := run os_move dry_run before st in
  FS.exists_ (files reached) (Item.old_path item) = false
  ∨ FS.exists_ (files reached) (Item.new_path item) = true →
  ∃ error_msg,
    (error_msg = source_missing item ∨ error_msg = target_exists item)
    ∧ rename_step os_move dry_run reached item = record_error reached error_msg
    ∧ files (record_error reached error_msg) = files reached
    ∧ success_count (record_error reached error_msg) = success_count reached
    ∧ error_count (record_error reached error_msg) = S (error_count reached)
    ∧ errors (record_error reached error_msg) = (errors reached ++ [error_msg])%list
    ∧ run os_move dry_run (before ++ item :: after) st
      = run os_move dry_run after (record_error reached error_msg)
    ∧ success_count (run os_move dry_run (before ++ item :: after) st)
      + error_count (run os_move dry_run (before ++ item :: after) st)
      = success_count st + error_count st + length (before ++ item :: after).
Proof.
  intros reached Hpre.
  assert (Hstep : ∃ error_msg,
    (error_msg = source_missing item ∨ error_msg = target_exists item)
    ∧ rename_step os_move dry_run reached item = record_error reached error_msg).
  { destruct (FS.exists_ (files reached) (Item.old_path item)) eqn:Hold.
    - destruct Hpre as [?|Hnew]; [done|].
      exists (target_exists item). split; [by right|]. by apply step_target_exists.
    - exists (source_missing item). split; [by left|]. by apply step_source_missing. }
  destruct Hstep as (error_msg & Hmsg & Hstep).
  exists error_msg. repeat split; try done.
  - rewrite run_app, run_cons. fold reached. by rewrite Hstep.
  - apply run_counts.
Qed.

(** C1, as amended: applying a plan once more, on the file system that
    a first apply left, is a no-op whenever every element is blocked
    there, its source gone or its destination present: the second apply
    changes no file, succeeds for no element and records one error per
    element.  The error is "source does not exist" for an element whose
    source is gone, as it is for a file that was moved, and "target
    already exists" only for an element whose source path exists again. *)
Theorem rerun_is_noop (plan : list Item.t) (fs : FS.t) :
  let first_run := execute_renames os_move plan false fs in
  let second_run := execute_renames os_move plan false (files first_run) in
  (∀ item, item ∈ plan →
     FS.exists_ (files first_run) (Item.old_path item) = false
     ∨ FS.exists_ (files first_run) (Item.new_path item) = true) →
  files second_run = files first_run
  ∧ success_count second_run = 0
  ∧ error_count second_run = length plan
  ∧ errors second_run
    = (λ item, if FS.exists_ (files first_run) (Item.old_path item)
               then "Target file already exists: " ++ Item.new_path item
               else "Source file does not exist: " ++ Item.old_path item) <$> plan.
Proof.
  intros first_run second_run Hblocked.
  unfold second_run, execute_renames.
  rewrite run_all_blocked by exact Hblocked. simpl. done.
Qed.

(** No weaker condition makes an apply a no-op: from a state in which
    some element of the plan is not blocked, an apply counts a success
    or records the failure of a move. *)
Lemma run_acts_on_free (plan : list Item.t) (st : state) :
  (∃ item, item ∈ plan ∧ ¬ ExecSpec.blocked (files st) item) →
  (success_count st < success_count (run os_move false plan st))%nat
  ∨ ∃ item e, item ∈ plan ∧ rename_failed item e ∈ errors (run os_move false plan st).
Proof.
  revert st. induction plan as [|head plan IH]; intros st (item & Hin & Hfree).
  { by apply elem_of_nil in Hin. }
  rewrite run_cons.
  destruct (decide (ExecSpec.blocked (files st) head)) as [Hhead|Hhead].
  - apply elem_of_cons in Hin as [->|Hin]; [done|].
    rewrite step_blocked by done.
    destruct (IH (record_error st (ExecSpec.blocked_message (files st) head)))
      as [Hlt|(b & e & Hb & He)].
    + by exists item.
    + left. exact Hlt.
    + right. exists b, e. split; [by right|done].
  - destruct (step_free st head Hhead) as [Hs|[e He]].
    + left. pose proof (run_success_count_mono false plan (rename_step os_move false st head)).
      lia.
    + right. exists head, e. split; [left|].
      destruct (run_errors false plan (rename_step os_move false st head)) as [more ->].
      rewrite He. apply elem_of_app. left. apply elem_of_app. right. left.
Qed.

(** *** What a successful apply leaves behind *)

Section successful_apply.
(** [touches old new p]: a move of [old] to [new] that goes through may
    change whether the path [p] exists.  For a file system that is a
    tree these are [old], [new], what lies below them and the
    directories above [new], under any of their spellings. *)
Variable touches : string → string → string → Prop.

(** The two assumptions are about the moves that the executor asks for:
    of a source that exists to a destination that does not. *)
Hypothesis frame : ∀ fs old new fs' p,
  FS.exists_ fs old = true → FS.exists_ fs new = false →
  os_move fs old new = (fs', None) → ¬ touches old new p →
  FS.exists_ fs' p = FS.exists_ fs p.

(** After a move that went through, the destination is there and the
    source is not. *)
Hypothesis arrives : ∀ fs old new fs',
  FS.exists_ fs old = true → FS.exists_ fs new = false →
  os_move fs old new = (fs', None) →
  FS.exists_ fs' new = true ∧ FS.exists_ fs' old = false.

(** A step of an apply that records no error is a move that went
    through. *)
Lemma step_moved (st : state) (item : Item.t) :
  error_count (rename_step os_move false st item) = error_count st →
  FS.exists_ (files st) (Item.old_path item) = true
  ∧ FS.exists_ (files st) (Item.new_path item) = false
  ∧ os_move (files st) (Item.old_path item) (Item.new_path item)
    = (files (rename_step os_move false st item), None).
Proof.
  unfold rename_step, try_move.
  destruct (FS.exists_ (files st) (Item.old_path item)); simpl; [|lia].
  destruct (FS.exists_ (files st) (Item.new_path item)); simpl; [lia|].
  destruct (os_move (files st) (Item.old_path item) (Item.new_path item)) as [fs' [e|]];
    simpl; [lia|done].
Qed.

Lemma run_no_error_step (plan : list Item.t) (st : state) (item : Item.t) :
  error_count (run os_move false (item :: plan) st) = error_count st →
  error_count (rename_step os_move false st item) = error_count st
  ∧ error_count (run os_move false plan (rename_step os_move false st item))
    = error_count (rename_step os_move false st item).
Proof.
  rewrite run_cons. intros Herr.
  pose proof (run_error_count_mono false plan (rename_step os_move false st item)).
  destruct (step_counts false st item) as [[_ Hs]|[_ Hs]]; lia.
Qed.

(** A path that no element touches exists after an apply without errors
    exactly if it did before. *)
Lemma run_frame (plan : list Item.t) (st : state) (p : string) :
  error_count (run os_move false plan st) = error_count st →
  (∀ b, b ∈ plan → ¬ touches (Item.old_path b) (Item.new_path b) p) →
  FS.exists_ (files (run os_move false plan st)) p = FS.exists_ (files st) p.
Proof.
  revert st. induction plan as [|item plan IH]; intros st Herr Hfree; [done|].
  apply run_no_error_step in Herr as [Hstep Hrest].
  rewrite run_cons, IH; [|done|intros b Hb; apply Hfree; by right].
  destruct (step_moved st item Hstep) as (Hold & Hnew & Hmove).
  apply (frame _ _ _ _ _ Hold Hnew Hmove), Hfree. left.
Qed.

(** In an apply that records no error, the step of an element is a
    move that went through, and the elements after it record no error
    either. *)
Lemma apply_reaches (before after : list Item.t) (item : Item.t) (fs : FS.t) :
  let first_run := execute_renames os_move (before ++ item :: after) false fs in
  let moved := rename_step os_move false (run os_move false before (start fs)) item in
  error_count first_run = 0 →
  first_run = run os_move false after moved
  ∧ error_count (run os_move false after moved) = error_count moved
  ∧ FS.exists_ (files moved) (Item.new_path item) = true
  ∧ FS.exists_ (files moved) (Item.old_path item) = false.
Proof.
  intros first_run moved Herr. unfold first_run, moved, execute_renames in *.
  rewrite run_app in Herr |- *.
  set (reached := run os_move false before (start fs)) in *.
  assert (Hreached : error_count reached = 0).
  { pose proof (run_error_count_mono false before (start fs)) as H1.
    pose proof (run_error_count_mono false (item :: after) reached) as H2.
    fold reached in H1. lia. }
  rewrite <- Hreached in Herr.
  destruct (run_no_error_step after reached item Herr) as [Hstep Hrest].
  destruct (step_moved reached item Hstep) as (Hold & Hnew & Hmove).
  destruct (arrives _ _ _ _ Hold Hnew Hmove) as [Hthere Hgone].
  by rewrite run_cons.
Qed.

(** X4: after an apply that recorded no error, the destination of an
    element is there if no later element touches it, and its source is
    gone if no later element touches it.  It is assumed of the
    operating system that a move that goes through, of a source that
    exists to a destination that does not, leaves the destination there
    and the source gone, and changes the existence of no path that it
    does not touch. *)
Theorem apply_delivers (before after : list Item.t) (item : Item.t) (fs : FS.t) :
  let first_run := execute_renames os_move (before ++ item :: after) false fs in
  error_count first_run = 0 →
  ((∀ b, b ∈ after → ¬ touches (Item.old_path b) (Item.new_path b) (Item.new_path item)) →
   FS.exists_ (files first_run) (Item.new_path item) = true)
  ∧ ((∀ b, b ∈ after → ¬ touches (Item.old_path b) (Item.new_path b) (Item.old_path item)) →
     FS.exists_ (files first_run) (Item.old_path item) = false).
Proof.
  intros first_run Herr.
  destruct (apply_reaches before after item fs Herr) as (Hrun & Hrest & Hthere & Hgone).
  fold first_run in Hrun. rewrite Hrun.
  split; intros Hfree.
  - rewrite run_frame by done. exact Hthere.
  - rewrite run_frame by done. exact Hgone.
Qed.

(** So after such an apply an element is blocked if no later element
    touches its destination, and also if no later element touches its
    source: every element of a plan is blocked after a successful apply
    when all its elements are of one of these two kinds. *)
Lemma successful_apply_blocks (before after : list Item.t) (item : Item.t) (fs : FS.t) :
  let first_run := execute_renames os_move (before ++ item :: after) false fs in
  error_count first_run = 0 →
  (∀ b, b ∈ after → ¬ touches (Item.old_path b) (Item.new_path b) (Item.new_path item))
  ∨ (∀ b, b ∈ after → ¬ touches (Item.old_path b) (Item.new_path b) (Item.old_path item)) →
  ExecSpec.blocked (files first_run) item.
Proof.
  intros first_run Herr Hfree.
  destruct (apply_reaches before after item fs Herr) as (Hrun & Hrest & Hthere & Hgone).
  fold first_run in Hrun. rewrite Hrun.
  destruct Hfree as [Hfree|Hfree]; [right|left]; by rewrite run_frame.
Qed.

End successful_apply.

End executor_facts.

Lemma precondition_failure_continues_witness :
  let st := run Samples.plain_rename false Samples.blocked_plan (start Samples.blocked_fs) in
  errors st = ["Target file already exists: /d/X"]
  ∧ success_count st = 2
  ∧ files st = {[ "/d/X" := "a"; "/d/B" := "b"; "/d/Z" := "c" ]}.
Proof.
  destruct (precondition_failure_continues Samples.plain_rename false
              [Samples.move_item "/d/A" "/d/X"] [Samples.move_item "/d/C" "/d/Z"]
              (Samples.move_item "/d/B" "/d/X") (start Samples.blocked_fs))
    as (error_msg & Hmsg & Hstep & _ & _ & _ & _ & Hrun & _).
  { right. vm_compute. reflexivity. }
  intros st. unfold st, Samples.blocked_plan.
  change [Samples.move_item "/d/A" "/d/X"; Samples.move_item "/d/B" "/d/X";
          Samples.move_item "/d/C" "/d/Z"]
    with ([Samples.move_item "/d/A" "/d/X"] ++
          Samples.move_item "/d/B" "/d/X" :: [Samples.move_item "/d/C" "/d/Z"])%list.
  rewrite Hrun. clear Hrun.
  assert (error_msg = "Target file already exists: /d/X") as ->.
  { vm_compute in Hstep. injection Hstep as H. exact (eq_sym H). }
  split; [|split].
  - vm_compute. reflexivity.
  - vm_compute. reflexivity.
  - apply map_eq. intros p. vm_compute. reflexivity.
Defined.

(** C1, as stated, fails: after a successful apply of the one-element plan
    the planner makes for a single lettered volume, the second apply
    reports the source as missing, not the target as existing. *)
Lemma rerun_reports_source_missing :
  let first_run :=
    execute_renames Samples.plain_rename Samples.one_volume_plan false Samples.one_volume_fs in
  let second_run :=
    execute_renames Samples.plain_rename Samples.one_volume_plan false (files first_run) in
  plan_renames Samples.one_volume_fs Samples.no_stat_error Samples.one_volume_issues
  = Return Samples.one_volume_plan []
  ∧ success_count first_run = 1%nat
  ∧ error_count first_run = 0%nat
  ∧ errors second_run
    = ["Source file does not exist: /bids/sub-027S6512/ses-20220331/anat/sub-027S6512_ses-20220331_T1wa.nii.gz"]
  ∧ errors second_run ≠ target_exists <$> Samples.one_volume_plan.
Proof.
  split; [vm_compute; reflexivity|].
  split; [vm_compute; reflexivity|].
  split; [vm_compute; reflexivity|].
  split; [vm_compute; reflexivity|].
  vm_compute. discriminate.
Qed.

(** The second apply of a plan whose first apply made a directory where a
    source had been: one element finds its target, the other misses its
    source. *)
Lemma rerun_is_noop_witness :
  let first_run :=
    execute_renames Samples.rename_with_makedirs Samples.nested_plan false
                    Samples.nested_fs in
  let second_run :=
    execute_renames Samples.rename_with_makedirs Samples.nested_plan false
                    (files first_run) in
  success_count first_run = 2%nat
  ∧ files second_run = files first_run
  ∧ success_count second_run = 0%nat
  ∧ error_count second_run = 2%nat
  ∧ errors second_run
    = ["Target file already exists: /e/x"; "Source file does not exist: /d/B"].
Proof.
  intros first_run second_run.
  split; [vm_compute; reflexivity|].
  destruct (rerun_is_noop Samples.rename_with_makedirs Samples.nested_plan
              Samples.nested_fs) as (Hfiles & Hsuccess & Hcount & Herrors).
  { intros item Hitem. unfold Samples.nested_plan in Hitem.
    apply elem_of_cons in Hitem as [->|Hitem]; [right; vm_compute; reflexivity|].
    apply list_elem_of_singleton in Hitem as ->. left. vm_compute. reflexivity. }
  split; [exact Hfiles|]. split; [exact Hsuccess|]. split; [exact Hcount|].
  etrans; [exact Herrors|]. vm_compute. reflexivity.
Defined.

(** A forward chain applies once and is blocked afterwards. *)
Example forward_chain_rerun :
  let first_run :=
    execute_renames Samples.plain_rename Samples.forward_plan false {[ "/d/A" := "a" ]} in
  let second_run :=
    execute_renames Samples.plain_rename Samples.forward_plan false (files first_run) in
  success_count first_run = 2%nat
  ∧ (∀ item, item ∈ Samples.forward_plan → ExecSpec.blocked (files first_run) item)
  ∧ errors second_run
    = ["Source file does not exist: /d/A"; "Source file does not exist: /d/B"].
Proof.
  split; [vm_compute; reflexivity|]. split; [|vm_compute; reflexivity].
  intros item Hitem. unfold Samples.forward_plan in Hitem.
  apply elem_of_cons in Hitem as [->|Hitem]; [left; vm_compute; reflexivity|].
  apply list_elem_of_singleton in Hitem as ->. left. vm_compute. reflexivity.
Qed.

(** When an element is not blocked after the first apply the second apply
    moves files again: here the first element finds its source restored
    by the third and its destination moved on by the second. *)
Example chained_plan_moves_again :
  let first_run :=
    execute_renames Samples.plain_rename Samples.chained_plan false Samples.chained_fs in
  let second_run :=
    execute_renames Samples.plain_rename Samples.chained_plan false (files first_run) in
  error_count first_run = 0%nat
  ∧ ¬ ExecSpec.blocked (files first_run) (Samples.move_item "/d/A" "/d/B")
  ∧ success_count second_run = 1%nat.
Proof.
  split; [vm_compute; reflexivity|]. split; [|vm_compute; reflexivity].
  intros [H|H]; vm_compute in H; discriminate.
Qed.

(** The plain rename touches its two paths only. *)
Lemma plain_rename_frame (fs : FS.t) (old new : string) (fs' : FS.t) (p : string) :
  Samples.plain_rename fs old new = (fs', None) → ¬ (p = old ∨ p = new) →
  FS.exists_ fs' p = FS.exists_ fs p.
Proof.
  unfold Samples.plain_rename, FS.exists_.
  destruct (fs !! old) as [content|]; [|discriminate]. intros [= <-] Hp.
  rewrite lookup_insert_ne, lookup_delete_ne by (intros ->; tauto). done.
Qed.

Lemma plain_rename_arrives (fs : FS.t) (old new : string) (fs' : FS.t) :
  FS.exists_ fs new = false → Samples.plain_rename fs old new = (fs', None) →
  FS.exists_ fs' new = true ∧ FS.exists_ fs' old = false.
Proof.
  unfold Samples.plain_rename, FS.exists_.
  destruct (fs !! old) as [content|] eqn:Hold; [|discriminate]. intros Hnew [= <-].
  assert (old ≠ new) by (intros ->; by rewrite Hold in Hnew).
  rewrite lookup_insert_eq, lookup_insert_ne, lookup_delete_eq by done. done.
Qed.

Lemma apply_delivers_witness :
  let first_run :=
    execute_renames Samples.plain_rename Samples.forward_plan false {[ "/d/A" := "a" ]} in
  error_count first_run = 0%nat
  ∧ FS.exists_ (files first_run) "/d/C" = true
  ∧ FS.exists_ (files first_run) "/d/A" = false.
Proof.
  intros first_run.
  assert (Herr : error_count first_run = 0%nat) by (vm_compute; reflexivity).
  split; [exact Herr|]. split.
  - apply (apply_delivers Samples.plain_rename (λ old new p, p = old ∨ p = new)
             (λ fs old new fs' p _ _, plain_rename_frame fs old new fs' p)
             (λ fs old new fs' _, plain_rename_arrives fs old new fs')
             [Samples.move_item "/d/A" "/d/B"] [] (Samples.move_item "/d/B" "/d/C")
             {[ "/d/A" := "a" ]} Herr).
    intros b Hb. by apply elem_of_nil in Hb.
  - apply (apply_delivers Samples.plain_rename (λ old new p, p = old ∨ p = new)
             (λ fs old new fs' p _ _, plain_rename_frame fs old new fs' p)
             (λ fs old new fs' _, plain_rename_arrives fs old new fs')
             [] [Samples.move_item "/d/B" "/d/C"] (Samples.move_item "/d/A" "/d/B")
             {[ "/d/A" := "a" ]} Herr).
    intros b Hb%list_elem_of_singleton. subst b. vm_compute.
    intros [H|H]; discriminate H.
Defined.

End ExecutorFacts.
(** ** The rename planner *)

Module PlannerFacts.
Import Fix PlanSpec.

(** *** Sorting by suffix *)

Lemma ltb_leb (s1 s2 : string) : String.ltb s1 s2 = true → String.leb s1 s2 = true.
Proof.
  unfold String.ltb, String.leb. destruct (String.compare s1 s2); done.
Qed.

Lemma not_ltb_leb (s1 s2 : string) : String.ltb s1 s2 = false → String.leb s2 s1 = true.
Proof.
  unfold String.ltb, String.leb. rewrite (String.compare_antisym s1 s2).
  destruct (String.compare s2 s1); done.
Qed.

Lemma insert_by_suffix_perm (x : FileInfo.t) (l : list FileInfo.t) :
  insert_by_suffix x l ≡ₚ x :: l.
Proof.
  induction l as [|y l IH]; simpl; [done|].
  destruct (String.ltb (FileInfo.suffix y) (FileInfo.suffix x)); [|done].
  rewrite IH. apply Permutation_swap.
Qed.

Lemma sorted_by_suffix_perm (l : list FileInfo.t) : sorted_by_suffix l ≡ₚ l.
Proof.
  induction l as [|x l IH]; simpl; [done|].
  rewrite insert_by_suffix_perm. by f_equiv.
Qed.

Lemma insert_by_suffix_hd (a x : FileInfo.t) (l : list FileInfo.t) :
  suffix_le a x → HdRel suffix_le a l → HdRel suffix_le a (insert_by_suffix x l).
Proof.
  intros Hax Hal. destruct l as [|y l]; simpl; [by constructor|].
  destruct (String.ltb (FileInfo.suffix y) (FileInfo.suffix x)); constructor;
    [by inversion Hal | done].
Qed.

Lemma insert_by_suffix_sorted (x : FileInfo.t) (l : list FileInfo.t) :
  Sorted suffix_le l → Sorted suffix_le (insert_by_suffix x l).
Proof.
  induction 1 as [|y l Hl IH Hhd]; simpl; [repeat constructor|].
  destruct (String.ltb (FileInfo.suffix y) (FileInfo.suffix x)) eqn:Hlt.
  - constructor; [done|]. apply insert_by_suffix_hd; [|done]. by apply ltb_leb.
  - constructor; [by constructor|]. constructor. by apply not_ltb_leb.
Qed.

Lemma sorted_by_suffix_sorted (l : list FileInfo.t) : Sorted suffix_le (sorted_by_suffix l).
Proof.
  induction l as [|x l IH]; simpl; [constructor|]. by apply insert_by_suffix_sorted.
Qed.

Lemma sorted_by_suffix_nil (l : list FileInfo.t) : sorted_by_suffix l = [] → l = [].
Proof.
  intros H. apply Permutation_nil_r. rewrite <- H. symmetry. apply sorted_by_suffix_perm.
Qed.

(** *** Grouping *)

Lemma dd_append_nonempty (k : string) (v : FileInfo.t) d :
  Forall (λ g : string * list FileInfo.t, g.2 ≠ []) d →
  Forall (λ g : string * list FileInfo.t, g.2 ≠ []) (dd_append k v d).
Proof.
  induction 1 as [|[k' l] d Hl Hd IH]; simpl.
  - repeat constructor. done.
  - destruct (String.eqb k k'); constructor; simpl in *; try done.
    by destruct l.
Qed.

(** No group of [by_base_name] is empty. *)
Lemma group_by_base_name_nonempty (files : list FileInfo.t) :
  Forall (λ g : string * list FileInfo.t, g.2 ≠ []) (group_by_base_name files).
Proof.
  unfold group_by_base_name.
  assert (H : ∀ d, Forall (λ g : string * list FileInfo.t, g.2 ≠ []) d →
            Forall (λ g : string * list FileInfo.t, g.2 ≠ [])
                   (fold_left (λ d file_info,
                      dd_append (FileInfo.base_name file_info) file_info d) files d)).
  { induction files as [|f files IH]; intros d Hd; simpl; [done|].
    apply IH, dd_append_nonempty, Hd. }
  apply H. constructor.
Qed.

(** *** Volumes and their JSON files *)

Lemma paired_app fs v1 p1 v2 p2 :
  paired fs v1 p1 → paired fs v2 p2 → paired fs (v1 ++ v2) (p1 ++ p2).
Proof.
  induction 1; intros H2; simpl; [done| |].
  - apply paired_alone; auto.
  - apply paired_json; auto.
Qed.

Section group.
Variable fs : FS.t.
Variable stat_error : string → option string.
Variables subject_id session_id modality : string.

Lemma member_items_paired (base_name : string) (i : nat) (file_info : FileInfo.t) :
  paired fs [member_item subject_id session_id modality base_name i file_info]
            (member_items fs subject_id session_id modality base_name i file_info).
Proof.
  unfold member_items.
  destruct (FS.exists_ fs (json_of (FileInfo.full_path file_info))) eqn:Hjson.
  - apply paired_json; [done| |constructor]. by repeat split.
  - apply paired_alone; [done|constructor].
Qed.

Lemma enumerate_members_paired (base_name : string) (i : nat) (l : list FileInfo.t) :
  paired fs (imap (λ k file_info,
                     member_item subject_id session_id modality base_name (i + k) file_info) l)
            (enumerate_members fs subject_id session_id modality base_name i l).
Proof.
  revert i. induction l as [|f l IH]; intros i; [constructor|].
  cbn [enumerate_members imap].
  change (?x :: ?l) with ([x] ++ l)%list at 1. apply paired_app.
  - rewrite Nat.add_0_r. apply member_items_paired.
  - specialize (IH (S i)). erewrite imap_ext; [exact IH|].
    intros k f' _. simpl. f_equal. lia.
Qed.

Lemma base_items_paired (base_exists : bool) (base_name : string)
    (sample_path : PyPath.t) :
  paired fs (if base_exists
             then [base_item subject_id session_id modality base_name sample_path]
             else [])
            (base_items fs subject_id session_id modality base_exists base_name
                        sample_path).
Proof.
  unfold base_items. destruct base_exists; [|constructor].
  destruct (FS.exists_ fs (json_of (PyPath.to_str (base_file_path base_name sample_path))))
    eqn:Hjson.
  - apply paired_json; [done| |constructor]. by repeat split.
  - apply paired_alone; [done|constructor].
Qed.

(** The planner of one group raises what the look at the base file
    raises, and nothing else. *)
Lemma plan_group_raises (base_name : string) (file_list : list FileInfo.t)
    (sample : FileInfo.t) (rest : list FileInfo.t) (e : string) :
  sorted_by_suffix file_list = sample :: rest →
  stat_error (PyPath.to_str
                (base_file_path base_name (PyPath.parse (FileInfo.full_path sample))))
  = Some e →
  plan_group fs stat_error subject_id session_id modality base_name file_list = Raise e.
Proof.
  intros Hsorted Hstat. unfold plan_group, base_file_exists, path_exists.
  rewrite Hsorted. cbn [first]. unfold mbind, outcome_bind, mret, outcome_ret.
  by rewrite Hstat.
Qed.

(** The plan of a non-empty group is made of its volume elements, each
    with its JSON element when the JSON file exists. *)
Lemma plan_group_paired (base_name : string) (file_list : list FileInfo.t)
    (sample : FileInfo.t) (rest : list FileInfo.t) :
  sorted_by_suffix file_list = sample :: rest →
  stat_error (PyPath.to_str
                (base_file_path base_name (PyPath.parse (FileInfo.full_path sample))))
  = None →
  ∃ plan,
    plan_group fs stat_error subject_id session_id modality base_name file_list
    = Return plan []
    ∧ paired fs (group_volumes fs subject_id session_id modality base_name file_list) plan.
Proof.
  intros Hsorted Hstat. unfold plan_group, group_volumes, base_file_exists, path_exists.
  rewrite Hsorted. cbn [first]. unfold mbind, outcome_bind, mret, outcome_ret.
  rewrite Hstat. cbv zeta.
  set (sample_path := PyPath.parse (FileInfo.full_path sample)).
  set (base_exists := FS.exists_ fs (PyPath.to_str (base_file_path base_name sample_path))).
  exists (base_items fs subject_id session_id modality base_exists base_name sample_path ++
          enumerate_members fs subject_id session_id modality base_name
            (start_num base_exists) (sample :: rest))%list.
  split; [reflexivity|].
  apply paired_app; [apply base_items_paired|].
  exact (enumerate_members_paired base_name _ (sample :: rest)).
Qed.

(** A group returns its plan or raises what [stat] reported. *)
Lemma plan_group_outcome (base_name : string) (file_list : list FileInfo.t) :
  file_list ≠ [] →
  (∃ plan,
     plan_group fs stat_error subject_id session_id modality base_name file_list
     = Return plan []
     ∧ paired fs (group_volumes fs subject_id session_id modality base_name file_list)
              plan)
  ∨ (∃ p e, stat_error p = Some e
            ∧ plan_group fs stat_error subject_id session_id modality base_name file_list
              = Raise e).
Proof.
  intros Hne.
  destruct (sorted_by_suffix file_list) as [|sample rest] eqn:Hsorted.
  { by apply sorted_by_suffix_nil in Hsorted. }
  destruct (stat_error (PyPath.to_str
              (base_file_path base_name (PyPath.parse (FileInfo.full_path sample)))))
    as [e|] eqn:Hstat.
  - right. eexists _, e. split; [exact Hstat|]. by eapply plan_group_raises.
  - left. by eapply plan_group_paired.
Qed.

Lemma plan_groups_outcome (groups : list (string * list FileInfo.t)) :
  Forall (λ g : string * list FileInfo.t, g.2 ≠ []) groups →
  (∃ plan,
     plan_groups fs stat_error subject_id session_id modality groups = Return plan []
     ∧ paired fs (flat_map (λ '(base_name, file_list),
                              group_volumes fs subject_id session_id modality
                                            base_name file_list) groups) plan)
  ∨ (∃ p e, stat_error p = Some e
            ∧ plan_groups fs stat_error subject_id session_id modality groups = Raise e).
Proof.
  induction 1 as [|[base_name file_list] groups Hg Hgs IH]; simpl.
  - left. eexists. split; [reflexivity|constructor].
  - destruct (plan_group_outcome base_name file_list Hg)
      as [(here & Hhere & Hq)|(p & e & Hp & Hhere)]; rewrite Hhere.
    + destruct IH as [(there & Hthere & Hp)|(p & e & Hp & Hthere)]; rewrite Hthere.
      * left. eexists. split; [reflexivity|]. by apply paired_app.
      * right. by exists p, e.
    + right. by exists p, e.
Qed.

End group.

Lemma for_items_outcome {V} fs (stat_error : string → option string)
    (body : string → V → outcome (list Item.t))
    (volumes : string → V → list Item.t) (d : list (string * V)) :
  (∀ k v, (∃ plan, body k v = Return plan [] ∧ paired fs (volumes k v) plan)
          ∨ (∃ p e, stat_error p = Some e ∧ body k v = Raise e)) →
  (∃ plan, for_items body d = Return plan []
           ∧ paired fs (flat_map (λ '(k, v), volumes k v) d) plan)
  ∨ (∃ p e, stat_error p = Some e ∧ for_items body d = Raise e).
Proof.
  intros Hbody. induction d as [|[k v] d IH]; simpl.
  - left. eexists. split; [reflexivity|constructor].
  - destruct (Hbody k v) as [(here & Hhere & Hq)|(p & e & Hp & Hhere)]; rewrite Hhere.
    + destruct IH as [(there & Hthere & Hp)|(p & e & Hp & Hthere)]; rewrite Hthere.
      * left. eexists. split; [reflexivity|]. by apply paired_app.
      * right. by exists p, e.
    + right. by exists p, e.
Qed.

(** The planner returns the volume elements of the report, each with its
    JSON element when the path that [json_of] gives exists, or it raises
    what a look at a base file raised. *)
Lemma plan_renames_outcome (fs : FS.t) (stat_error : string → option string)
    (issues : issues_t) :
  (∃ plan, plan_renames fs stat_error issues = Return plan []
           ∧ paired fs (issues_volumes fs issues) plan)
  ∨ (∃ p e, stat_error p = Some e ∧ plan_renames fs stat_error issues = Raise e).
Proof.
  unfold plan_renames, issues_volumes.
  apply (for_items_outcome fs stat_error _
           (λ subject_id subject_data,
              flat_map (λ '(session_id, session_data),
                flat_map (λ '(modality, files),
                  flat_map (λ '(base_name, file_list),
                              group_volumes fs subject_id session_id modality
                                            base_name file_list)
                           (group_by_base_name files))
                  (session_data : list (string * list FileInfo.t)))
                subject_data)).
  intros subject_id subject_data.
  apply (for_items_outcome fs stat_error _
           (λ session_id session_data,
              flat_map (λ '(modality, files),
                flat_map (λ '(base_name, file_list),
                            group_volumes fs subject_id session_id modality
                                          base_name file_list)
                         (group_by_base_name files))
                session_data)).
  intros session_id session_data.
  apply (for_items_outcome fs stat_error _
           (λ modality files,
              flat_map (λ '(base_name, file_list),
                          group_volumes fs subject_id session_id modality
                                        base_name file_list)
                       (group_by_base_name files))).
  intros modality files. unfold plan_files.
  apply plan_groups_outcome, group_by_base_name_nonempty.
Qed.

(** A JSON element carries the new suffix of its volume element, so the
    suffixes of a plan are those of its volume elements. *)
Lemma paired_new_suffix fs volumes plan (s : string) :
  paired fs volumes plan →
  s ∈ Item.new_suffix <$> plan ↔ s ∈ Item.new_suffix <$> volumes.
Proof.
  induction 1 as [|v vs plan Hj Hp IH|v j vs plan Hj Hs Hp IH];
    rewrite ?fmap_cons, ?elem_of_cons; [done|by rewrite IH|].
  destruct Hs as (_ & _ & _ & -> & _). rewrite IH. tauto.
Qed.

Lemma imap_index {A B} (g : nat → B) (i : nat) (l : list A) :
  imap (λ k _, g (i + k)) l = g <$> seq i (length l).
Proof.
  revert i. induction l as [|x l IH]; intros i; [done|].
  cbn [imap length seq fmap list_fmap]. rewrite Nat.add_0_r. f_equal.
  rewrite <- IH. apply imap_ext. intros k y _. simpl. f_equal. lia.
Qed.

#[local] Instance fmt02_injective : Inj (=) (=) PyStr.fmt02.
Proof. intros i j. apply PyStrFacts.fmt02_inj. Qed.

(** The [new_suffix] fields of the volume elements of a group count up
    from 01. *)
Lemma group_volumes_new_suffix fs subject_id session_id modality base_name file_list :
  Item.new_suffix <$> group_volumes fs subject_id session_id modality base_name file_list
  = PyStr.fmt02 <$>
      seq 1 (length (group_volumes fs subject_id session_id modality base_name file_list)).
Proof.
  unfold group_volumes, start_num.
  destruct (sorted_by_suffix file_list) as [|sample rest]; [done|].
  cbv zeta.
  destruct (FS.exists_ fs _).
  - rewrite fmap_app, length_app, length_imap, fmap_imap.
    change (length [_]) with 1%nat. cbn [Nat.add seq fmap list_fmap app].
    f_equal. apply (imap_index PyStr.fmt02 2).
  - rewrite app_nil_l, length_imap, fmap_imap. apply (imap_index PyStr.fmt02 1).
Qed.

(** *** The fields of one group's plan *)

(** The members of a group are put in ascending order of their suffix,
    and where the look at the base file does not raise, the volume
    elements of the plan carry these fields: the sorted members with
    [new_suffix] 01, 02, 03, ... when the path that the planner takes for
    the base file does not exist; that path first, with [old_suffix] [""]
    and [new_suffix] 01, and the members from 02 when it does.  This is
    about the fields; the new file names are another matter. *)
Lemma group_fields_in_order (fs : FS.t) (stat_error : string → option string)
    (subject_id session_id modality base_name : string)
    (file_list : list FileInfo.t) (sample : FileInfo.t) (rest : list FileInfo.t) :
  sorted_by_suffix file_list = sample :: rest →
  let sorted_files := sample :: rest in
  let sample_path := PyPath.parse (FileInfo.full_path sample) in
  stat_error (PyPath.to_str (base_file_path base_name sample_path)) = None →
  Sorted suffix_le sorted_files
  ∧ sorted_files ≡ₚ file_list
  ∧ (∃ plan volumes,
       plan_group fs stat_error subject_id session_id modality base_name file_list
       = Return plan []
       ∧ paired fs volumes plan
       ∧ assignment <$> volumes =
         if FS.exists_ fs (PyPath.to_str (base_file_path base_name sample_path))
         then (PyPath.to_str (base_file_path base_name sample_path), "", "01")
              :: imap (λ k file_info,
                         (FileInfo.full_path file_info, FileInfo.suffix file_info,
                          PyStr.fmt02 (2 + k))) sorted_files
         else imap (λ k file_info,
                      (FileInfo.full_path file_info, FileInfo.suffix file_info,
                       PyStr.fmt02 (1 + k))) sorted_files).
Proof.
  intros Hsorted sorted_files sample_path Hstat.
  split; [|split].
  - subst sorted_files. rewrite <- Hsorted. apply sorted_by_suffix_sorted.
  - subst sorted_files. rewrite <- Hsorted. apply sorted_by_suffix_perm.
  - destruct (plan_group_paired fs stat_error subject_id session_id modality base_name
                file_list sample rest Hsorted Hstat) as (plan & Hplan & Hpaired).
    exists plan, (group_volumes fs subject_id session_id modality base_name file_list).
    split; [done|]. split; [done|].
    unfold group_volumes, start_num. rewrite Hsorted. cbv zeta.
    fold sample_path sorted_files.
    destruct (FS.exists_ fs (PyPath.to_str (base_file_path base_name sample_path))).
    + rewrite fmap_app, fmap_imap. reflexivity.
    + rewrite app_nil_l, fmap_imap. reflexivity.
Qed.

(** The [new_suffix] fields of a group's plan are the numerals 01, 02,
    ..., one per volume element, without gap or repetition; a JSON
    element repeats the field of its volume element. *)
Lemma group_fields_contiguous (fs : FS.t) (stat_error : string → option string)
    (subject_id session_id modality base_name : string)
    (file_list : list FileInfo.t) (plan : list Item.t) :
  plan_group fs stat_error subject_id session_id modality base_name file_list
  = Return plan [] →
  ∃ volumes,
    paired fs volumes plan
    ∧ Item.new_suffix <$> volumes = PyStr.fmt02 <$> seq 1 (length volumes)
    ∧ NoDup (Item.new_suffix <$> volumes)
    ∧ (∀ s, s ∈ Item.new_suffix <$> plan ↔
            ∃ n, (1 ≤ n ≤ length volumes)%nat ∧ s = PyStr.fmt02 n)
    ∧ (length file_list ≤ length volumes ≤ S (length file_list))%nat.
Proof.
  intros Hplan.
  assert (Hne : file_list ≠ []).
  { intros ->. discriminate Hplan. }
  destruct (plan_group_outcome fs stat_error subject_id session_id modality base_name
              file_list Hne) as [(plan' & Hplan' & Hpaired)|(p & e & _ & Hraise)];
    [|congruence].
  assert (plan' = plan) as -> by congruence.
  exists (group_volumes fs subject_id session_id modality base_name file_list).
  pose proof (group_volumes_new_suffix fs subject_id session_id modality base_name
                file_list) as Hnum.
  split; [done|]. split; [done|]. split; [|split].
  - rewrite Hnum. apply (NoDup_fmap_2 _), NoDup_seq.
  - intros s. rewrite (paired_new_suffix _ _ _ _ Hpaired), Hnum, list_elem_of_fmap.
    split.
    + intros (n & -> & Hn%elem_of_seq). exists n. split; [lia|done].
    + intros (n & Hn & ->). exists n. split; [done|]. apply elem_of_seq. lia.
  - unfold group_volumes.
    pose proof (Permutation_length (sorted_by_suffix_perm file_list)) as Hlen.
    destruct (sorted_by_suffix file_list) as [|sample rest]; [simpl in *; lia|].
    cbv zeta. rewrite length_app, length_imap, Hlen.
    destruct (FS.exists_ _ _); simpl; lia.
Qed.

(** The plan for the three lettered volumes, in full. *)
Example abc_plan_old_new :
  ∃ plan, plan_renames Samples.abc_fs Samples.no_stat_error Samples.abc_issues
          = Return plan []
          ∧ (λ item, (Item.old_filename item, Item.new_filename item)) <$> plan
            = [ ("sub-027S6512_ses-20220331_T1wa.nii.gz", "sub-027S6512_ses-20220331_T1w_01.nii.gz");
                ("sub-027S6512_ses-20220331_T1wb.nii.gz", "sub-027S6512_ses-20220331_T1w_02.nii.gz");
                ("sub-027S6512_ses-20220331_T1wb.json", "sub-027S6512_ses-20220331_T1w_02.json");
                ("sub-027S6512_ses-20220331_T1wc.nii.gz", "sub-027S6512_ses-20220331_T1w_03.nii.gz") ].
Proof. eexists. split; vm_compute; reflexivity. Qed.

(** The plan for two lettered volumes next to their base file. *)
Example base_ab_plan_old_new :
  ∃ plan, plan_group Samples.base_ab_fs Samples.no_stat_error
            "sub-027S6512" "ses-20220331" "anat" "T1w" Samples.ab_files
          = Return plan []
          ∧ (λ item, (Item.old_path item, Item.new_path item, Item.old_suffix item,
                      Item.new_suffix item)) <$> plan
            = [ (Samples.anat_dir ++ "sub-027S6512_ses-20220331_T1w.nii.gz",
                 Samples.anat_dir ++ "sub-027S6512_ses-20220331_T1w_01.nii.gz", "", "01");
                (Samples.anat_dir ++ "sub-027S6512_ses-20220331_T1w.json",
                 Samples.anat_dir ++ "sub-027S6512_ses-20220331_T1w_01.json", "", "01");
                (Samples.anat_dir ++ "sub-027S6512_ses-20220331_T1wa.nii.gz",
                 Samples.anat_dir ++ "sub-027S6512_ses-20220331_T1w_02.nii.gz", "a", "02");
                (Samples.anat_dir ++ "sub-027S6512_ses-20220331_T1wb.nii.gz",
                 Samples.anat_dir ++ "sub-027S6512_ses-20220331_T1w_03.nii.gz", "b", "03") ].
Proof. eexists. split; vm_compute; reflexivity. Qed.

(** *** Where the plan departs from the naming it is meant to give *)

(** C2, on a group with an unsuffixed base file that the planner does
    not find: the file name holds the text [T1w], though not [_T1w], so
    the planner takes the whole name for the part before the base name
    and looks for a path that is not the base file.  The base file is on
    disk and gets no element; the member [a] gets 01, not 02. *)
Theorem base_file_overlooked :
  let sample_path := PyPath.parse (FileInfo.full_path Samples.t2w_member) in
  FS.exists_ Samples.t2w_fs (Samples.t2w_dir ++ "sub-T1wX_ses-1_T2w.nii.gz") = true
  ∧ subject_session "T2w" sample_path = "sub-T1wX_ses-1_T2wa.nii.gz"
  ∧ PyPath.to_str (base_file_path "T2w" sample_path)
    = Samples.t2w_dir ++ "sub-T1wX_ses-1_T2wa.nii.gz_T2w.nii.gz"
  ∧ plan_renames Samples.t2w_fs Samples.no_stat_error Samples.t2w_issues
    = Return
        [ {| Item.old_path := Samples.t2w_dir ++ "sub-T1wX_ses-1_T2wa.nii.gz";
             Item.new_path := Samples.t2w_dir ++ "sub-T1wX_ses-1_T2w_01.nii.gz";
             Item.old_filename := "sub-T1wX_ses-1_T2wa.nii.gz";
             Item.new_filename := "sub-T1wX_ses-1_T2w_01.nii.gz";
             Item.subject := "sub-T1wX"; Item.session := "ses-1";
             Item.modality := "anat"; Item.base_name := "T2w";
             Item.old_suffix := "a"; Item.new_suffix := "01" |} ] [].
Proof. repeat split; vm_compute; reflexivity. Qed.

(** C3, on a group of two volumes that are not compressed: the second
    [replace] finds no ['_T1w.nii.gz'] in the name, so the new name of
    either member is the name without its letter and without a number.
    Both members are planned onto one path, while the [new_suffix]
    fields say 01 and 02.  (Every element comes twice, as the path
    that the planner takes for the JSON file is the volume itself.) *)
Theorem unnumbered_names_collide :
  ∃ plan,
    plan_renames Samples.nii_fs Samples.no_stat_error Samples.nii_issues = Return plan []
    ∧ (λ item, (Item.old_filename item, Item.new_filename item, Item.new_suffix item))
        <$> plan
      = [ ("sub-01_ses-1_T1wa.nii", "sub-01_ses-1_T1w.nii", "01");
          ("sub-01_ses-1_T1wa.nii", "sub-01_ses-1_T1w.nii", "01");
          ("sub-01_ses-1_T1wb.nii", "sub-01_ses-1_T1w.nii", "02");
          ("sub-01_ses-1_T1wb.nii", "sub-01_ses-1_T1w.nii", "02") ]
    ∧ Forall (λ item, Item.new_path item = Samples.nii_dir ++ "sub-01_ses-1_T1w.nii") plan
    ∧ member_new_filename "T1w" 1 Samples.nii_a = member_new_filename "T1w" 2 Samples.nii_b.
Proof.
  eexists. split; [vm_compute; reflexivity|].
  split; [vm_compute; reflexivity|]. split; [|vm_compute; reflexivity].
  repeat constructor.
Qed.

(** C7, on volumes whose JSON file is on disk and is not the path that
    [replace('.nii.gz', '.json')] gives.  For a volume that is not
    compressed that path is the volume itself: it exists, the volume
    element is appended a second time, and the JSON file gets no
    element.  For a compressed volume in a directory whose name holds
    ['.nii.gz'] the text is replaced in the directory name as well: that
    path does not exist, and the JSON file gets no element either. *)
Theorem sidecar_left_unpaired :
  (FS.exists_ Samples.nii_fs (Samples.nii_dir ++ "sub-01_ses-1_T1wa.json") = true
   ∧ json_of (FileInfo.full_path Samples.nii_a) = FileInfo.full_path Samples.nii_a
   ∧ ∃ plan,
       plan_renames Samples.nii_fs Samples.no_stat_error Samples.nii_issues
       = Return plan []
       ∧ Item.old_path <$> plan
         = [ Samples.nii_dir ++ "sub-01_ses-1_T1wa.nii";
             Samples.nii_dir ++ "sub-01_ses-1_T1wa.nii";
             Samples.nii_dir ++ "sub-01_ses-1_T1wb.nii";
             Samples.nii_dir ++ "sub-01_ses-1_T1wb.nii" ])
  ∧ (FS.exists_ Samples.dotted_fs "/data.nii.gz/sub-01_ses-1_T1wa.json" = true
     ∧ json_of (FileInfo.full_path Samples.dotted_member)
       = "/data.json/sub-01_ses-1_T1wa.json"
     ∧ ∃ plan,
         plan_renames Samples.dotted_fs Samples.no_stat_error Samples.dotted_issues
         = Return plan []
         ∧ (λ item, (Item.old_path item, Item.new_path item)) <$> plan
           = [ ("/data.nii.gz/sub-01_ses-1_T1wa.nii.gz",
                "/data.nii.gz/sub-01_ses-1_T1w_01.nii.gz") ]).
Proof.
  split; (split; [vm_compute; reflexivity|]); (split; [vm_compute; reflexivity|]);
    eexists; split; vm_compute; reflexivity.
Qed.

End PlannerFacts.
(** ** Grouping with a [defaultdict(list)] *)

Module DefaultDictFacts.
Import DefaultDict.

Section facts.
Context {V : Type}.
Implicit Types (d : list (string * list V)) (seen : list (string * V)).

Lemma append_keys (k : string) (v : V) d :
  (append k v d).*1 = if decide (k ∈ d.*1) then d.*1 else (d.*1 ++ [k])%list.
Proof.
  induction d as [|[k' l] d IH]; [done|].
  cbn [append]. destruct (String.eqb_spec k k') as [->|Hne]; rewrite !fmap_cons; cbn [fst].
  - destruct (decide (k' ∈ k' :: d.*1)) as [|Hin]; [done|]. exfalso. apply Hin. left.
  - rewrite IH.
    destruct (decide (k ∈ d.*1)) as [Hd|Hd], (decide (k ∈ k' :: d.*1)) as [Hc|Hc];
      try done; exfalso; rewrite elem_of_cons in *; tauto.
Qed.

Lemma append_elem (k : string) (v : V) d (k' : string) (l' : list V) :
  NoDup d.*1 → (k', l') ∈ append k v d →
  (k' ≠ k ∧ (k', l') ∈ d)
  ∨ (k' = k ∧ (∃ l, (k, l) ∈ d ∧ l' = (l ++ [v])%list))
  ∨ (k' = k ∧ (k ∉ d.*1) ∧ l' = [v]).
Proof.
  induction d as [|[k0 l0] d IH]; simpl; intros Hnd Hin.
  - apply list_elem_of_singleton in Hin as [= -> ->]. right. right.
    split; [done|]. split; [apply not_elem_of_nil|done].
  - apply NoDup_cons in Hnd as [Hk0 Hnd].
    destruct (String.eqb_spec k k0) as [->|Hne].
    + apply elem_of_cons in Hin as [[= -> ->]|Hin].
      * right. left. split; [done|]. exists l0. split; [left|done].
      * left. split; [|by right]. intros ->. apply Hk0.
        apply list_elem_of_fmap. by exists (k0, l').
    + apply elem_of_cons in Hin as [[= -> ->]|Hin].
      * left. split; [done|left].
      * destruct (IH Hnd Hin) as [[? ?]|[[-> (l & ? & ->)]|(-> & ? & ->)]].
        -- left. split; [done|by right].
        -- right. left. split; [done|]. exists l. split; [by right|done].
        -- right. right. split; [done|]. split; [|done].
           rewrite elem_of_cons. tauto.
Qed.

Lemma filter_none {A} (P : A → Prop) `{∀ x, Decision (P x)} (l : list A) :
  (∀ x, x ∈ l → ¬ P x) → filter P l = [].
Proof.
  induction l as [|x l IH]; intros Hno; [done|].
  rewrite filter_cons_False by (apply Hno; left). apply IH. intros y Hy. apply Hno. by right.
Qed.

(** One more [d[k].append(v)] keeps the grouping. *)
Lemma append_grouped (k : string) (v : V) d seen :
  grouped d seen → grouped (append k v d) (seen ++ [(k, v)]).
Proof.
  intros (Hnd & Hgroups & Hkeys). split; [|split].
  - rewrite append_keys. case_decide; [done|].
    apply NoDup_app. split; [done|]. split; [|apply NoDup_singleton].
    intros x Hx ->%list_elem_of_singleton. done.
  - intros k' l Hin. rewrite filter_app, fmap_app.
    destruct (append_elem _ _ _ _ _ Hnd Hin)
      as [[Hne Hd]|[[-> (l0 & Hd & ->)]|(-> & Hnew & ->)]].
    + destruct (Hgroups _ _ Hd) as [Hl ->]. split; [done|].
      rewrite (filter_cons_False _ (k, v)) by (simpl; congruence).
      by rewrite filter_nil, app_nil_r.
    + destruct (Hgroups _ _ Hd) as [Hl ->]. split; [by destruct (_.*2)|].
      rewrite (filter_cons_True _ (k, v)) by done. by rewrite filter_nil.
    + split; [done|]. rewrite (filter_cons_True _ (k, v)) by done. rewrite filter_nil.
      rewrite filter_none; [done|]. intros kv Hkv Hk. apply Hnew.
      rewrite <- Hk. by apply Hkeys.
  - intros kv Hkv. rewrite append_keys.
    apply elem_of_app in Hkv as [Hkv|Hkv]; [|apply list_elem_of_singleton in Hkv as ->].
    + case_decide; [by apply Hkeys|]. apply elem_of_app. left. by apply Hkeys.
    + case_decide; [done|]. apply elem_of_app. right. left.
Qed.

Lemma grouped_nil : grouped (V := V) [] [].
Proof.
  split; [constructor|]. split.
  - intros k l Hin. by apply elem_of_nil in Hin.
  - intros kv Hin. by apply elem_of_nil in Hin.
Qed.

(** A loop that appends the pairs of [kvs] one after the other. *)
Lemma appends_grouped (kvs : list (string * V)) d seen :
  grouped d seen →
  grouped (fold_left (λ d kv, append kv.1 kv.2 d) kvs d) (seen ++ kvs).
Proof.
  revert d seen. induction kvs as [|[k v] kvs IH]; intros d seen Hd; simpl.
  - by rewrite app_nil_r.
  - replace (seen ++ (k, v) :: kvs)%list with ((seen ++ [(k, v)]) ++ kvs)%list
      by (by rewrite <- app_assoc).
    apply IH, append_grouped, Hd.
Qed.

End facts.

Lemma filter_fmap_key {A} (key : A → string) (k : string) (l : list A) :
  (filter (λ kv : string * A, kv.1 = k) ((λ x, (key x, x)) <$> l)).*2
  = filter (λ x, key x = k) l.
Proof.
  induction l as [|x l IH]; [done|]. rewrite fmap_cons, !filter_cons. cbn [fst].
  destruct (decide (key x = k)); rewrite ?fmap_cons; cbn [snd]; by rewrite IH.
Qed.

End DefaultDictFacts.
(** ** More on the executor: preview and bookkeeping *)

Module ExecutorMore.
Import Fix ExecSpec.

Section executor_more.
Variable os_move : FS.t → string → string → FS.t * option string.

Lemma dry_step (st : state) (item : Item.t) :
  rename_step os_move true st item
  = match precondition_error (files st) item with
    | Some error_msg => record_error st error_msg
    | None => record_success st (files st)
    end.
Proof.
  unfold rename_step, precondition_error.
  destruct (FS.exists_ (files st) (Item.old_path item)); simpl; [|done].
  destruct (FS.exists_ (files st) (Item.new_path item)); done.
Qed.

Lemma omap_length_le {A B} (f : A → option B) (l : list A) :
  (length (omap f l) ≤ length l)%nat.
Proof.
  induction l as [|x l IH]; [done|]. cbn [omap list_omap].
  destruct (f x); simpl; lia.
Qed.

Lemma dry_run_state (plan : list Item.t) (st : state) :
  run os_move true plan st
  = {| files := files st;
       success_count :=
         success_count st + length plan - length (omap (precondition_error (files st)) plan);
       error_count := error_count st + length (omap (precondition_error (files st)) plan);
       errors := (errors st ++ omap (precondition_error (files st)) plan)%list |}.
Proof.
  revert st. induction plan as [|item plan IH]; intros st.
  - simpl. rewrite app_nil_r, Nat.add_0_r, Nat.add_0_r, Nat.sub_0_r. by destruct st.
  - change (run os_move true (item :: plan) st)
      with (run os_move true plan (rename_step os_move true st item)).
    rewrite IH, dry_step. cbn [omap list_omap].
    pose proof (omap_length_le (precondition_error (files st)) plan) as Hle.
    destruct (precondition_error (files st) item) as [error_msg|]; simpl.
    + f_equal; [lia | lia | by rewrite <- app_assoc].
    + f_equal. lia.
Qed.

(** X1: a preview changes no file; it reports, for the file system as it
    stands, the error of every element whose source is missing or whose
    target exists, and counts every other element as a success. *)
Theorem preview_touches_nothing (plan : list Item.t) (fs : FS.t) :
  let preview := execute_renames os_move plan true fs in
  files preview = fs
  ∧ errors preview = omap (precondition_error fs) plan
  ∧ error_count preview = length (errors preview)
  ∧ success_count preview = (length plan - length (errors preview))%nat.
Proof.
  unfold execute_renames. rewrite dry_run_state. simpl. done.
Qed.

Lemma step_bookkeeping (dry_run : bool) (st : state) (item : Item.t) :
  length (errors st) = error_count st →
  length (errors (rename_step os_move dry_run st item))
  = error_count (rename_step os_move dry_run st item).
Proof.
  intros Hinv. unfold rename_step, try_move, record_error, record_files, record_success.
  repeat (case_match; simpl); rewrite ?length_app; simpl; lia.
Qed.

(** X2: in either mode the executor returns as many error messages as it
    counts errors, and its two counts add up to the length of the plan. *)
Theorem counts_add_up (dry_run : bool) (plan : list Item.t) (fs : FS.t) :
  let result := execute_renames os_move plan dry_run fs in
  length (errors result) = error_count result
  ∧ (success_count result + error_count result = length plan)%nat.
Proof.
  split.
  - unfold execute_renames.
    assert (H : ∀ st, length (errors st) = error_count st →
              length (errors (run os_move dry_run plan st))
              = error_count (run os_move dry_run plan st)).
    { induction plan as [|item plan IH]; intros st Hst; [done|].
      apply (IH (rename_step os_move dry_run st item)), step_bookkeeping, Hst. }
    by apply H.
  - unfold execute_renames.
    by rewrite (ExecutorFacts.run_counts os_move dry_run plan (start fs)).
Qed.

End executor_more.

End ExecutorMore.
(** ** More on strings: replacing one occurrence *)

Module PyStrMore.
Import PyStr Spec StrSpec PyStrFacts.

Lemma append_assoc (a b c : string) : (a ++ b) ++ c = a ++ b ++ c.
Proof.
  induction a as [|x a IH]; [reflexivity|]. rewrite !app_cons, IH. reflexivity.
Qed.

Lemma append_empty_r (a : string) : a ++ "" = a.
Proof. induction a as [|x a IH]; [reflexivity|]. rewrite app_cons, IH. reflexivity. Qed.

Lemma replace_from_skip (old new s t : string) :
  replace_from old new (String.length s) (s ++ t) = replace_from old new 0 t.
Proof.
  induction s as [|c s IH]; [reflexivity|]. rewrite app_cons. simpl. exact IH.
Qed.

Lemma replace_from_absent (old new t : string) :
  contains old t = false → replace_from old new 0 t = t.
Proof.
  induction t as [|c t IH]; [reflexivity|]. cbn [contains replace_from].
  intros [Hp Ht]%orb_false_iff. rewrite Hp, (IH Ht). reflexivity.
Qed.

Lemma replace_from_at (old new post : string) :
  old ≠ "" →
  replace_from old new 0 (old ++ post) = new ++ replace_from old new 0 post.
Proof.
  intros Hold. destruct old as [|c old']; [done|].
  assert (Hp : String.prefix (String c old') (String c old' ++ post) = true).
  { apply prefix_app. eauto. }
  rewrite app_cons in Hp |- *. cbn [replace_from]. rewrite Hp.
  cbn [String.length]. rewrite Nat.sub_1_r. cbn [Nat.pred].
  rewrite replace_from_skip. reflexivity.
Qed.

Lemma starts_inside_false (old pre rest : string) :
  starts_inside old pre rest = false →
  ∀ a b, pre = a ++ b → b ≠ "" → String.prefix old (b ++ rest) = false.
Proof.
  induction pre as [|c pre IH]; intros Hin a b Hab Hb.
  - destruct a; [rewrite app_empty in Hab; congruence|].
    rewrite app_cons in Hab. discriminate.
  - cbn [starts_inside] in Hin. apply orb_false_iff in Hin as [Hhere Hlater].
    destruct a as [|x a].
    + rewrite app_empty in Hab. subst b. exact Hhere.
    + rewrite app_cons in Hab. injection Hab as -> ->. by apply (IH Hlater a b).
Qed.

(** When [old] occurs once, the replacement changes that occurrence and
    nothing else. *)
Lemma replace_single (old new pre post : string) :
  starts_inside old pre (old ++ post) = false →
  contains old post = false →
  replace old new (pre ++ old ++ post) = pre ++ new ++ post.
Proof.
  intros Hpre Hpost.
  assert (Hold : old ≠ "").
  { intros ->. destruct post; discriminate Hpost. }
  unfold replace. destruct old as [|c old'] eqn:E; [done|]. rewrite <- E in *.
  rewrite replace_from_no_match by (by apply starts_inside_false).
  rewrite replace_from_at by done. by rewrite replace_from_absent.
Qed.

(** Replacing a one-character text by nothing removes that character. *)
Lemma replace_char_remove (c : ascii) (s : string) :
  replace (String c "") "" s = remove_char c s.
Proof.
  unfold replace. induction s as [|x s IH]; [reflexivity|].
  cbn [replace_from remove_char]. rewrite prefix_cons.
  destruct (ascii_dec c x) as [->|Hne].
  - rewrite Ascii.eqb_refl. destruct s; simpl; exact IH.
  - destruct (Ascii.eqb_spec x c) as [->|_]; [done|]. by rewrite IH.
Qed.

Lemma remove_char_absent (c : ascii) (s : string) :
  contains (String c "") (remove_char c s) = false.
Proof.
  induction s as [|x s IH]; [reflexivity|]. cbn [remove_char].
  destruct (Ascii.eqb_spec x c) as [->|Hne]; [exact IH|].
  cbn [contains]. rewrite IH, prefix_cons.
  destruct (ascii_dec c x); [congruence|reflexivity].
Qed.

End PyStrMore.

(** ** More on the planner: grouping, stable order, composition, names *)

Module PlannerMore.
Import Fix PlanSpec.

(** *** Grouping by base name *)

Lemma dd_append_is_append (k : string) (v : FileInfo.t) d :
  dd_append k v d = DefaultDict.append k v d.
Proof.
  induction d as [|[k' l] d IH]; [done|]. simpl. by rewrite IH.
Qed.

Lemma group_by_base_name_appends (files : list FileInfo.t) :
  group_by_base_name files
  = fold_left (λ d kv, DefaultDict.append kv.1 kv.2 d)
              ((λ f, (FileInfo.base_name f, f)) <$> files) [].
Proof.
  unfold group_by_base_name. generalize (@nil (string * list FileInfo.t)).
  induction files as [|f files IH]; intros d; [done|].
  simpl. rewrite dd_append_is_append. apply IH.
Qed.

(** X5: [by_base_name] is a partition of the listed files: its keys are
    pairwise distinct, every listed file's base name is a key, and the
    group of a key holds exactly the files with that base name, in the
    order in which they were listed (hence no group is empty). *)
Theorem groups_partition (files : list FileInfo.t) :
  NoDup (group_by_base_name files).*1
  ∧ (∀ base_name file_list,
       (base_name, file_list) ∈ group_by_base_name files →
       file_list ≠ []
       ∧ file_list = filter (λ f, FileInfo.base_name f = base_name) files)
  ∧ (∀ f, f ∈ files → FileInfo.base_name f ∈ (group_by_base_name files).*1).
Proof.
  rewrite group_by_base_name_appends.
  destruct (DefaultDictFacts.appends_grouped
              ((λ f, (FileInfo.base_name f, f)) <$> files) [] []
              DefaultDictFacts.grouped_nil) as (Hnd & Hgroups & Hkeys).
  rewrite app_nil_l in Hgroups, Hkeys.
  split; [done|]. split.
  - intros base_name file_list Hin. destruct (Hgroups _ _ Hin) as [Hne Hl].
    split; [done|]. by rewrite Hl, DefaultDictFacts.filter_fmap_key.
  - intros f Hf. apply (Hkeys (FileInfo.base_name f, f)).
    apply list_elem_of_fmap. by exists f.
Qed.

Lemma groups_partition_witness :
  let files := [Samples.volume_b; Samples.volume_a] in
  (("T1w", files) ∈ group_by_base_name files)
  ∧ files = filter (λ f, FileInfo.base_name f = "T1w") files
  ∧ "T1w" ∈ (group_by_base_name files).*1.
Proof.
  intros files.
  destruct (groups_partition files) as (_ & Hgroups & Hkeys).
  assert (Hin : ("T1w", files) ∈ group_by_base_name files) by left.
  split; [exact Hin|]. split.
  - exact (proj2 (Hgroups "T1w" files Hin)).
  - apply (Hkeys Samples.volume_a). right. left.
Defined.

(** *** Stability of the order *)

Lemma ltb_irrefl (s : string) : String.ltb s s = false.
Proof.
  unfold String.ltb. destruct (String.compare s s) eqn:E; try done.
  pose proof (String.compare_antisym s s) as Ha. rewrite E in Ha. discriminate.
Qed.

Lemma insert_by_suffix_filter (s : string) (x : FileInfo.t) (l : list FileInfo.t) :
  filter (λ f, FileInfo.suffix f = s) (insert_by_suffix x l)
  = filter (λ f, FileInfo.suffix f = s) (x :: l).
Proof.
  induction l as [|y l IH]; [done|]. cbn [insert_by_suffix].
  destruct (String.ltb (FileInfo.suffix y) (FileInfo.suffix x)) eqn:Hlt; [|done].
  assert (Hne : FileInfo.suffix y ≠ FileInfo.suffix x).
  { intros E. rewrite E, ltb_irrefl in Hlt. discriminate. }
  rewrite (filter_cons _ y), IH, !(filter_cons _ x), (filter_cons _ y).
  destruct (decide (FileInfo.suffix x = s)), (decide (FileInfo.suffix y = s));
    try done. congruence.
Qed.

(** X6: the sort by suffix is stable: the files that share a suffix come
    out in the order in which they were listed. *)
Theorem sorted_by_suffix_stable (file_list : list FileInfo.t) (s : string) :
  filter (λ f, FileInfo.suffix f = s) (sorted_by_suffix file_list)
  = filter (λ f, FileInfo.suffix f = s) file_list.
Proof.
  induction file_list as [|x l IH]; [done|]. cbn [sorted_by_suffix foldr].
  rewrite insert_by_suffix_filter, !(filter_cons _ x). fold (sorted_by_suffix l).
  by rewrite IH.
Qed.

(** *** Composition *)

Lemma for_items_app {V} (body : string → V → outcome (list Item.t))
    (d1 d2 : list (string * V)) (p1 p2 : list Item.t) :
  for_items body d1 = Return p1 [] → for_items body d2 = Return p2 [] →
  for_items body (d1 ++ d2)%list = Return (p1 ++ p2)%list [].
Proof.
  revert p1. induction d1 as [|[k v] d1 IH]; intros p1 H1 H2; simpl in *.
  - injection H1 as <-. exact H2.
  - destruct (body k v) as [here l|]; [|discriminate].
    unfold mbind, outcome_bind, mret, outcome_ret in *.
    destruct (for_items body d1) as [there l'|] eqn:Hd1; [|discriminate].
    injection H1 as <- Hl. apply app_eq_nil in Hl as [-> Hl].
    rewrite app_nil_r in Hl. subst l'.
    rewrite (IH there eq_refl H2). simpl. by rewrite app_assoc.
Qed.

Lemma for_items_returns {V} (body : string → V → outcome (list Item.t))
    (d : list (string * V)) :
  (∀ k v, ∃ plan, body k v = Return plan []) →
  ∃ plan, for_items body d = Return plan [].
Proof.
  intros Hbody. induction d as [|[k v] d [there Hthere]]; simpl; [by eexists|].
  destruct (Hbody k v) as [here ->]. rewrite Hthere. by eexists.
Qed.

Lemma for_items_raises {V} (body : string → V → outcome (list Item.t))
    (d1 d2 : list (string * V)) (e : string) :
  for_items body d1 = Raise e → for_items body (d1 ++ d2)%list = Raise e.
Proof.
  induction d1 as [|[k v] d1 IH]; intros H1; simpl in *; [discriminate|].
  destruct (body k v) as [here l|]; [|exact H1].
  unfold mbind, outcome_bind, mret, outcome_ret in *.
  destruct (for_items body d1) as [there l'|] eqn:Hd1; [discriminate|].
  injection H1 as ->. by rewrite (IH eq_refl).
Qed.

(** X7: the only exception the planner raises is one that [Path.exists]
    lets through when the planner looks for a base file (no [IndexError]
    on a group, no [KeyError] on a descriptor); where [Path.exists] lets
    none through the planner returns a plan.  An empty report gives the
    empty plan, and subjects are planned independently: the plan of two
    reports put one after the other is the plan of the first followed by
    the plan of the second, and an exception of the first is that of
    both. *)
Theorem plans_compose (fs : FS.t) (stat_error : string → option string)
    (issues1 issues2 : issues_t) :
  plan_renames fs stat_error [] = Return [] []
  ∧ ((∃ plan, plan_renames fs stat_error issues1 = Return plan [])
     ∨ (∃ p e, stat_error p = Some e ∧ plan_renames fs stat_error issues1 = Raise e))
  ∧ ((∀ p, stat_error p = None) →
     ∃ plan, plan_renames fs stat_error issues1 = Return plan [])
  ∧ (∀ plan1 plan2,
       plan_renames fs stat_error issues1 = Return plan1 [] →
       plan_renames fs stat_error issues2 = Return plan2 [] →
       plan_renames fs stat_error (issues1 ++ issues2)%list
       = Return (plan1 ++ plan2)%list [])
  ∧ (∀ e, plan_renames fs stat_error issues1 = Raise e →
          plan_renames fs stat_error (issues1 ++ issues2)%list = Raise e).
Proof.
  split; [reflexivity|].
  assert (Hout : (∃ plan, plan_renames fs stat_error issues1 = Return plan [])
                 ∨ (∃ p e, stat_error p = Some e
                           ∧ plan_renames fs stat_error issues1 = Raise e)).
  { destruct (PlannerFacts.plan_renames_outcome fs stat_error issues1)
      as [(plan & Hplan & _)|Hraise]; [left; by exists plan|by right]. }
  split; [exact Hout|]. split; [|split].
  - intros Hstat. destruct Hout as [Hplan|(p & e & Hp & _)]; [done|].
    rewrite Hstat in Hp. discriminate.
  - intros plan1 plan2 H1 H2. unfold plan_renames in *. by apply for_items_app.
  - intros e H1. unfold plan_renames in *. by apply for_items_raises.
Qed.

Lemma plans_compose_witness :
  ∃ plan,
    plan_renames Samples.abc_fs Samples.no_stat_error Samples.abc_issues = Return plan []
    ∧ plan_renames Samples.abc_fs Samples.no_stat_error
        (Samples.abc_issues ++ Samples.abc_issues)%list
      = Return (plan ++ plan)%list [].
Proof.
  destruct (plans_compose Samples.abc_fs Samples.no_stat_error Samples.abc_issues
              Samples.abc_issues) as (_ & _ & Hreturns & Happ & _).
  destruct (Hreturns (λ p, eq_refl)) as [plan Hplan].
  exists plan. split; [exact Hplan|]. exact (Happ plan plan Hplan Hplan).
Defined.

(** Where the base file may not be looked at, the planner raises. *)
Example stat_error_is_raised :
  plan_renames Samples.one_volume_fs
    (λ p, if String.eqb p Samples.base_path
          then Some "[Errno 13] Permission denied" else None)
    Samples.one_volume_issues
  = Raise "[Errno 13] Permission denied".
Proof. vm_compute. reflexivity. Qed.

(** *** The new file name *)

(** X8: for a file named by the convention, stem, underscore, base name,
    letter suffix, ['.nii.gz'], the new name has the number in place of
    the letter: stem, underscore, base name, underscore, two-digit number,
    ['.nii.gz'].  It is required that the base name with its suffix does
    not occur earlier in the name nor in the extension, and that the base
    name with the extension does not occur inside the stem. *)
Theorem conventional_name_numbered (base_name stem : string) (i : nat)
    (file_info : FileInfo.t) :
  FileInfo.filename file_info
  = stem ++ "_" ++ base_name ++ FileInfo.suffix file_info ++ ".nii.gz" →
  StrSpec.starts_inside (base_name ++ FileInfo.suffix file_info) (stem ++ "_")
    ((base_name ++ FileInfo.suffix file_info) ++ ".nii.gz") = false →
  PyStr.contains (base_name ++ FileInfo.suffix file_info) ".nii.gz" = false →
  StrSpec.starts_inside ("_" ++ base_name ++ ".nii.gz") stem
    ("_" ++ base_name ++ ".nii.gz") = false →
  member_new_filename base_name i file_info
  = stem ++ "_" ++ base_name ++ "_" ++ PyStr.fmt02 i ++ ".nii.gz".
Proof.
  intros Hname Hfirst Hext Hsecond. unfold member_new_filename. rewrite Hname.
  replace (stem ++ "_" ++ base_name ++ FileInfo.suffix file_info ++ ".nii.gz")
    with ((stem ++ "_") ++ (base_name ++ FileInfo.suffix file_info) ++ ".nii.gz")
    by (by rewrite !PyStrMore.append_assoc).
  rewrite PyStrMore.replace_single by done.
  replace ((stem ++ "_") ++ base_name ++ ".nii.gz")
    with (stem ++ ("_" ++ base_name ++ ".nii.gz") ++ "")
    by (by rewrite !PyStrMore.append_assoc, PyStrMore.append_empty_r).
  rewrite PyStrMore.replace_single; [|by rewrite PyStrMore.append_empty_r|reflexivity].
  by rewrite !PyStrMore.append_assoc, PyStrMore.append_empty_r.
Qed.

Lemma conventional_name_numbered_witness :
  member_new_filename "T1w" 1 Samples.volume_a
  = "sub-027S6512_ses-20220331" ++ "_" ++ "T1w" ++ "_" ++ PyStr.fmt02 1 ++ ".nii.gz".
Proof.
  apply (conventional_name_numbered "T1w" "sub-027S6512_ses-20220331" 1 Samples.volume_a);
    vm_compute; reflexivity.
Defined.

End PlannerMore.
(** ** Discovery of subjects and sessions *)

Module ReFacts.
Import Re.

Lemma match_cons (a : atom) (pattern : list atom) (c : ascii) (s : string) :
  match_ (a :: pattern) (String c s) = atom_matches a c && match_ pattern s.
Proof. reflexivity. Qed.

(** A name that matches keeps matching whatever is put after it. *)
Lemma match_app (pattern : list atom) (s extra : string) :
  match_ pattern s = true → match_ pattern (s ++ extra) = true.
Proof.
  revert s. induction pattern as [|a pattern IH]; intros s; [done|].
  destruct s as [|c s]; [discriminate|].
  rewrite PyStrFacts.app_cons, !match_cons.
  intros [Hc Hs]%andb_true_iff. rewrite Hc. by apply IH.
Qed.

Lemma digit_not (c x : ascii) :
  is_digit c = true → is_digit x = false → Ascii.eqb c x = false.
Proof.
  intros Hc Hx. destruct (Ascii.eqb_spec c x) as [->|]; [congruence|done].
Qed.

(** [\d] on ASCII text is one of the ten digits. *)
Lemma is_digit_decimal (c : ascii) : is_digit c = bool_decide (NameSpec.decimal c).
Proof. destruct c as [[] [] [] [] [] [] [] []]; vm_compute; reflexivity. Qed.

(** Matching a pattern of atoms is starting as its picture shows. *)
Lemma match_picture (picture s : string) :
  match_ (NameSpec.atoms picture) s = true ↔ NameSpec.starts_like picture s.
Proof.
  revert s. induction picture as [|x picture IH]; intros s.
  - split; [constructor|done].
  - cbn [NameSpec.atoms]. destruct s as [|c s].
    + split; [discriminate|]. inversion 1.
    + rewrite match_cons, andb_true_iff, IH.
      destruct (Ascii.eqb_spec x "d") as [->|Hx]; cbn [atom_matches].
      * rewrite is_digit_decimal, bool_decide_eq_true. split.
        -- intros [Hc Hs]. by constructor.
        -- inversion 1; by subst.
      * rewrite Ascii.eqb_eq. split.
        -- intros [-> Hs]. by constructor.
        -- inversion 1; by subst.
Qed.

Lemma subject_pattern_picture (s : string) :
  match_ subject_pattern s = true ↔ NameSpec.subject_like s.
Proof. apply (match_picture "ddd_S_dddd"). Qed.

Lemma timestamp_pattern_picture (s : string) :
  match_ timestamp_pattern s = true ↔ NameSpec.timestamp_like s.
Proof. apply (match_picture "dddd-dd-dd_dd_dd_dd.d"). Qed.

End ReFacts.

Module DiscoveryFacts.
Import Discovery Re ReFacts.

(** Takes one atom off a hypothesis that a string matches a pattern. *)
Ltac peel H :=
  match type of H with
  | match_ (_ :: _) ?s = true =>
      let c := fresh "c" in
      let Hc := fresh "Hc" in
      destruct s as [|c s]; [discriminate H|];
      rewrite match_cons in H; apply andb_true_iff in H as [Hc H];
      cbn [atom_matches] in Hc;
      try (apply Ascii.eqb_eq in Hc; subst c)
  end.

(** *** Labels *)

Lemma prefix_empty (s : string) : String.prefix "" s = true.
Proof. by destruct s. Qed.

Lemma split_head_other (c : ascii) (s : string) :
  Ascii.eqb c "_" = false →
  PyStr.split_head "_" (String c s) = String c (PyStr.split_head "_" s).
Proof.
  intros Hc. cbn [PyStr.split_head]. rewrite PyStrFacts.prefix_cons.
  destruct (ascii_dec "_" c) as [<-|]; [discriminate Hc|done].
Qed.

Lemma split_head_sep (s : string) : PyStr.split_head "_" (String "_" s) = "".
Proof.
  cbn [PyStr.split_head]. rewrite PyStrFacts.prefix_cons.
  destruct (ascii_dec "_" "_"); [|done]. by rewrite prefix_empty.
Qed.

Lemma remove_char_other (x c : ascii) (s : string) :
  Ascii.eqb c x = false →
  StrSpec.remove_char x (String c s) = String c (StrSpec.remove_char x s).
Proof. intros Hc. cbn [StrSpec.remove_char]. by rewrite Hc. Qed.

Lemma remove_char_same (x : ascii) (s : string) :
  StrSpec.remove_char x (String x s) = StrSpec.remove_char x s.
Proof. cbn [StrSpec.remove_char]. by rewrite Ascii.eqb_refl. Qed.

Lemma remove_char_id (x : ascii) (s : string) :
  PyStr.contains (String x "") s = false → StrSpec.remove_char x s = s.
Proof.
  induction s as [|c s IH]; [done|]. cbn [PyStr.contains StrSpec.remove_char].
  rewrite PyStrFacts.prefix_cons. intros [Hc Hs]%orb_false_iff.
  destruct (ascii_dec x c) as [<-|Hne].
  - by rewrite prefix_empty in Hc.
  - destruct (Ascii.eqb_spec c x) as [->|_]; [done|]. by rewrite IH.
Qed.

(** X9: the subject label is the subject id without its underscores:
    no underscore is left, the other characters stay in place, an id
    without underscore is unchanged, and an id of the form
    ddd_S_dddd gives dddSdddd. *)
Theorem bids_subject_drops_underscores (subject_id : string) :
  bids_subject subject_id = StrSpec.remove_char "_" subject_id
  ∧ PyStr.contains "_" (bids_subject subject_id) = false
  ∧ (PyStr.contains "_" subject_id = false → bids_subject subject_id = subject_id)
  ∧ (match_ subject_pattern subject_id = true →
     String.length subject_id = 10%nat →
     bids_subject subject_id
     = String.substring 0 3 subject_id ++ "S" ++ String.substring 6 4 subject_id).
Proof.
  unfold bids_subject. rewrite PyStrMore.replace_char_remove.
  split; [done|]. split; [apply PyStrMore.remove_char_absent|].
  split; [apply remove_char_id|].
  intros Hm Hlen. unfold subject_pattern in Hm. do 10 peel Hm.
  destruct subject_id; [|discriminate Hlen].
  repeat first [ rewrite remove_char_same
               | rewrite remove_char_other by (by apply digit_not)
               | rewrite remove_char_other by reflexivity ].
  reflexivity.
Qed.

Lemma bids_subject_drops_underscores_witness :
  bids_subject "027_S_6512" = "027" ++ "S" ++ "6512"
  ∧ bids_subject "sub01" = "sub01".
Proof.
  destruct (bids_subject_drops_underscores "027_S_6512") as (_ & _ & _ & Hform).
  destruct (bids_subject_drops_underscores "sub01") as (_ & _ & Hsame & _).
  split; [apply Hform; reflexivity | apply Hsame; reflexivity].
Defined.

(** X10: for a directory name that matches the timestamp pattern, the
    session date is the year, month and day of the name put together:
    eight digits, YYYYMMDD. *)
Theorem session_date_of_timestamp (name : string) :
  match_ timestamp_pattern name = true →
  session_date name
  = String.substring 0 4 name ++ String.substring 5 2 name ++ String.substring 8 2 name
  ∧ String.length (session_date name) = 8%nat
  ∧ match_ (replicate 8 Digit) (session_date name) = true.
Proof.
  intros Hm. unfold timestamp_pattern in Hm. do 11 peel Hm.
  unfold session_date.
  rewrite !split_head_other by (by apply digit_not).
  rewrite (split_head_other "-") by done.
  rewrite !split_head_other by (by apply digit_not).
  rewrite (split_head_other "-") by done.
  rewrite !split_head_other by (by apply digit_not).
  rewrite split_head_sep, PyStrMore.replace_char_remove.
  repeat first [ rewrite remove_char_same
               | rewrite remove_char_other by (by apply digit_not) ].
  split; [reflexivity|]. split; [reflexivity|].
  cbn [replicate]. rewrite !match_cons. cbn [atom_matches match_ StrSpec.remove_char].
  by rewrite Hc, Hc0, Hc1, Hc2, Hc3, Hc4, Hc5, Hc6.
Qed.

Lemma session_date_of_timestamp_witness :
  match_ timestamp_pattern "2022-03-31_13_38_14.0" = true
  ∧ session_date "2022-03-31_13_38_14.0" = "2022" ++ "03" ++ "31".
Proof.
  assert (Hm : match_ timestamp_pattern "2022-03-31_13_38_14.0" = true) by reflexivity.
  split; [exact Hm|].
  exact (proj1 (session_date_of_timestamp "2022-03-31_13_38_14.0" Hm)).
Defined.

(** *** Sessions *)

Lemma scan_modality_appends (modality_name : string)
    (entries : list (string * Tree.node)) (sessions : list (string * list (string * string))) :
  scan_modality modality_name entries sessions
  = fold_left (λ d kv, DefaultDict.append kv.1 kv.2 d)
      ((λ p : string * string, (session_date p.2, p)) <$>
       ((λ session_dir : string * Tree.node, (modality_name, session_dir.1)) <$>
        List.filter (λ session_dir : string * Tree.node,
                       Tree.is_dir session_dir.2
                       && match_ timestamp_pattern session_dir.1) entries))
      sessions.
Proof.
  unfold scan_modality. revert sessions.
  induction entries as [|e entries IH]; intros sessions; [done|].
  cbn [fold_left List.filter].
  destruct (Tree.is_dir e.2 && match_ timestamp_pattern e.1); rewrite IH; done.
Qed.

Lemma scan_subject_appends (entries : list (string * Tree.node)) :
  scan_subject entries
  = fold_left (λ d kv, DefaultDict.append kv.1 kv.2 d)
      ((λ p : string * string, (session_date p.2, p)) <$> timestamp_dirs entries) [].
Proof.
  unfold scan_subject, timestamp_dirs.
  generalize (@nil (string * list (string * string))).
  induction entries as [|[modality_name n] entries IH]; intros sessions; [done|].
  cbn [fold_left flat_map]. rewrite fmap_app, fold_left_app, IH. cbn [fst snd].
  destruct n as [|session_dirs]; [done|]. by rewrite scan_modality_appends.
Qed.

Lemma timestamp_dirs_elem (entries : list (string * Tree.node)) (m ts : string) :
  (m, ts) ∈ timestamp_dirs entries ↔
  ∃ session_dirs n,
    (m, Tree.Dir session_dirs) ∈ entries ∧ (ts, n) ∈ session_dirs
    ∧ Tree.is_dir n = true ∧ NameSpec.timestamp_like ts.
Proof.
  unfold timestamp_dirs. rewrite list_elem_of_In, in_flat_map. split.
  - intros ([m' node] & Hin & Hp). cbn [fst snd] in Hp.
    destruct node as [|session_dirs]; [done|].
    apply list_elem_of_In, list_elem_of_fmap in Hp as ([ts' n] & [= -> ->] & Hf).
    apply list_elem_of_In, filter_In in Hf as [Hts [Hdir Hm]%andb_true_iff].
    exists session_dirs, n. cbn [fst snd] in *.
    split; [by apply list_elem_of_In|]. split; [by apply list_elem_of_In|].
    split; [done|]. by apply timestamp_pattern_picture.
  - intros (session_dirs & n & Hin & Hts & Hdir & Hlike).
    exists (m, Tree.Dir session_dirs). split; [by apply list_elem_of_In|].
    cbn [fst snd]. apply list_elem_of_In, list_elem_of_fmap.
    exists (ts, n). split; [done|].
    apply list_elem_of_In, filter_In. split; [by apply list_elem_of_In|].
    cbn [fst snd]. rewrite Hdir. by apply timestamp_pattern_picture.
Qed.

(** X11: when the subject path is a directory whose entries have ASCII
    names two levels down, the sessions of the subject are the timestamp
    directories found under its modality directories, grouped by date.
    A timestamp directory is a directory, inside a directory of the
    subject, whose name starts like 2022-03-31_13_38_14.0.  The dates
    are pairwise distinct, the session of a date holds exactly the
    (modality directory, timestamp directory) pairs with that date, in
    the order of the scan, so directories of several modalities with the
    same date make one session, and no session is empty.  Nothing is
    logged. *)
Theorem sessions_grouped_by_date (shown : string) (entries : list (string * Tree.node)) :
  (∀ m session_dirs ts n,
     (m, Tree.Dir session_dirs) ∈ entries → (ts, n) ∈ session_dirs →
     PyStr.is_ascii ts = true) →
  ∃ sessions,
    extract_sessions_for_subject shown (Some (Tree.Dir entries)) = Return sessions []
    ∧ NoDup sessions.*1
    ∧ (∀ date pairs,
         (date, pairs) ∈ sessions →
         pairs ≠ []
         ∧ pairs = filter (λ p : string * string, session_date p.2 = date)
                          (timestamp_dirs entries))
    ∧ (∀ p, p ∈ timestamp_dirs entries → session_date p.2 ∈ sessions.*1)
    ∧ (∀ m ts,
         (m, ts) ∈ timestamp_dirs entries ↔
         ∃ session_dirs n,
           (m, Tree.Dir session_dirs) ∈ entries ∧ (ts, n) ∈ session_dirs
           ∧ Tree.is_dir n = true ∧ NameSpec.timestamp_like ts).
Proof.
  intros _. exists (scan_subject entries).
  split; [reflexivity|].
  rewrite scan_subject_appends.
  destruct (DefaultDictFacts.appends_grouped
              ((λ p : string * string, (session_date p.2, p)) <$> timestamp_dirs entries)
              [] [] DefaultDictFacts.grouped_nil) as (Hnd & Hgroups & Hkeys).
  rewrite app_nil_l in Hgroups, Hkeys.
  split; [done|]. split; [|split].
  - intros date pairs Hin. destruct (Hgroups _ _ Hin) as [Hne Hl].
    split; [done|].
    by rewrite Hl, (DefaultDictFacts.filter_fmap_key (λ p, session_date p.2)).
  - intros p Hp. apply (Hkeys (session_date p.2, p)).
    apply list_elem_of_fmap. by exists p.
  - apply timestamp_dirs_elem.
Qed.

Lemma sessions_grouped_by_date_witness :
  ∃ sessions,
    extract_sessions_for_subject "dicom/027_S_6512" (Some Samples2.subject_tree)
    = Return sessions []
    ∧ sessions
      = [ ("20220331", [ ("T1", "2022-03-31_13_38_14.0"); ("fMRI", "2022-03-31_14_15_30.0") ]);
          ("20230515", [ ("T1", "2023-05-15_09_22_01.0") ]) ].
Proof.
  destruct (sessions_grouped_by_date "dicom/027_S_6512"
              [ ("T1", Tree.Dir [ ("2022-03-31_13_38_14.0", Tree.Dir []);
                                  ("2023-05-15_09_22_01.0", Tree.Dir []) ]);
                ("notes.txt", Tree.File);
                ("fMRI", Tree.Dir [ ("2022-03-31_14_15_30.0", Tree.Dir []);
                                    ("scratch", Tree.Dir []);
                                    ("2023-05-15_10_45_12.0", Tree.File) ]) ])
    as (sessions & Hrun & _).
  { intros m session_dirs ts n Hm Hts.
    repeat (apply elem_of_cons in Hm as [Hm|Hm]);
      try (by apply elem_of_nil in Hm); try discriminate Hm;
      injection Hm as -> ->;
      repeat (apply elem_of_cons in Hts as [Hts|Hts]);
      try (by apply elem_of_nil in Hts); injection Hts as -> ->; reflexivity. }
  exists sessions. split; [exact Hrun|].
  vm_compute in Hrun. injection Hrun as <-. reflexivity.
Defined.

(** *** Subjects *)

Lemma insert_str_perm (x : string) (l : list string) : insert_str x l ≡ₚ x :: l.
Proof.
  induction l as [|y l IH]; simpl; [done|].
  destruct (String.ltb y x); [|done]. rewrite IH. apply Permutation_swap.
Qed.

Lemma insert_str_hd (a x : string) (l : list string) :
  str_le a x → HdRel str_le a l → HdRel str_le a (insert_str x l).
Proof.
  intros Hax Hal. destruct l as [|y l]; simpl; [by constructor|].
  destruct (String.ltb y x); constructor; [by inversion Hal | done].
Qed.

Lemma insert_str_sorted (x : string) (l : list string) :
  Sorted str_le l → Sorted str_le (insert_str x l).
Proof.
  induction 1 as [|y l Hl IH Hhd]; simpl; [repeat constructor|].
  destruct (String.ltb y x) eqn:Hlt.
  - constructor; [done|]. apply insert_str_hd; [|done]. by apply PlannerFacts.ltb_leb.
  - constructor; [by constructor|]. constructor. by apply PlannerFacts.not_ltb_leb.
Qed.

Lemma filter_keys_NoDup {A} (f : string * A → bool) (l : list (string * A)) :
  NoDup l.*1 → NoDup (List.filter f l).*1.
Proof.
  induction l as [|[k v] l IH]; [done|]. rewrite fmap_cons, NoDup_cons.
  intros [Hk Hl]. cbn [List.filter]. destruct (f (k, v)); [|by apply IH].
  rewrite fmap_cons, NoDup_cons. split; [|by apply IH].
  intros Hin. apply Hk. apply list_elem_of_fmap in Hin as ([k' v'] & -> & Hin).
  apply list_elem_of_In, filter_In in Hin as [Hin _].
  apply list_elem_of_fmap. exists (k', v'). split; [done|]. by apply list_elem_of_In.
Qed.

(** X12: when the root is a directory whose entries have ASCII names,
    the subjects found are exactly the names of its sub-directories that
    start like 027_S_6512: three digits, [_S_], four digits.  They come
    in ascending order, each as often as the directory lists it (once,
    as the names of a directory are distinct), and nothing is logged as
    an error; a name with more text after such a start is a subject
    too, and a file or a name of another form is not. *)
Theorem subjects_sorted_matching (shown : string) (entries : list (string * Tree.node)) :
  Forall (λ entry : string * Tree.node, PyStr.is_ascii entry.1 = true) entries →
  ∃ subjects,
    discover_subjects shown (Some (Tree.Dir entries)) = Return subjects []
    ∧ Sorted str_le subjects
    ∧ (∀ name, name ∈ subjects ↔
               ∃ n, (name, n) ∈ entries ∧ Tree.is_dir n = true
                    ∧ NameSpec.subject_like name)
    ∧ (NoDup entries.*1 → NoDup subjects)
    ∧ (∀ name n, (name, n) ∈ entries → Tree.is_dir n = true →
                 ∀ start extra, NameSpec.subject_like start →
                                name = start ++ extra → name ∈ subjects).
Proof.
  intros _. exists (sorted_str (List.filter is_subject entries).*1).
  assert (Hperm : ∀ l, sorted_str l ≡ₚ l).
  { induction l as [|x l IH]; [done|]. cbn [sorted_str foldr].
    rewrite insert_str_perm. by f_equiv. }
  assert (Hin : ∀ name, name ∈ sorted_str (List.filter is_subject entries).*1 ↔
                        ∃ n, (name, n) ∈ entries ∧ Tree.is_dir n = true
                             ∧ NameSpec.subject_like name).
  { intros name. rewrite Hperm, list_elem_of_fmap. split.
    - intros ([name' n] & -> & Hf). cbn [fst].
      apply list_elem_of_In, filter_In in Hf as [He [Hdir Hm]%andb_true_iff].
      exists n. split; [by apply list_elem_of_In|]. split; [done|].
      by apply subject_pattern_picture.
    - intros (n & He & Hdir & Hlike). exists (name, n). split; [done|].
      apply list_elem_of_In, filter_In. split; [by apply list_elem_of_In|].
      unfold is_subject. cbn [fst snd]. rewrite Hdir. by apply subject_pattern_picture. }
  split; [reflexivity|]. split; [|split; [exact Hin|split]].
  - generalize ((List.filter is_subject entries).*1). clear.
    induction l as [|x l IH]; [constructor|]. by apply insert_str_sorted.
  - intros Hnd. rewrite Hperm. by apply filter_keys_NoDup.
  - intros name n He Hdir start extra Hstart ->. apply Hin. exists n.
    split; [done|]. split; [done|].
    apply subject_pattern_picture, match_app. by apply subject_pattern_picture.
Qed.

Lemma subjects_sorted_matching_witness :
  ∃ subjects,
    discover_subjects "dicom"
      (Some (Tree.Dir [("941_S_7074", Tree.Dir []); ("README.txt", Tree.File);
                       ("027_S_6512_old", Tree.Dir []); ("027_S_6512", Tree.Dir []);
                       ("027_S_0001", Tree.File); ("27_S_0001", Tree.Dir []);
                       ("logs", Tree.Dir [])]))
    = Return subjects []
    ∧ subjects = ["027_S_6512"; "027_S_6512_old"; "941_S_7074"]
    ∧ ("027_S_6512_old" ∈ subjects ↔
       ∃ n, (("027_S_6512_old", n) ∈
               [("941_S_7074", Tree.Dir []); ("README.txt", Tree.File);
                ("027_S_6512_old", Tree.Dir []); ("027_S_6512", Tree.Dir []);
                ("027_S_0001", Tree.File); ("27_S_0001", Tree.Dir []);
                ("logs", Tree.Dir [])])
            ∧ Tree.is_dir n = true ∧ NameSpec.subject_like "027_S_6512_old").
Proof.
  destruct (subjects_sorted_matching "dicom"
              [("941_S_7074", Tree.Dir []); ("README.txt", Tree.File);
               ("027_S_6512_old", Tree.Dir []); ("027_S_6512", Tree.Dir []);
               ("027_S_0001", Tree.File); ("27_S_0001", Tree.Dir []);
               ("logs", Tree.Dir [])]) as (subjects & Hrun & _ & Hin & _).
  { repeat constructor. }
  exists subjects. split; [exact Hrun|]. split; [|apply Hin].
  vm_compute in Hrun. injection Hrun as <-. reflexivity.
Defined.

End DiscoveryFacts.
(** ** The rename plan report *)

Module ReportFacts.
Import Report.

Lemma write_items_state (plan : list Item.t) (st : cursor) :
  let final := fold_left write_item plan st in
  omap rename_of (written final)
  = (omap rename_of (written st) ++
     ((λ item, (Item.modality item, Item.old_filename item, Item.new_filename item))
        <$> plan))%list
  ∧ omap subject_of (written final)
    = (omap subject_of (written st)
       ++ changes (current_subject st) (Item.subject <$> plan))%list
  ∧ omap session_of (written final)
    = (omap session_of (written st)
       ++ changes (current_session st) (Item.session <$> plan))%list.
Proof.
  revert st. induction plan as [|item plan IH]; intros st.
  - simpl. by rewrite !app_nil_r.
  - cbn [fold_left fmap list_fmap changes].
    destruct (IH (write_item st item)) as (Hr & Hsub & Hses).
    cbn zeta in *. rewrite Hr, Hsub, Hses. clear IH Hr Hsub Hses.
    unfold write_item. cbn [written current_subject current_session].
    rewrite !omap_app.
    destruct (bool_decide (Some (Item.subject item) = current_subject st)) eqn:Hsubj,
             (bool_decide (Some (Item.session item) = current_session st)) eqn:Hsess;
      cbn [negb omap list_omap rename_of subject_of session_of app];
      rewrite ?app_nil_r, <- ?app_assoc; cbn [app];
      try (apply bool_decide_eq_true in Hsubj; rewrite <- Hsubj);
      try (apply bool_decide_eq_true in Hsess; rewrite <- Hsess);
      done.
Qed.

(** X13: the report starts with the title, the rule and the number of
    elements of the plan; it has one rename line for each element of the
    plan, in plan order; a subject header is written whenever the subject
    differs from that of the element before, and a session header
    whenever the session differs from that of the element before, whether
    or not the subject has changed in between. *)
Theorem report_lists_plan (rename_plan : list Item.t) :
  take 3 (lines rename_plan) = [Title; Rule; Total (length rename_plan)]
  ∧ omap rename_of (lines rename_plan)
    = (λ item, (Item.modality item, Item.old_filename item, Item.new_filename item))
        <$> rename_plan
  ∧ omap subject_of (lines rename_plan) = changes None (Item.subject <$> rename_plan)
  ∧ omap session_of (lines rename_plan) = changes None (Item.session <$> rename_plan).
Proof.
  unfold lines.
  destruct (write_items_state rename_plan
              {| current_subject := None; current_session := None;
                 written := [Title; Rule; Total (length rename_plan)] |})
    as (Hr & Hsub & Hses).
  split; [|by split].
  assert (Hpre : ∀ plan st, ∃ more,
            written (fold_left write_item plan st) = (written st ++ more)%list).
  { induction plan as [|item plan IH]; intros st; simpl.
    - exists []. by rewrite app_nil_r.
    - destruct (IH (write_item st item)) as [more ->].
      unfold write_item at 1. cbn [written]. rewrite <- app_assoc. by eexists. }
  destruct (Hpre rename_plan
              {| current_subject := None; current_session := None;
                 written := [Title; Rule; Total (length rename_plan)] |}) as [more ->].
  reflexivity.
Qed.

(** A second subject scanned on the date of the first gets its subject
    header, and no session header. *)
Example same_session_no_header :
  lines [ Samples.move_item "a" "b";
          {| Item.old_path := "c"; Item.new_path := "d";
             Item.old_filename := "c"; Item.new_filename := "d";
             Item.subject := "sub-2"; Item.session := ""; Item.modality := "";
             Item.base_name := ""; Item.old_suffix := ""; Item.new_suffix := "" |} ]
  = [ Title; Rule; Total 2; Subject ""; Session ""; Rename "" "a" "b";
      Subject "sub-2"; Rename "" "c" "d" ].
Proof. reflexivity. Qed.

End ReportFacts.
(** ** Converting one session *)

Module OrchestratorFacts.
Import Orchestrator.

Section world.
Variable W : Type.
Variable sys : os W.
Variable mm : list (string * string).
Variable sm : list (string * list (string * string)).
Variables dicom_root bids_output : PyPath.t.
Variables subject_id session_date : string.

#[local] Abbreviation step := (convert_acquisition W sys mm sm dicom_root bids_output
                    subject_id session_date).
#[local] Abbreviation convert := (convert_session_with_dcm2niix W sys mm sm dicom_root bids_output
                       subject_id session_date).

#[local] Abbreviation jstep :=
  (convert_acquisition (W * list call) (journaled sys) mm sm dicom_root bids_output
     subject_id session_date).
#[local] Abbreviation jconvert :=
  (convert_session_with_dcm2niix (W * list call) (journaled sys) mm sm dicom_root
     bids_output subject_id session_date).
#[local] Abbreviation planned :=
  (planned_command mm sm dicom_root bids_output subject_id session_date).

(** The journal changes nothing: without it, a pass of the journaled
    system is the pass of the system itself. *)
Lemma jstep_unjournaled (st : progress (W * list call)) (acquisition : string * string) :
  unjournaled (jstep st acquisition) = step (unjournaled st) acquisition.
Proof.
  destruct acquisition as [modality_dir session_timestamp_dir].
  unfold convert_acquisition, unjournaled.
  destruct (Converter.map_modality_to_bids mm sm modality_dir)
    as [[[bids_modality|] bids_suffix] log|exn]; [|done|done].
  cbn [journaled mkdir path_exists count_dicoms run world fst snd].
  destruct (mkdir W sys (world _ st).1 _) as [w1 [exn|]]; [done|].
  cbn [fst snd].
  destruct (path_exists W sys w1 _) as [w2 [exn|[|]]]; [done| |done].
  cbn [fst snd].
  destruct (count_dicoms W sys w2 _) as [w3 [exn|[|n]]]; [done|done|].
  cbn [fst snd].
  destruct (run W sys w3 _) as [w4 [exn|returncode]]; [done|].
  destruct (returncode =? 0)%Z; done.
Qed.

Lemma jconvert_unjournaled (session_data : list (string * string))
    (st : progress (W * list call)) :
  unjournaled (fold_left jstep session_data st)
  = fold_left step session_data (unjournaled st).
Proof.
  revert st. induction session_data as [|a l IH]; intros st; [done|].
  cbn [fold_left]. by rewrite IH, jstep_unjournaled.
Qed.

(** Settles one way through the loop body. *)
Ltac step_facts :=
  do 2 eexists;
  cbn [note note_failure note_conversion world events snd];
  (split; [first [rewrite <- ?app_assoc; reflexivity | symmetry; apply app_nil_r]|]);
  (split; [reflexivity|]);
  cbn [forallb call_ok List.filter run_ok omap list_omap returned reported option_list
       command_run length app note note_failure note_conversion success
       conversion_count Z.eqb];
  repeat match goal with H : (_ =? _)%Z = false |- _ => rewrite H end;
  cbn [length app];
  rewrite ?andb_true_r, ?andb_false_r, ?Nat.add_0_r;
  (split; [done|]); (split; [done || lia|]); (split; [done|]);
  (split; [try done|]);
  [..|first [by left | right; split; [done|by eexists]]].

(** What one pass through the loop adds: its calls to the journal, one
    event to the events, and to the two variables what the answers of
    the calls make of them. *)
Lemma jstep_calls (st : progress (W * list call)) (acquisition : string * string) :
  ∃ calls e,
    journal (jstep st acquisition) = (journal st ++ calls)%list
    ∧ events _ (jstep st acquisition) = (events _ st ++ [e])%list
    ∧ success _ (jstep st acquisition)
      = success _ st && forallb call_ok calls && classified mm sm acquisition
    ∧ conversion_count _ (jstep st acquisition)
      = (conversion_count _ st + length (List.filter run_ok calls))%nat
    ∧ omap returned calls = option_list (reported e)
    ∧ (∀ cmd returncode, e = ConverterFailed cmd returncode → returncode ≠ 0%Z)
    ∧ (omap command_run calls = []
       ∨ omap command_run calls = option_list (planned acquisition)
         ∧ is_Some (planned acquisition)).
Proof.
  destruct acquisition as [modality_dir session_timestamp_dir].
  unfold convert_acquisition, planned_command, classified, journal,
    Orchestrator.command_for.
  cbn [fst snd].
  destruct (Converter.map_modality_to_bids mm sm modality_dir)
    as [[[bids_modality|] bids_suffix] log|exn]; [|step_facts..].
  cbn [journaled mkdir path_exists count_dicoms run world fst snd].
  destruct (mkdir W sys (world _ st).1 _) as [w1 [exn|]]; [step_facts|].
  cbn [fst snd note note_failure note_conversion world events success conversion_count].
  destruct (path_exists W sys w1 _) as [w2 [exn|[|]]]; [step_facts| |step_facts].
  cbn [fst snd note note_failure note_conversion world events success conversion_count].
  destruct (count_dicoms W sys w2 _) as [w3 [exn|[|n]]]; [step_facts|step_facts|].
  cbn [fst snd note note_failure note_conversion world events success conversion_count].
  destruct (run W sys w3 _) as [w4 [exn|returncode]]; [step_facts|].
  destruct (returncode =? 0)%Z eqn:Hrc.
  - apply Z.eqb_eq in Hrc as ->. step_facts.
  - step_facts. intros cmd rc [= _ <-]. by apply Z.eqb_neq.
Qed.

Lemma jfold_calls (session_data : list (string * string)) (st : progress (W * list call)) :
  let final := fold_left jstep session_data st in
  ∃ calls more,
    journal final = (journal st ++ calls)%list
    ∧ events _ final = (events _ st ++ more)%list
    ∧ length more = length session_data
    ∧ success _ final
      = success _ st && forallb call_ok calls && forallb (classified mm sm) session_data
    ∧ conversion_count _ final
      = (conversion_count _ st + length (List.filter run_ok calls))%nat
    ∧ omap returned calls = omap reported more
    ∧ Forall (λ e, ∀ cmd returncode, e = ConverterFailed cmd returncode → returncode ≠ 0%Z)
             more
    ∧ omap command_run calls `sublist_of` omap planned session_data.
Proof.
  revert st. induction session_data as [|a session_data IH]; intros st.
  - exists [], []. cbn. rewrite !app_nil_r, !andb_true_r, Nat.add_0_r. repeat split; done.
  - cbn [fold_left].
    destruct (IH (jstep st a)) as (calls2 & more & Hj & Hev & Hlen & Hs & Hc & Hr & Hf & Hsub).
    destruct (jstep_calls st a) as (calls1 & e & Hj1 & Hev1 & Hs1 & Hc1 & Hr1 & Hf1 & Hcmd).
    cbn zeta in *. exists (calls1 ++ calls2)%list, (e :: more).
    rewrite Hj, Hev, Hs, Hc, Hj1, Hev1, Hs1, Hc1. clear Hj Hev Hs Hc Hj1 Hev1 Hs1 Hc1 IH.
    rewrite <- !app_assoc, forallb_app, List.filter_app, length_app, !omap_app.
    cbn [app length forallb omap list_omap].
    split; [done|]. split; [done|]. split; [by rewrite Hlen|].
    split; [by destruct (success _ st), (forallb call_ok calls1),
               (forallb call_ok calls2), (classified mm sm a)|].
    split; [lia|]. split.
    { rewrite Hr, Hr1. by destruct (reported e). }
    split; [by constructor|].
    destruct Hcmd as [->|[-> [cmd ->]]]; cbn [option_list app].
    + destruct (planned a); [by apply sublist_cons|done].
    + by apply sublist_skip.
Qed.

(** Each pass through the loop notes exactly one event, of one of three
    kinds. *)
Lemma step_cases (st : progress W) (acquisition : string * string) :
  ∃ w e,
    (step st acquisition = note W st w e
     ∧ is_failure e = false ∧ is_conversion e = false ∧ command_of e = None)
    ∨ (step st acquisition = note_failure W st w e
       ∧ is_failure e = true ∧ is_conversion e = false)
    ∨ (step st acquisition = note_conversion W st w e
       ∧ is_failure e = false ∧ is_conversion e = true).
Proof.
  destruct acquisition as [modality_dir session_timestamp_dir].
  unfold convert_acquisition.
  destruct (Converter.map_modality_to_bids mm sm modality_dir)
    as [[[bids_modality|] bids_suffix] log|exn].
  - destruct (mkdir W sys (world W st) _) as [w1 [exn|]]; [eauto 10|].
    destruct (path_exists W sys w1 _) as [w2 [exn|[|]]]; [eauto 10| |eauto 10].
    destruct (count_dicoms W sys w2 _) as [w3 [exn|[|n]]]; [eauto 10|eauto 10|].
    destruct (run W sys w3 _) as [w4 [exn|returncode]]; [eauto 10|].
    destruct (returncode =? 0)%Z; eauto 10.
  - eauto 10.
  - eauto 10.
Qed.

Lemma fold_outcome (session_data : list (string * string)) (st : progress W) :
  let final := fold_left step session_data st in
  ∃ more,
    events W final = (events W st ++ more)%list
    ∧ length more = length session_data
    ∧ success W final = success W st && negb (existsb is_failure more)
    ∧ conversion_count W final
      = (conversion_count W st + length (List.filter is_conversion more))%nat.
Proof.
  revert st. induction session_data as [|a session_data IH]; intros st.
  - exists []. simpl. by rewrite app_nil_r, andb_true_r, Nat.add_0_r.
  - cbn [fold_left]. destruct (IH (step st a)) as (more & Hev & Hlen & Hs & Hc).
    cbn zeta. rewrite Hev, Hs, Hc. clear IH Hev Hs Hc.
    destruct (step_cases st a)
      as (w & e & [(-> & Hf & Hconv & _)|[(-> & Hf & Hconv)|(-> & Hf & Hconv)]]);
      exists (e :: more); cbn [events success conversion_count note note_failure
                              note_conversion existsb List.filter length];
      rewrite Hf, Hconv, <- app_assoc; cbn [app orb negb length];
      (split; [done|]); (split; [by rewrite Hlen|]);
      rewrite ?andb_false_r; (split; [done|lia]).
Qed.

(** X14: every acquisition of the session is gone through, whatever
    happened to the ones before it: there is one event per acquisition.
    With [journal] the calls that the session made to the outside, in
    order and with their answers: the session succeeds exactly when the
    classifier raised for no acquisition, no call raised and no run of
    the converter returned a code other than 0; the conversions counted
    are the runs that returned 0; the events [Converted] and
    [ConverterFailed], in order, are the runs that returned, the first
    for a return code 0 and the second for any other. *)
Theorem session_outcome (session_data : list (string * string)) (w : W) :
  let final := convert session_data w in
  let journal := journal (jconvert session_data (w, [])) in
  unjournaled (jconvert session_data (w, [])) = final
  ∧ length (events W final) = length session_data
  ∧ success W final
    = forallb call_ok journal && forallb (classified mm sm) session_data
  ∧ conversion_count W final = length (List.filter run_ok journal)
  ∧ omap reported (events W final) = omap returned journal
  ∧ Forall (λ e, ∀ cmd returncode, e = ConverterFailed cmd returncode → returncode ≠ 0%Z)
           (events W final)
  ∧ success W final = negb (existsb is_failure (events W final))
  ∧ conversion_count W final = length (List.filter is_conversion (events W final)).
Proof.
  intros final journal'.
  assert (Hsame : unjournaled (jconvert session_data (w, [])) = final).
  { unfold convert_session_with_dcm2niix. by rewrite jconvert_unjournaled. }
  destruct (jfold_calls session_data (begin _ (w, [])))
    as (calls & more & Hj & Hev & Hlen & Hs & Hc & Hr & Hf & _).
  cbn zeta in *. fold (jconvert session_data (w, [])) in Hj, Hev, Hs, Hc.
  assert (Hevents : events W final = more).
  { rewrite <- Hsame. exact Hev. }
  assert (Hjournal : journal' = calls) by exact Hj.
  split; [exact Hsame|]. rewrite Hevents, Hjournal.
  split; [exact Hlen|].
  split; [rewrite <- Hsame; exact Hs|].
  split; [rewrite <- Hsame; exact Hc|].
  split; [by rewrite Hr|]. split; [exact Hf|].
  destruct (fold_outcome session_data (begin W w)) as (more' & Hev' & _ & Hs' & Hc').
  cbn zeta in *. fold (convert session_data w) in Hev', Hs', Hc'. fold final in Hev', Hs', Hc'.
  cbn [begin events app success andb conversion_count Nat.add] in Hev', Hs', Hc'.
  rewrite Hevents in Hev'. subst more'. done.
Qed.

Lemma fold_excluded (session_data : list (string * string)) (st : progress W) :
  (∀ a, a ∈ session_data →
        ∃ suffix log, Converter.map_modality_to_bids mm sm a.1 = Return (None, suffix) log) →
  fold_left step session_data st
  = {| world := world W st; success := success W st;
       conversion_count := conversion_count W st;
       events := (events W st ++ (Skipped ∘ fst <$> session_data))%list |}.
Proof.
  revert st. induction session_data as [|[modality_dir ts] session_data IH];
    intros st Hall.
  - simpl. rewrite app_nil_r. by destruct st.
  - cbn [fold_left]. rewrite IH by (intros a Ha; apply Hall; by right).
    destruct (Hall (modality_dir, ts)) as (suffix & log & Hcl); [left|].
    unfold convert_acquisition. cbn [fst] in Hcl. rewrite Hcl.
    cbn [note world success conversion_count events fmap list_fmap compose fst].
    by rewrite <- app_assoc.
Qed.

(** X15: a session all of whose acquisitions are classified as excluded
    makes no directory and runs no command: the world is left as it was,
    the session succeeds with no conversion, and each acquisition is noted
    as skipped. *)
Theorem excluded_session_untouched (session_data : list (string * string)) (w : W) :
  (∀ a, a ∈ session_data →
        ∃ suffix log, Converter.map_modality_to_bids mm sm a.1 = Return (None, suffix) log) →
  convert session_data w
  = {| world := w; success := true; conversion_count := 0;
       events := Skipped ∘ fst <$> session_data |}.
Proof.
  intros Hall. unfold convert_session_with_dcm2niix. by rewrite fold_excluded.
Qed.

(** X16: the commands that the session hands to [subprocess.run], as
    the journal of its calls has them, are in the order of the
    acquisitions and at most one for each: they are commands planned for
    acquisitions of the session, none left out of order or run twice.
    Every one of them is the converter command for an acquisition whose
    modality is not excluded: compressed output, a sidecar, no
    anonymisation, the output name sub-LABEL_ses-DATE_SUFFIX, the output
    directory of the acquisition's category and the acquisition's source
    directory. *)
Theorem commands_of_session (session_data : list (string * string)) (w : W) :
  let commands := omap command_run (journal (jconvert session_data (w, []))) in
  commands `sublist_of` omap planned session_data
  ∧ omap command_of (events W (convert session_data w)) `sublist_of` commands
  ∧ ∀ cmd, cmd ∈ commands →
      ∃ acquisition bids_modality bids_suffix log,
        acquisition ∈ session_data
        ∧ Converter.map_modality_to_bids mm sm acquisition.1
          = Return (Some bids_modality, bids_suffix) log
        ∧ cmd = ["dcm2niix"; "-z"; "y"; "-b"; "y"; "-ba"; "n";
                 "-f"; "sub-" ++ Discovery.bids_subject subject_id ++ "_ses-"
                       ++ session_date ++ "_" ++ show bids_suffix;
                 "-o"; PyPath.to_str
                         (PyPath.div
                            (PyPath.div
                               (PyPath.div bids_output
                                           ("sub-" ++ Discovery.bids_subject subject_id))
                               ("ses-" ++ session_date))
                            bids_modality);
                 PyPath.to_str
                   (PyPath.div (PyPath.div (PyPath.div dicom_root subject_id)
                                           acquisition.1)
                               acquisition.2)].
Proof.
  intros commands.
  destruct (jfold_calls session_data (begin _ (w, [])))
    as (calls & more & Hj & Hev & _ & _ & _ & Hr & _ & Hsub).
  cbn zeta in *. fold (jconvert session_data (w, [])) in Hj, Hev.
  assert (Hcommands : commands = omap command_run calls).
  { unfold commands. by rewrite Hj. }
  assert (Hevents : events W (convert session_data w) = more).
  { unfold convert_session_with_dcm2niix.
    change (begin W w) with (unjournaled (begin (W * list call) (w, []))).
    rewrite <- jconvert_unjournaled. exact Hev. }
  split; [by rewrite Hcommands|]. split.
  - rewrite Hcommands, Hevents.
    assert (Hof : ∀ l, omap command_of l = (omap reported l).*1).
    { induction l as [|[] l IH]; cbn; by rewrite ?IH. }
    assert (Hrun : ∀ l, (omap returned l).*1 `sublist_of` omap command_run l).
    { induction l as [|[| | |cmd [exn|rc]] l IH]; cbn; try done.
      - by apply sublist_cons.
      - by apply sublist_skip. }
    rewrite Hof, <- Hr. apply Hrun.
  - intros cmd Hcmd. rewrite Hcommands in Hcmd.
    pose proof (elem_of_sublist _ _ _ Hcmd Hsub) as Hin.
    apply list_elem_of_omap in Hin as (acquisition & Ha & Hplanned).
    unfold planned_command in Hplanned.
    destruct (Converter.map_modality_to_bids mm sm acquisition.1)
      as [[[bids_modality|] bids_suffix] log|exn] eqn:Hcl; try discriminate.
    injection Hplanned as <-.
    exists acquisition, bids_modality, bids_suffix, log. done.
Qed.

End world.

Lemma excluded_session_untouched_witness :
  convert_session_with_dcm2niix _ Samples2.recording
    Converter.modality_mapping Converter.suffix_mapping
    (PyPath.parse "dicom") (PyPath.parse "BIDS_output") "027_S_6512" "20220331"
    Samples2.scouts []
  = {| world := []; success := true; conversion_count := 0;
       events := [Skipped "AAHead_Scout"; Skipped "Localizer"] |}.
Proof.
  apply (excluded_session_untouched _ Samples2.recording
           Converter.modality_mapping Converter.suffix_mapping
           (PyPath.parse "dicom") (PyPath.parse "BIDS_output") "027_S_6512" "20220331"
           Samples2.scouts []).
  intros a Ha. unfold Samples2.scouts in Ha.
  apply elem_of_cons in Ha as [->|Ha]; [|apply list_elem_of_singleton in Ha as ->];
    exists None, []; vm_compute; reflexivity.
Defined.

Lemma session_outcome_witness :
  let final :=
    convert_session_with_dcm2niix _ Samples2.failing_once
      Converter.modality_mapping Converter.suffix_mapping
      (PyPath.parse "dicom") (PyPath.parse "BIDS_output") "027_S_6512" "20220331"
      Samples2.mprage_then_fmri tt in
  success _ final = false
  ∧ conversion_count _ final = 1%nat
  ∧ omap reported (events _ final)
    = [ (Samples2.mprage_cmd, 0%Z);
        ([ "dcm2niix"; "-z"; "y"; "-b"; "y"; "-ba"; "n";
           "-f"; "sub-027S6512_ses-20220331_task-rest_bold";
           "-o"; "BIDS_output/sub-027S6512/ses-20220331/func";
           "dicom/027_S_6512/Axial_rsfMRI__Eyes_Open_/2022-03-31_14_15_30.0" ], 1%Z) ].
Proof.
  intros final.
  destruct (session_outcome _ Samples2.failing_once
              Converter.modality_mapping Converter.suffix_mapping
              (PyPath.parse "dicom") (PyPath.parse "BIDS_output") "027_S_6512" "20220331"
              Samples2.mprage_then_fmri tt) as (_ & _ & Hs & Hc & Hr & _).
  fold final in Hs, Hc, Hr.
  split; [rewrite Hs; vm_compute; reflexivity|].
  split; [rewrite Hc; vm_compute; reflexivity|].
  rewrite Hr. vm_compute. reflexivity.
Defined.

Lemma commands_of_session_witness :
  let commands :=
    omap command_run
      (journal (convert_session_with_dcm2niix _ (journaled Samples2.recording)
                  Converter.modality_mapping Converter.suffix_mapping
                  (PyPath.parse "dicom") (PyPath.parse "BIDS_output") "027_S_6512"
                  "20220331" Samples2.one_mprage ([], []))) in
  commands = [Samples2.mprage_cmd]
  ∧ commands `sublist_of`
      omap (planned_command Converter.modality_mapping Converter.suffix_mapping
              (PyPath.parse "dicom") (PyPath.parse "BIDS_output") "027_S_6512" "20220331")
           Samples2.one_mprage
  ∧ world _ (convert_session_with_dcm2niix _ Samples2.recording
               Converter.modality_mapping Converter.suffix_mapping
               (PyPath.parse "dicom") (PyPath.parse "BIDS_output") "027_S_6512"
               "20220331" Samples2.one_mprage [])
    = [ Samples2.mprage_cmd;
        ["mkdir"; "BIDS_output/sub-027S6512/ses-20220331/anat"] ].
Proof.
  intros commands.
  destruct (commands_of_session _ Samples2.recording
              Converter.modality_mapping Converter.suffix_mapping
              (PyPath.parse "dicom") (PyPath.parse "BIDS_output") "027_S_6512" "20220331"
              Samples2.one_mprage []) as (Hsub & _).
  split; [vm_compute; reflexivity|]. split; [exact Hsub|]. vm_compute. reflexivity.
Defined.

End OrchestratorFacts.
(** ** Paths: normal forms, and the directory of a renamed file *)

Module PyPathFacts.
Import PyPath PathSpec PyStrFacts.

Lemma no_slash_cons (c : ascii) (x : string) :
  PyStr.contains "/" (String c x) = false ↔
  Ascii.eqb c "/" = false ∧ PyStr.contains "/" x = false.
Proof.
  cbn [PyStr.contains]. rewrite prefix_cons, orb_false_iff.
  destruct (ascii_dec "/" c) as [<-|Hne].
  - destruct x; simpl; split; intros []; discriminate.
  - destruct (Ascii.eqb_spec c "/") as [->|_]; [done|]. tauto.
Qed.

Lemma components_nonempty (s : string) : components s ≠ [].
Proof.
  destruct s as [|c s]; [done|]. cbn [components].
  destruct (Ascii.eqb c "/"); [done|]. by destruct (components s).
Qed.

(** The pieces between slashes hold no slash. *)
Lemma components_no_slash (s x : string) :
  x ∈ components s → PyStr.contains "/" x = false.
Proof.
  revert x. induction s as [|c s IH]; intros x.
  - intros ->%list_elem_of_singleton. reflexivity.
  - cbn [components]. destruct (Ascii.eqb c "/") eqn:Hc.
    + intros [->|Hx]%elem_of_cons; [reflexivity|by apply IH].
    + destruct (components s) as [|h t] eqn:Hs.
      { by destruct (components_nonempty s). }
      intros [->|Hx]%elem_of_cons.
      * apply no_slash_cons. split; [done|]. apply IH. left.
      * apply IH. by right.
Qed.

Lemma components_single (x : string) :
  PyStr.contains "/" x = false → components x = [x].
Proof.
  induction x as [|c x IH]; [done|].
  intros [Hc Hx]%no_slash_cons. cbn [components]. by rewrite Hc, (IH Hx).
Qed.

Lemma components_sep (x rest : string) :
  PyStr.contains "/" x = false →
  components (x ++ "/" ++ rest) = x :: components rest.
Proof.
  induction x as [|c x IH].
  - intros _. rewrite app_empty, app_cons. reflexivity.
  - intros [Hc Hx]%no_slash_cons. rewrite app_cons. cbn [components].
    by rewrite Hc, (IH Hx).
Qed.

Lemma components_join (l : list string) :
  l ≠ [] → Forall component l → components (join l) = l.
Proof.
  induction l as [|x l IH]; [done|]. intros _ Hall.
  apply Forall_cons in Hall as [[_ Hx] Hl].
  destruct l as [|y l].
  - by apply components_single.
  - change (join (x :: y :: l)) with (x ++ "/" ++ join (y :: l)).
    rewrite components_sep by done. by rewrite IH.
Qed.

Lemma filter_components (l : list string) :
  Forall component l → List.filter is_part l = l.
Proof.
  induction 1 as [|x l [Hx _] Hl IH]; [done|]. simpl. by rewrite Hx, IH.
Qed.

(** The first character of a joined list of components is no slash. *)
Lemma join_head (x : string) (l : list string) :
  component x → ∃ c rest, join (x :: l) = String c rest ∧ Ascii.eqb c "/" = false.
Proof.
  intros [Hpart Hslash]. destruct x as [|c x]; [discriminate Hpart|].
  apply no_slash_cons in Hslash as [Hc _].
  destruct l as [|y l].
  - by exists c, x.
  - exists c, (x ++ "/" ++ join (y :: l)). split; [|done].
    change (join (String c x :: y :: l)) with (String c x ++ "/" ++ join (y :: l)).
    by rewrite app_cons.
Qed.

Lemma prefix_slash (c : ascii) (s : string) :
  String.prefix "/" (String c s) = Ascii.eqb c "/".
Proof.
  rewrite prefix_cons. destruct (ascii_dec "/" c) as [<-|Hne].
  - by destruct s.
  - destruct (Ascii.eqb_spec c "/"); congruence.
Qed.

(** Printing a path in normal form and parsing the text gives the path
    back. *)
Lemma parse_to_str (p : PyPath.t) : normal p → parse (to_str p) = p.
Proof.
  destruct p as [r l]. intros [Hroot Hparts]. cbn [root parts] in *.
  destruct l as [|x l].
  - destruct Hroot as [->|[->| ->]]; reflexivity.
  - destruct (join_head x l) as (c & rest & Hjoin & Hc).
    { by apply Forall_cons in Hparts as [? _]. }
    assert (Hcomp : components (join (x :: l)) = x :: l) by (by apply components_join).
    assert (Hfilter : List.filter is_part (x :: l) = x :: l) by (by apply filter_components).
    unfold parse, to_str. cbn [root parts].
    apply Ascii.eqb_neq in Hc.
    destruct Hroot as [->|[->| ->]].
    + change ("" ++ join (x :: l)) with (join (x :: l)).
      rewrite Hcomp, Hfilter, Hjoin, !prefix_cons.
      destruct (ascii_dec "/" c); [congruence|]. reflexivity.
    + change ("/" ++ join (x :: l)) with (String "/" (join (x :: l))).
      cbn [components]. rewrite Hcomp.
      change (Ascii.eqb "/" "/") with true. cbn iota.
      change (List.filter is_part ("" :: x :: l)) with (List.filter is_part (x :: l)).
      rewrite Hfilter, Hjoin, !prefix_cons.
      destruct (ascii_dec "/" "/"); [|done].
      destruct (ascii_dec "/" c); [congruence|].
      cbn [andb]. by destruct rest.
    + change ("//" ++ join (x :: l)) with (String "/" (String "/" (join (x :: l)))).
      cbn [components]. rewrite Hcomp.
      change (Ascii.eqb "/" "/") with true. cbn iota.
      change (List.filter is_part ("" :: "" :: x :: l)) with (List.filter is_part (x :: l)).
      rewrite Hfilter, Hjoin, !prefix_cons.
      destruct (ascii_dec "/" "/"); [|done].
      destruct (ascii_dec "/" c); [congruence|].
      cbn [andb negb]. by destruct rest.
Qed.

(** Every parsed path is in normal form. *)
Lemma parse_normal (s : string) : normal (parse s).
Proof.
  split.
  - unfold parse. cbn [root].
    destruct (String.prefix "//" s && negb (String.prefix "///" s)); [tauto|].
    destruct (String.prefix "/" s); tauto.
  - unfold parse. cbn [parts]. apply Forall_forall. intros x Hx.
    apply list_elem_of_In, filter_In in Hx as [Hx Hpart].
    split; [done|]. by apply components_no_slash with s, list_elem_of_In.
Qed.

Lemma removelast_normal (l : list string) :
  Forall component l → Forall component (removelast l).
Proof.
  induction 1 as [|x l Hx Hl IH]; [constructor|].
  destruct l; [constructor|]. cbn [removelast]. by constructor.
Qed.

End PyPathFacts.

Module PlannerPaths.
Import Fix PyPath PathSpec PyPathFacts.

(** X17: a renamed file stays in its directory: when the new file name is
    a single path component, the planned new path has the directory of
    the old path and the new file name as its name. *)
Theorem renamed_file_stays (base_name : string) (i : nat) (file_info : FileInfo.t) :
  component (member_new_filename base_name i file_info) →
  parent (parse (member_new_path base_name i file_info))
  = parent (parse (FileInfo.full_path file_info))
  ∧ name (parse (member_new_path base_name i file_info))
    = member_new_filename base_name i file_info.
Proof.
  intros Hname. unfold member_new_path.
  set (new_filename := member_new_filename base_name i file_info) in *.
  set (old := parse (FileInfo.full_path file_info)).
  destruct (parse_normal (FileInfo.full_path file_info)) as [Hroot Hparts]. fold old in Hroot, Hparts.
  assert (Hdiv : div (parent old) new_filename
                 = {| root := root old;
                      parts := (removelast (parts old) ++ [new_filename])%list |}).
  { unfold div. destruct Hname as [Hpart Hslash].
    destruct new_filename as [|c rest] eqn:E; [discriminate Hpart|].
    rewrite PyPathFacts.prefix_slash.
    apply no_slash_cons in Hslash as Hc. destruct Hc as [Hc Hrest]. rewrite Hc.
    unfold parse. cbn [parts root parent].
    rewrite components_single by done. cbn [List.filter]. by rewrite Hpart. }
  rewrite Hdiv, parse_to_str.
  - unfold parent, name. cbn [root parts].
    by rewrite removelast_last, last_last.
  - split; [done|]. cbn [parts]. apply Forall_app. split.
    + by apply removelast_normal.
    + by constructor.
Qed.

Lemma renamed_file_stays_witness :
  component (member_new_filename "T1w" 1 Samples.volume_a)
  ∧ to_str (parent (parse (member_new_path "T1w" 1 Samples.volume_a)))
    = "/bids/sub-027S6512/ses-20220331/anat"
  ∧ name (parse (member_new_path "T1w" 1 Samples.volume_a))
    = "sub-027S6512_ses-20220331_T1w_01.nii.gz".
Proof.
  assert (Hc : component (member_new_filename "T1w" 1 Samples.volume_a)).
  { split; vm_compute; reflexivity. }
  split; [exact Hc|].
  destruct (renamed_file_stays "T1w" 1 Samples.volume_a Hc) as [Hparent Hname].
  split.
  - rewrite Hparent. vm_compute. reflexivity.
  - rewrite Hname. vm_compute. reflexivity.
Defined.

End PlannerPaths.
(** ** The names and paths that the plan assigns *)

Module PlannerNames.
Import Fix PyPath PathSpec PyPathFacts PyStrFacts PlanNames.

Lemma no_slash_app (a b : string) :
  PyStr.contains "/" (a ++ b) = PyStr.contains "/" a || PyStr.contains "/" b.
Proof.
  induction a as [|c a IH]; [by destruct b|].
  rewrite app_cons. cbn [PyStr.contains]. rewrite !prefix_cons, IH.
  destruct (ascii_dec "/" c); [|done]. by rewrite !DiscoveryFacts.prefix_empty.
Qed.

Lemma is_part_underscore (a b : string) : is_part (a ++ "_" ++ b) = true.
Proof.
  destruct a as [|c a]; [done|]. rewrite app_cons. unfold is_part.
  cbn [String.eqb]. destruct (Ascii.eqb c "."); [|done].
  by destruct a.
Qed.

Lemma join_snoc (l : list string) (x : string) :
  l ≠ [] → join (l ++ [x]) = join l ++ "/" ++ x.
Proof.
  induction l as [|y l IH]; [done|]. intros _. destruct l as [|z l]; [done|].
  change (join ((y :: z :: l) ++ [x])) with (y ++ "/" ++ join ((z :: l) ++ [x])).
  rewrite IH by done.
  change (join (y :: z :: l)) with (y ++ "/" ++ join (z :: l)).
  by rewrite !PyStrMore.append_assoc.
Qed.

(** The path of an entry of a directory. *)
Lemma to_str_child (d : PyPath.t) (x : string) :
  parts d ≠ [] →
  to_str {| root := root d; parts := (parts d ++ [x])%list |} = to_str d ++ "/" ++ x.
Proof.
  intros Hparts. unfold to_str. cbn [root parts].
  pose proof (join_snoc (parts d) x Hparts) as Hjoin.
  destruct (parts d) as [|y l]; [done|]. cbn [app] in *.
  destruct (root d) as [|c r]; rewrite Hjoin.
  - by rewrite !app_empty.
  - by rewrite !PyStrMore.append_assoc.
Qed.

Lemma parse_child (d : PyPath.t) (x : string) :
  normal d → parts d ≠ [] → component x →
  parse (to_str d ++ "/" ++ x) = {| root := root d; parts := (parts d ++ [x])%list |}.
Proof.
  intros [Hroot Hparts] Hne Hx. rewrite <- to_str_child by done.
  apply parse_to_str. split; [done|]. cbn [parts]. apply Forall_app. split; [done|].
  by constructor.
Qed.

(** [p.parent / name] for an entry [p] of the directory [d]. *)
Lemma sibling (d : PyPath.t) (x y : string) :
  normal d → parts d ≠ [] → component x → component y →
  to_str (div (parent (parse (to_str d ++ "/" ++ x))) y) = to_str d ++ "/" ++ y.
Proof.
  intros Hd Hne Hx Hy. rewrite parse_child by done.
  unfold parent. cbn [root parts]. rewrite removelast_last.
  rewrite <- to_str_child by done. f_equal.
  unfold div. cbn [root parts]. destruct Hy as [Hpart Hslash].
  destruct y as [|c rest]; [discriminate Hpart|].
  rewrite PyPathFacts.prefix_slash.
  apply no_slash_cons in Hslash as Hc. destruct Hc as [Hc Hrest]. rewrite Hc.
  unfold parse. cbn [parts root].
  rewrite components_single by done. cbn [List.filter]. by rewrite Hpart.
Qed.

(** [os.path.basename] of a path that ends in a slash and a name. *)
Lemma basename_child (pre x : string) :
  PyStr.contains "/" x = false → basename (pre ++ "/" ++ x) = x.
Proof.
  intros Hx. unfold basename.
  assert (H : ∃ h t, components (pre ++ "/" ++ x) = h :: t ∧ t ≠ [] ∧ List.last t "" = x).
  { induction pre as [|c pre (h & t & IH & Ht & Hlast)].
    - exists "", [x]. rewrite app_empty, app_cons. cbn [components].
      change (Ascii.eqb "/" "/") with true. cbn iota.
      rewrite app_empty, components_single by done. done.
    - rewrite app_cons. cbn [components]. rewrite IH.
      destruct (Ascii.eqb c "/").
      + exists "", (h :: t). split; [done|]. split; [done|].
        destruct t; [done|]. exact Hlast.
      + by exists (String c h), t. }
  destruct H as (h & t & -> & Ht & Hlast). destruct t; [done|]. exact Hlast.
Qed.


(** *** Texts without a slash *)

Lemma digits_no_slash (u : Decimal.uint) :
  PyStr.contains "/" (NilEmpty.string_of_uint u) = false.
Proof. induction u; [done|..]; cbn [NilEmpty.string_of_uint PyStr.contains]; by rewrite IHu. Qed.

Lemma fmt02_no_slash (n : nat) : PyStr.contains "/" (PyStr.fmt02 n) = false.
Proof.
  assert (H : PyStr.contains "/" (PyStr.str_of_nat n) = false).
  { unfold PyStr.str_of_nat, NilZero.string_of_uint.
    destruct (Nat.to_uint n) eqn:E; try (rewrite <- E; apply digits_no_slash). done. }
  unfold PyStr.fmt02. destruct (_ <? 2)%nat; [|done].
  by rewrite no_slash_app, H.
Qed.

Section names.
Variables base_name stem : string.
Hypothesis stem_no_slash : PyStr.contains "/" stem = false.
Hypothesis base_no_slash : PyStr.contains "/" base_name = false.

Lemma lettered_component (suffix ext : string) :
  PyStr.contains "/" suffix = false → PyStr.contains "/" ext = false →
  component (stem ++ "_" ++ base_name ++ suffix ++ ext).
Proof.
  intros Hs He. split; [apply is_part_underscore|].
  by rewrite !no_slash_app, stem_no_slash, base_no_slash, Hs, He.
Qed.

End names.

(** *** The part of a name before the base name *)

Lemma split_head_first (sep pre post : string) :
  StrSpec.starts_inside sep pre (sep ++ post) = false →
  PyStr.split_head sep (pre ++ sep ++ post) = pre.
Proof.
  induction pre as [|c pre IH].
  - intros _. rewrite app_empty. destruct (sep ++ post) as [|c s] eqn:E; [done|].
    cbn [PyStr.split_head]. rewrite <- E.
    by rewrite (proj2 (prefix_app sep (sep ++ post))) by eauto.
  - cbn [StrSpec.starts_inside]. intros [Hhere Hlater]%orb_false_iff.
    rewrite app_cons in Hhere |- *. cbn [PyStr.split_head]. by rewrite Hhere, IH.
Qed.


Lemma contains_app_false (needle a b : string) :
  PyStr.contains needle (a ++ b) = false →
  PyStr.contains needle a = false ∧ PyStr.contains needle b = false.
Proof.
  intros H. split.
  - destruct (PyStr.contains needle a) eqn:E; [|done].
    apply contains_occurs in E as (pre & post & ->).
    assert (Hin : PyStr.contains needle ((pre ++ needle ++ post) ++ b) = true).
    { apply contains_occurs. exists pre, (post ++ b). by rewrite !PyStrMore.append_assoc. }
    congruence.
  - destruct (PyStr.contains needle b) eqn:E; [|done].
    apply contains_occurs in E as (pre & post & ->).
    assert (Hin : PyStr.contains needle (a ++ pre ++ needle ++ post) = true).
    { apply contains_occurs. exists (a ++ pre), post. by rewrite !PyStrMore.append_assoc. }
    congruence.
Qed.

Lemma json_of_stem (x : string) :
  PyStr.contains ".nii.gz" x = false → json_of (x ++ ".nii.gz") = x ++ ".json".
Proof.
  intros Hx. apply replace_extension. rewrite <- contains_occurs. by rewrite Hx.
Qed.

Lemma sorted_suffixes (l : list FileInfo.t) :
  Sorted PlanSpec.suffix_le l →
  Sorted (λ a b, String.leb a b = true) (FileInfo.suffix <$> l).
Proof.
  induction 1 as [|x l Hl IH Hhd]; [constructor|].
  rewrite fmap_cons. constructor; [done|]. destruct Hhd; constructor. done.
Qed.

(** *** The elements of a conventionally named group *)

Section group.
Variable fs : FS.t.
Variable stat_error : string → option string.
Variables subject_id session_id modality base_name : string.
Variable d : PyPath.t.
Variable stem : string.
Hypothesis d_normal : normal d.
Hypothesis d_parts : parts d ≠ [].
Hypothesis stem_no_slash : PyStr.contains "/" stem = false.
Hypothesis base_no_slash : PyStr.contains "/" base_name = false.

#[local] Abbreviation dir := (to_str d).
#[local] Abbreviation conventional := (PlanNames.conventional base_name dir stem).
#[local] Abbreviation lettered := (PlanNames.lettered base_name stem).
#[local] Abbreviation numbered := (PlanNames.numbered base_name stem).
#[local] Abbreviation volume_with_sidecar :=
  (PlanNames.volume_with_sidecar fs subject_id session_id modality base_name dir).

Lemma new_filename_conventional (i : nat) (file_info : FileInfo.t) :
  conventional file_info →
  member_new_filename base_name i file_info = numbered i ++ ".nii.gz".
Proof.
  intros (Hname & _ & _ & Hfirst & Hext & Hsecond & _). unfold member_new_filename.
  rewrite Hname.
  replace (stem ++ "_" ++ base_name ++ FileInfo.suffix file_info ++ ".nii.gz")
    with ((stem ++ "_") ++ (base_name ++ FileInfo.suffix file_info) ++ ".nii.gz")
    by (by rewrite !PyStrMore.append_assoc).
  rewrite PyStrMore.replace_single by done.
  replace ((stem ++ "_") ++ base_name ++ ".nii.gz")
    with (stem ++ ("_" ++ base_name ++ ".nii.gz") ++ "")
    by (by rewrite !PyStrMore.append_assoc, PyStrMore.append_empty_r).
  rewrite PyStrMore.replace_single; [|by rewrite PyStrMore.append_empty_r|reflexivity].
  unfold PlanNames.numbered.
  by rewrite !PyStrMore.append_assoc, PyStrMore.append_empty_r.
Qed.

Lemma conventional_path (file_info : FileInfo.t) :
  conventional file_info →
  component (FileInfo.filename file_info)
  ∧ FileInfo.full_path file_info = dir ++ "/" ++ lettered (FileInfo.suffix file_info) ++ ".nii.gz"
  ∧ parse (FileInfo.full_path file_info)
    = {| root := root d; parts := (parts d ++ [FileInfo.filename file_info])%list |}.
Proof.
  intros (Hname & Hpath & Hsuffix & _).
  assert (Hc : component (FileInfo.filename file_info)).
  { rewrite Hname. by apply lettered_component. }
  split; [done|]. split.
  - rewrite Hpath, Hname. unfold PlanNames.lettered. by rewrite !PyStrMore.append_assoc.
  - rewrite Hpath. by apply parse_child.
Qed.

(** The elements of one member: the volume under its numbered name, and
    its JSON file if that is on disk. *)
Lemma member_elements (i : nat) (file_info : FileInfo.t) :
  conventional file_info →
  PyStr.contains ".nii.gz" (dir ++ "/" ++ numbered i) = false →
  member_items fs subject_id session_id modality base_name i file_info
  = volume_with_sidecar (lettered (FileInfo.suffix file_info)) (numbered i)
                        (FileInfo.suffix file_info) (PyStr.fmt02 i).
Proof.
  intros Hconv Hnew.
  destruct (conventional_path file_info Hconv) as (Hc & Hpath & Hparse).
  pose proof (new_filename_conventional i file_info Hconv) as Hnew_name.
  destruct Hconv as (Hname & Hfull & Hsuffix & _ & _ & _ & _ & _ & Hold).
  assert (Hnew_c : component (numbered i ++ ".nii.gz")).
  { unfold PlanNames.numbered. rewrite !PyStrMore.append_assoc.
    apply (lettered_component base_name stem stem_no_slash base_no_slash
             ("_" ++ PyStr.fmt02 i) ".nii.gz"); [|done].
    by rewrite no_slash_app, fmt02_no_slash. }
  assert (Hnew_path : member_new_path base_name i file_info
                      = dir ++ "/" ++ numbered i ++ ".nii.gz").
  { unfold member_new_path. rewrite Hnew_name, Hfull. by apply sibling. }
  assert (Hjson_old : json_of (FileInfo.full_path file_info)
                      = dir ++ "/" ++ lettered (FileInfo.suffix file_info) ++ ".json").
  { rewrite Hpath.
    replace (dir ++ "/" ++ lettered (FileInfo.suffix file_info) ++ ".nii.gz")
      with ((dir ++ "/" ++ lettered (FileInfo.suffix file_info)) ++ ".nii.gz")
      by (by rewrite !PyStrMore.append_assoc).
    rewrite json_of_stem by done. by rewrite !PyStrMore.append_assoc. }
  assert (Hjson_new : json_of (member_new_path base_name i file_info)
                      = dir ++ "/" ++ numbered i ++ ".json").
  { rewrite Hnew_path.
    replace (dir ++ "/" ++ numbered i ++ ".nii.gz")
      with ((dir ++ "/" ++ numbered i) ++ ".nii.gz")
      by (by rewrite !PyStrMore.append_assoc).
    rewrite json_of_stem by done. by rewrite !PyStrMore.append_assoc. }
  unfold member_items, PlanNames.volume_with_sidecar, member_item, member_json_item,
    PlanNames.rename_in.
  rewrite Hjson_old, Hjson_new, Hnew_path, Hnew_name, !basename_child.
  - rewrite Hpath at 1. rewrite Hname at 1.
    unfold PlanNames.lettered. by rewrite !PyStrMore.append_assoc.
  - unfold PlanNames.numbered. rewrite !no_slash_app, stem_no_slash, base_no_slash.
    by rewrite fmt02_no_slash.
  - unfold PlanNames.lettered. by rewrite !no_slash_app, stem_no_slash, base_no_slash, Hsuffix.
Qed.

Lemma enumerate_elements (start : nat) (l : list FileInfo.t) :
  Forall conventional l →
  (∀ k, (start ≤ k < start + length l)%nat →
        PyStr.contains ".nii.gz" (dir ++ "/" ++ numbered k) = false) →
  enumerate_members fs subject_id session_id modality base_name start l
  = PlanNames.members_numbered fs subject_id session_id modality base_name dir stem
      start (FileInfo.suffix <$> l).
Proof.
  revert start. induction l as [|f l IH]; intros start Hall Hnew; [done|].
  apply Forall_cons in Hall as [Hf Hl]. cbn [enumerate_members length] in *.
  unfold PlanNames.members_numbered. rewrite fmap_cons, imap_cons. cbn [concat].
  rewrite Nat.add_0_r, member_elements; [|done|apply Hnew; lia]. f_equal.
  rewrite IH; [|done|intros k Hk; apply Hnew; lia].
  unfold PlanNames.members_numbered. f_equal. apply imap_ext.
  intros k suffix _. cbn [compose]. by rewrite Nat.add_succ_comm.
Qed.

(** The part of the sample's name before the base name. *)
Lemma subject_session_stem (file_info : FileInfo.t) :
  conventional file_info →
  subject_session base_name (parse (FileInfo.full_path file_info)) = stem.
Proof.
  intros Hconv. destruct (conventional_path file_info Hconv) as (_ & _ & Hparse).
  destruct Hconv as (Hname & _ & _ & _ & _ & _ & Hstem & Ht1w & _).
  unfold subject_session, name. rewrite Hparse. cbn [parts]. rewrite last_last, Hname.
  assert (Hsplit : PyStr.split_head ("_" ++ base_name)
                     (stem ++ "_" ++ base_name ++ FileInfo.suffix file_info ++ ".nii.gz")
                   = stem).
  { replace (stem ++ "_" ++ base_name ++ FileInfo.suffix file_info ++ ".nii.gz")
      with (stem ++ ("_" ++ base_name) ++ FileInfo.suffix file_info ++ ".nii.gz")
      by (by rewrite !PyStrMore.append_assoc).
    by apply split_head_first. }
  destruct Ht1w as [->|Hno].
  - change ("_T1w") with ("_" ++ "T1w"). rewrite Hsplit. by destruct (PyStr.contains "T1w" _).
  - rewrite Hname in Hno. by rewrite Hno, Hsplit.
Qed.

(** The elements of the base file, for a sample named by the
    convention: the path that the planner looks at is that of the
    unsuffixed file of the sample's directory. *)
Lemma base_elements (file_info : FileInfo.t) :
  conventional file_info →
  PyStr.contains ".nii.gz" (dir ++ "/" ++ numbered 1) = false →
  let sample_path := parse (FileInfo.full_path file_info) in
  to_str (base_file_path base_name sample_path) = dir ++ "/" ++ lettered "" ++ ".nii.gz"
  ∧ base_items fs subject_id session_id modality true base_name sample_path
    = volume_with_sidecar (lettered "") (numbered 1) "" "01".
Proof.
  intros Hconv Hnew sample_path.
  pose proof (subject_session_stem file_info Hconv) as Hstem. fold sample_path in Hstem.
  destruct (conventional_path file_info Hconv) as (Hc & _ & _).
  destruct Hconv as (_ & Hfull & _ & _ & _ & _ & _ & _ & Hold).
  assert (Hbase_name : base_filename base_name sample_path = lettered "" ++ ".nii.gz").
  { unfold base_filename, PlanNames.lettered. rewrite Hstem.
    by rewrite !PyStrMore.append_assoc. }
  assert (Hnew_name : base_new_filename base_name sample_path = numbered 1 ++ ".nii.gz").
  { unfold base_new_filename, PlanNames.numbered. rewrite Hstem.
    by rewrite !PyStrMore.append_assoc. }
  assert (Hbase_c : component (lettered "" ++ ".nii.gz")).
  { unfold PlanNames.lettered. rewrite !PyStrMore.append_assoc.
    by apply lettered_component. }
  assert (Hnew_c : component (numbered 1 ++ ".nii.gz")).
  { unfold PlanNames.numbered. rewrite !PyStrMore.append_assoc.
    by apply (lettered_component base_name stem stem_no_slash base_no_slash
                ("_" ++ PyStr.fmt02 1) ".nii.gz"). }
  assert (Hbase_path : to_str (base_file_path base_name sample_path)
                       = dir ++ "/" ++ lettered "" ++ ".nii.gz").
  { unfold base_file_path. rewrite Hbase_name. unfold sample_path. rewrite Hfull.
    by apply sibling. }
  assert (Hnew_path : base_new_path base_name sample_path
                      = dir ++ "/" ++ numbered 1 ++ ".nii.gz").
  { unfold base_new_path. rewrite Hnew_name. unfold sample_path. rewrite Hfull.
    by apply sibling. }
  assert (Hdir_base : PyStr.contains ".nii.gz" (dir ++ "/" ++ lettered "") = false).
  { unfold PlanNames.lettered in *. rewrite PyStrMore.append_empty_r.
    replace (dir ++ "/" ++ stem ++ "_" ++ base_name ++ FileInfo.suffix file_info)
      with ((dir ++ "/" ++ stem ++ "_" ++ base_name) ++ FileInfo.suffix file_info) in Hold
      by (by rewrite !PyStrMore.append_assoc).
    by apply contains_app_false in Hold as [? _]. }
  assert (Hjson : ∀ x, PyStr.contains ".nii.gz" (dir ++ "/" ++ x) = false →
                       json_of (dir ++ "/" ++ x ++ ".nii.gz") = dir ++ "/" ++ x ++ ".json"
                       ∧ json_of (x ++ ".nii.gz") = x ++ ".json").
  { intros x Hx. split.
    - replace (dir ++ "/" ++ x ++ ".nii.gz") with ((dir ++ "/" ++ x) ++ ".nii.gz")
        by (by rewrite !PyStrMore.append_assoc).
      rewrite json_of_stem by done. by rewrite !PyStrMore.append_assoc.
    - apply json_of_stem.
      replace (dir ++ "/" ++ x) with ((dir ++ "/") ++ x) in Hx
        by (by rewrite !PyStrMore.append_assoc).
      by apply contains_app_false in Hx as [_ ?]. }
  split; [done|].
  destruct (Hjson _ Hdir_base) as [Hj1 Hj2]. destruct (Hjson _ Hnew) as [Hj3 Hj4].
  unfold base_items, PlanNames.volume_with_sidecar, base_item, base_json_item,
    PlanNames.rename_in.
  by rewrite Hbase_path, Hnew_path, Hbase_name, Hnew_name, Hj1, Hj2, Hj3, Hj4.
Qed.


End group.


(** The documented plan of the two lettered volumes next to their base
    file, in full. *)
Example documented_plan_base_ab :
  (λ item, (Item.old_path item, Item.new_filename item, Item.old_suffix item,
            Item.new_suffix item))
    <$> PlanNames.documented_plan Samples.base_ab_fs "sub-027S6512" "ses-20220331" "anat"
          "T1w" "/bids/sub-027S6512/ses-20220331/anat" "sub-027S6512_ses-20220331"
          ["a"; "b"]
  = [ (Samples.anat_dir ++ "sub-027S6512_ses-20220331_T1w.nii.gz",
       "sub-027S6512_ses-20220331_T1w_01.nii.gz", "", "01");
      (Samples.anat_dir ++ "sub-027S6512_ses-20220331_T1w.json",
       "sub-027S6512_ses-20220331_T1w_01.json", "", "01");
      (Samples.anat_dir ++ "sub-027S6512_ses-20220331_T1wa.nii.gz",
       "sub-027S6512_ses-20220331_T1w_02.nii.gz", "a", "02");
      (Samples.anat_dir ++ "sub-027S6512_ses-20220331_T1wb.nii.gz",
       "sub-027S6512_ses-20220331_T1w_03.nii.gz", "b", "03") ].
Proof. vm_compute. reflexivity. Qed.


End PlannerNames.
